(** * The POS transaction and reconciliation engine

    A shallow embedding of [src/services/storage.ts], of the totals
    computation of the billing page, of the balance computation of the khata
    page and of the day-close handler of [src/pages/Ledger.tsx].

    Modelling conventions.
    - The five [localStorage] collections are the five fields of [Store.t];
      every read parses a fresh copy and every write serialises one, so the
      collections have value semantics and a missing key reads as [[]].
    - Stock and line quantities, which the source reads with [parseInt] and
      changes by whole steps, are [Z]. Every other JavaScript [number] (a
      price, a rate, an amount of money) is held as a rational [Q], and
      sums and differences of stored amounts are exact. [calculateTotals],
      whose [Math.round] turns the rounding of the arithmetic into a whole
      unit of currency, is computed in IEEE 754 doubles, the kernel's
      [float].
    - An optional field of a TypeScript interface is an [option].
    - [throw] is the [Thrown] outcome of the [js] monad, which keeps the
      store as it was when the exception left the function. *)

From Stdlib Require Import ZArith QArith Qround Qabs Lqa Ascii.
From Stdlib Require Floats.PrimFloat Floats.SpecFloat Floats.FloatOps.
From stdpp Require Import base option list sorting strings pretty gmap.

Local Open Scope string_scope.
Local Open Scope list_scope.

(** ** The data model ([types.ts]) *)

Module PaymentMode.
Inductive t := CASH | CREDIT | UPI | MIXED.
#[global] Instance eq_dec : EqDecision t.
Proof. solve_decision. Defined.
End PaymentMode.

Module Status.
Inductive t := PAID | CREDIT | PARTIAL | CANCELLED.
#[global] Instance eq_dec : EqDecision t.
Proof. solve_decision. Defined.
End Status.

Module KhataType.
Inductive t := DEBIT | CREDIT.
#[global] Instance eq_dec : EqDecision t.
Proof. solve_decision. Defined.
End KhataType.

Module Product.
Record t := mk {
  id : string;
  name : string;
  code : string;
  category : string;
  purchasePrice : Q;
  sellingPrice : Q;
  stock : Z;
  stockUnit : option string;
  gstPercent : Q;
  gstIncluded : option bool
}.
(** [p.stock = s] on a parsed copy of [p]. *)
Definition set_stock (s : Z) (p : t) : t :=
  mk (id p) (name p) (code p) (category p) (purchasePrice p)
     (sellingPrice p) s (stockUnit p) (gstPercent p) (gstIncluded p).
End Product.

Module CartItem.
(** [interface CartItem extends Product]: the product snapshot and the two
    fields of the line. *)
Record t := mk {
  product : Product.t;
  qty : Z;
  discount : Q
}.
Definition id (i : t) : string := Product.id (product i).
Definition sellingPrice (i : t) : Q := Product.sellingPrice (product i).
Definition gstPercent (i : t) : Q := Product.gstPercent (product i).
Definition gstIncluded (i : t) : option bool := Product.gstIncluded (product i).
End CartItem.

Module Customer.
Record t := mk {
  id : string;
  name : string;
  mobile : string;
  address : option string;
  gst : option string
}.
End Customer.

Module Bill.
Record t := mk {
  id : string;
  date : string;
  timestamp : Z;
  items : list CartItem.t;
  subtotal : Q;
  totalGst : Q;
  totalDiscount : Q;
  grandTotal : Q;
  paymentMode : PaymentMode.t;
  customerId : option string;
  cashAmount : option Q;
  upiAmount : option Q;
  status : Status.t
}.
(** [bill.status = s]. *)
Definition set_status (s : Status.t) (b : t) : t :=
  mk (id b) (date b) (timestamp b) (items b) (subtotal b) (totalGst b)
     (totalDiscount b) (grandTotal b) (paymentMode b) (customerId b)
     (cashAmount b) (upiAmount b) s.
End Bill.

Module LedgerEntry.
Record t := mk {
  date : string;
  openingBalance : Q;
  grossSales : Q;
  onlineSales : Q;
  creditSales : Q;
  expenses : Q;
  expectedCash : Q;
  actualCash : Q;
  depositedToBank : Q;
  closingBalance : Q;
  difference : Q;
  isClosed : bool;
  isAutoMode : bool;
  notes : option string
}.
End LedgerEntry.

Module KhataEntry.
Record t := mk {
  id : string;
  billId : option string;
  customerId : string;
  amount : Q;
  type : KhataType.t;
  date : string;
  description : string
}.
End KhataEntry.

(** ** The persisted store and the monad of the storage functions *)

Module Store.
(** One field per key of [KEYS]. *)
Record t := mk {
  products : list Product.t;
  bills : list Bill.t;
  customers : list Customer.t;
  ledger : list LedgerEntry.t;
  khata : list KhataEntry.t
}.
Definition empty : t := mk [] [] [] [] [].
End Store.

(** How a call ends: it returns a value or an exception leaves it. *)
Inductive outcome (A : Type) : Type :=
| Returned (a : A)
| Thrown (msg : string).
Arguments Returned {A} a.
Arguments Thrown {A} msg.

(** A storage function reads and writes the store and may throw. The store
    in the result is the one the caller finds afterwards, also on [Thrown]:
    the writes made before a [throw] stay. *)
Definition js (A : Type) : Type := Store.t → outcome A * Store.t.

Definition ret {A} (a : A) : js A := λ s, (Returned a, s).

Definition bind {A B} (m : js A) (k : A → js B) : js B :=
  λ s, match m s with
       | (Returned a, s') => k a s'
       | (Thrown msg, s') => (Thrown msg, s')
       end.

Definition throw {A} (msg : string) : js A := λ s, (Thrown msg, s).

(** The monad uses stdpp's notations [x ← m; k] and [m ;; k]. *)
#[global] Instance js_ret : MRet js := @ret.
#[global] Instance js_bind : MBind js := λ A B k m, bind m k.

(** [get(KEYS.K, [])] and [set(KEYS.K, val)], one pair per key. *)
Definition get_PRODUCTS : js (list Product.t) := λ s, (Returned (Store.products s), s).
Definition get_BILLS : js (list Bill.t) := λ s, (Returned (Store.bills s), s).
Definition get_CUSTOMERS : js (list Customer.t) := λ s, (Returned (Store.customers s), s).
Definition get_LEDGER : js (list LedgerEntry.t) := λ s, (Returned (Store.ledger s), s).
Definition get_KHATA : js (list KhataEntry.t) := λ s, (Returned (Store.khata s), s).

Definition set_PRODUCTS (v : list Product.t) : js unit :=
  λ s, (Returned tt,
        Store.mk v (Store.bills s) (Store.customers s) (Store.ledger s) (Store.khata s)).
Definition set_BILLS (v : list Bill.t) : js unit :=
  λ s, (Returned tt,
        Store.mk (Store.products s) v (Store.customers s) (Store.ledger s) (Store.khata s)).
Definition set_CUSTOMERS (v : list Customer.t) : js unit :=
  λ s, (Returned tt,
        Store.mk (Store.products s) (Store.bills s) v (Store.ledger s) (Store.khata s)).
Definition set_LEDGER (v : list LedgerEntry.t) : js unit :=
  λ s, (Returned tt,
        Store.mk (Store.products s) (Store.bills s) (Store.customers s) v (Store.khata s)).
Definition set_KHATA (v : list KhataEntry.t) : js unit :=
  λ s, (Returned tt,
        Store.mk (Store.products s) (Store.bills s) (Store.customers s) (Store.ledger s) v).

(** The store a call leaves behind, and how it ended. *)
Definition exec {A} (m : js A) (s : Store.t) : Store.t := snd (m s).
Definition result {A} (m : js A) (s : Store.t) : outcome A := fst (m s).

(** ** [storage.ts]: products and customers *)

Definition getProducts : js (list Product.t) := get_PRODUCTS.

Definition saveProduct (product : Product.t) : js unit :=
  products ← getProducts;
  set_PRODUCTS
    match list_find (λ p, Product.id p = Product.id product) products with
    | Some (index, _) => <[index := product]> products
    | None => products ++ [product]
    end.

Definition deleteProduct (id : string) : js unit :=
  products ← getProducts;
  set_PRODUCTS (filter (λ p, Product.id p ≠ id) products).

Definition getCustomers : js (list Customer.t) := get_CUSTOMERS.

Definition saveCustomer (customer : Customer.t) : js unit :=
  customers ← getCustomers;
  set_CUSTOMERS
    match list_find (λ c, Customer.id c = Customer.id customer) customers with
    | Some (index, _) => <[index := customer]> customers
    | None => customers ++ [customer]
    end.

(** ** [storage.ts]: bills, khata and the inventory update *)

(** The body of [bill.items.forEach] in [saveBill]:
    [products[pIndex].stock -= item.qty] when [findIndex] finds the id. *)
Definition deductItem (products : list Product.t) (item : CartItem.t) : list Product.t :=
  match list_find (λ p, Product.id p = CartItem.id item) products with
  | Some (pIndex, p) =>
      <[pIndex := Product.set_stock (Product.stock p - CartItem.qty item) p]> products
  | None => products
  end.

(** The body of [bill.items.forEach] in [cancelBill]:
    [products[pIndex].stock += item.qty]. *)
Definition restoreItem (products : list Product.t) (item : CartItem.t) : list Product.t :=
  match list_find (λ p, Product.id p = CartItem.id item) products with
  | Some (pIndex, p) =>
      <[pIndex := Product.set_stock (Product.stock p + CartItem.qty item) p]> products
  | None => products
  end.

(** [`Bill #${bill.id.slice(0, 8)}`]. *)
Definition billDescription (billId : string) : string :=
  "Bill #" +:+ String.substring 0 8 billId.

(** [saveBill(bill, customer?)]. [uuid] is what [crypto.randomUUID()] returns
    for the khata entry. *)
Definition saveBill (uuid : string) (bill : Bill.t) (customer : option Customer.t)
  : js unit :=
  (* 1. Save Bill *)
  bills ← get_BILLS;
  set_BILLS (bills ++ [bill]) ;;
  (* 2. Update Inventory *)
  products ← getProducts;
  set_PRODUCTS (foldl deductItem products (Bill.items bill)) ;;
  (* 3. Save Customer if new/updated *)
  match customer with
  | Some c => saveCustomer c
  | None => ret tt
  end ;;
  (* 4. Update Khata if Credit *)
  if decide (Bill.paymentMode bill = PaymentMode.CREDIT
             ∨ Bill.status bill = Status.CREDIT)
  then
    match customer with
    | None => throw "Customer required for credit"
    | Some c =>
        khata ← get_KHATA;
        set_KHATA (khata ++ [KhataEntry.mk uuid (Some (Bill.id bill)) (Customer.id c)
                               (Bill.grandTotal bill) KhataType.DEBIT (Bill.date bill)
                               (billDescription (Bill.id bill))])
    end
  else ret tt.

Definition getBills : js (list Bill.t) := get_BILLS.
Definition getKhata : js (list KhataEntry.t) := get_KHATA.

(** [cancelBill(billId)]. The two early [return]s leave the store as it is. *)
Definition cancelBill (billId : string) : js unit :=
  bills ← getBills;
  match list_find (λ b, Bill.id b = billId) bills with
  | None => ret tt
  | Some (billIndex, bill) =>
      if decide (Bill.status bill = Status.CANCELLED) then ret tt
      else
        (* 1. Mark as cancelled *)
        let bill := Bill.set_status Status.CANCELLED bill in
        set_BILLS (<[billIndex := bill]> bills) ;;
        (* 2. Restore Inventory *)
        products ← getProducts;
        set_PRODUCTS (foldl restoreItem products (Bill.items bill)) ;;
        (* 3. Reverse Khata (if applicable) *)
        if decide (Bill.paymentMode bill = PaymentMode.CREDIT) then
          khata ← getKhata;
          set_KHATA (filter (λ k, KhataEntry.billId k ≠ Some billId) khata)
        else ret tt
  end.

(** [addKhataPayment(customerId, amount, date)]. *)
Definition addKhataPayment (uuid : string) (customerId : string) (amount : Q)
    (date : string) : js unit :=
  khata ← get_KHATA;
  set_KHATA (khata ++ [KhataEntry.mk uuid None customerId amount KhataType.CREDIT
                         date "Payment Received"]).

(** [addManualKhataDebit(customer, amount, date, description)]. *)
Definition addManualKhataDebit (uuid : string) (customer : Customer.t) (amount : Q)
    (date description : string) : js unit :=
  saveCustomer customer ;;
  khata ← get_KHATA;
  set_KHATA (khata ++ [KhataEntry.mk uuid None (Customer.id customer) amount
                         KhataType.DEBIT date description]).

(** ** JavaScript built-ins *)

(** [a < b] on strings: code-unit lexicographic order. *)
Definition str_lt (a b : string) : Prop := String.ltb a b = true.
#[global] Instance str_lt_dec a b : Decision (str_lt a b).
Proof. unfold str_lt. apply _. Defined.

(** [Array.prototype.sort(cmp)], a stable sort, as the insertion of every
    element, from the last to the first, before the first element it does
    not compare greater than. [cmp a b] is the comparator's number, with
    [NaN] already read as [+0] as [sort] does. *)
Fixpoint sortInsert {A} (cmp : A → A → Z) (x : A) (l : list A) : list A :=
  match l with
  | [] => [x]
  | y :: l' => if decide (cmp x y ≤ 0)%Z then x :: l else y :: sortInsert cmp x l'
  end.

Definition Array_sort {A} (cmp : A → A → Z) (l : list A) : list A :=
  foldr (sortInsert cmp) [] l.

(** [a] may stand before [b] in a list sorted by descending [key]. *)
Definition descending {A} (key : A → Z) (a b : A) : Prop := (key b ≤ key a)%Z.

(** [x || 0] on a number. *)
Definition orZero (x : Q) : Q := if Qeq_bool x 0 then 0%Q else x.

(** [Math.round(x)]: the integer [floor(x + 1/2)], ties going up. *)
Definition Math_round (x : Q) : Q := inject_Z (Qfloor (x + (1 # 2))).

(** ** JavaScript numbers as IEEE 754 doubles

    [PrimFloat.float] is binary64 with round-to-nearest-even, the
    arithmetic of a JS number. *)

Import PrimFloat.PrimFloatNotations.

(** The double of an integer: the integer itself when its size is below
    [2^53], else the nearest double. *)
Definition Z2F (z : Z) : PrimFloat.float :=
  FloatOps.SF2Prim
    (SpecFloat.binary_normalize FloatOps.prec FloatOps.emax z 0 false).

(** The double a number of the model stands for: the double nearest to
    the rational, the one with an even mantissa when two are equally near.
    A rational that is the value of a double gives that double; a decimal
    price gives what its literal or [parseFloat] gives the program. The
    quotient is taken to 63 bits and more, with a last bit that says
    whether anything is left, and rounded once. *)
Definition Q2F (x : Q) : PrimFloat.float :=
  let n := Qnum x in
  let d := Zpos (Qden x) in
  let k := Z.max 0 (64 + Z.log2 d - Z.log2 (Z.abs n)) in
  let a := (Z.abs n * 2 ^ k)%Z in
  let sticky := if (a mod d =? 0)%Z then 0%Z else 1%Z in
  let size :=
    FloatOps.SF2Prim
      (SpecFloat.binary_normalize FloatOps.prec FloatOps.emax
         (2 * (a / d) + sticky) (- k - 1) false) in
  if (n <? 0)%Z then (- size)%float else size.

(** The value of a double. An infinity and [NaN] have no value among the
    numbers of the model and read as 0. *)
Definition F2Q (x : PrimFloat.float) : Q :=
  match FloatOps.Prim2SF x with
  | SpecFloat.S754_finite s m e =>
      let size :=
        if (0 <=? e)%Z then inject_Z (Zpos m * 2 ^ e)
        else (inject_Z (Zpos m) / inject_Z (2 ^ (- e)))%Q in
      Qred (if s then - size else size)
  | _ => 0%Q
  end.

(** ** [Billing.tsx]: the totals of a cart *)

Module Totals.
Record t := mk {
  subtotal : Q;
  totalGst : Q;
  totalDiscount : Q;
  grandTotal : Q
}.
End Totals.

(** What one pass of [cart.forEach] in [calculateTotals] computes for a
    line: [(itemTaxable, itemTax)]. An absent [gstIncluded] is falsy. *)
Definition itemTaxableTax (item : CartItem.t) : PrimFloat.float * PrimFloat.float :=
  let qty := Z2F (CartItem.qty item) in
  let price := Q2F (CartItem.sellingPrice item) in
  let rate := Q2F (CartItem.gstPercent item) in
  let isIncluded := default false (CartItem.gstIncluded item) in
  if isIncluded then
    let totalValue := (price * qty)%float in
    let itemTaxable := (totalValue / (Z2F 1 + rate / Z2F 100))%float in
    (itemTaxable, (totalValue - itemTaxable)%float)
  else
    let itemTaxable := (price * qty)%float in
    (itemTaxable, (itemTaxable * (rate / Z2F 100))%float).

(** The loop of [calculateTotals]: its three running variables
    [(subtotal, totalGst, totalDiscount)] after the last line. *)
Definition totalsLoop (cart : list CartItem.t)
  : PrimFloat.float * PrimFloat.float * PrimFloat.float :=
  foldl (λ '(subtotal, totalGst, totalDiscount) item,
           let '(itemTaxable, itemTax) := itemTaxableTax item in
           ((subtotal + itemTaxable)%float,
            (totalGst + itemTax)%float,
            (totalDiscount + Q2F (orZero (CartItem.discount item)))%float))
        (Z2F 0, Z2F 0, Z2F 0) cart.

(** [calculateTotals()] of the billing page, on its [cart]: the values of
    the four numbers it returns. [Math.round] of a finite double is the
    integer [floor(x + 1/2)] of its value, without a rounding of its
    own. *)
Definition calculateTotals (cart : list CartItem.t) : Totals.t :=
  let '(subtotal, totalGst, totalDiscount) := totalsLoop cart in
  let grandTotal := Math_round (F2Q (subtotal + totalGst - totalDiscount)%float) in
  Totals.mk (F2Q subtotal) (F2Q totalGst) (F2Q totalDiscount) grandTotal.

(** The contribution of a line in double arithmetic, every operation
    rounded to the nearest double: with price [P], quantity [q] and rate
    [r], the taxable value is [P*q / (1 + r/100)] and the tax
    [P*q - taxable] when the price includes the tax, else [P*q] and
    [taxable * (r/100)]. *)
Definition doubleTaxable (item : CartItem.t) : PrimFloat.float :=
  let P := Q2F (CartItem.sellingPrice item) in
  let q := Z2F (CartItem.qty item) in
  let r := Q2F (CartItem.gstPercent item) in
  if default false (CartItem.gstIncluded item)
  then (P * q / (Z2F 1 + r / Z2F 100))%float
  else (P * q)%float.

Definition doubleTax (item : CartItem.t) : PrimFloat.float :=
  let P := Q2F (CartItem.sellingPrice item) in
  let q := Z2F (CartItem.qty item) in
  let r := Q2F (CartItem.gstPercent item) in
  if default false (CartItem.gstIncluded item)
  then (P * q - doubleTaxable item)%float
  else (doubleTaxable item * (r / Z2F 100))%float.

Definition doubleDiscount (item : CartItem.t) : PrimFloat.float :=
  Q2F (orZero (CartItem.discount item)).

(** The doubles of a list added up in the order of the list, from 0, each
    addition rounded. *)
Definition doubleSum (l : list PrimFloat.float) : PrimFloat.float :=
  foldl PrimFloat.add (Z2F 0) l.

(** The contribution of a line in the words of the specification, in
    exact arithmetic: with
    price [P], quantity [q] and rate [r], the taxable value is
    [P*q / (1 + r/100)] and the tax [P*q - taxable] when the price includes
    the tax, else [P*q] and [taxable * r / 100]. *)
Definition specTaxable (item : CartItem.t) : Q :=
  let P := CartItem.sellingPrice item in
  let q := inject_Z (CartItem.qty item) in
  let r := CartItem.gstPercent item in
  if default false (CartItem.gstIncluded item)
  then (P * q / (1 + r / 100))%Q
  else (P * q)%Q.

Definition specTax (item : CartItem.t) : Q :=
  let P := CartItem.sellingPrice item in
  let q := inject_Z (CartItem.qty item) in
  let r := CartItem.gstPercent item in
  if default false (CartItem.gstIncluded item)
  then (P * q - specTaxable item)%Q
  else (specTaxable item * r / 100)%Q.

(** The sum of a list of numbers. *)
Definition Qsum (l : list Q) : Q := foldr Qplus 0%Q l.

(** The grand total in the words of the specification, in exact
    arithmetic: [round(subtotal + totalGst - totalDiscount)] of the three
    sums over the lines. *)
Definition specGrandTotal (cart : list CartItem.t) : Q :=
  Math_round (Qsum (specTaxable <$> cart) + Qsum (specTax <$> cart)
              - Qsum (CartItem.discount <$> cart)).

(** ** [Khata.tsx]: the balance of every customer *)

(** The body of [khata.forEach] in [calculateBalances]. *)
Definition balanceStep (balances : gmap string Q) (k : KhataEntry.t) : gmap string Q :=
  let cid := KhataEntry.customerId k in
  let cur := orZero (default 0%Q (balances !! cid)) in
  if decide (KhataEntry.type k = KhataType.DEBIT)
  then <[cid := (cur + KhataEntry.amount k)%Q]> balances
  else <[cid := (cur - KhataEntry.amount k)%Q]> balances.

(** [calculateBalances(khata, custs)]: the object [balances] it builds. *)
Definition calculateBalances (khata : list KhataEntry.t) (custs : list Customer.t)
  : gmap string Q :=
  let balances := foldl (λ balances c, <[Customer.id c := 0%Q]> balances) ∅ custs in
  foldl balanceStep balances khata.

(** The outstanding balance in the words of the data model: the sum of the
    DEBIT amounts minus the sum of the CREDIT amounts, over the entries of
    the customer. *)
Definition sumAmounts (ty : KhataType.t) (customerId : string)
    (khata : list KhataEntry.t) : Q :=
  Qsum
    (KhataEntry.amount <$>
       filter (λ k, KhataEntry.customerId k = customerId ∧ KhataEntry.type k = ty) khata).

Definition balanceFor (customerId : string) (khata : list KhataEntry.t) : Q :=
  (sumAmounts KhataType.DEBIT customerId khata
   - sumAmounts KhataType.CREDIT customerId khata)%Q.

(** ** [storage.ts]: the cash ledger *)

Definition getLedger : js (list LedgerEntry.t) := get_LEDGER.

(** [saveLedgerDay(entry)]. *)
Definition saveLedgerDay (entry : LedgerEntry.t) : js unit :=
  ledger ← getLedger;
  set_LEDGER (filter (λ l, LedgerEntry.date l ≠ LedgerEntry.date entry) ledger ++ [entry]).

(** The unstored row [getLedgerEntry] returns for a date without one. *)
Definition newLedgerEntry (date : string) (openingBalance : Q) : LedgerEntry.t :=
  {| LedgerEntry.date := date;
     LedgerEntry.openingBalance := openingBalance;
     LedgerEntry.grossSales := 0;
     LedgerEntry.onlineSales := 0;
     LedgerEntry.creditSales := 0;
     LedgerEntry.expenses := 0;
     LedgerEntry.expectedCash := 0;
     LedgerEntry.actualCash := 0;
     LedgerEntry.difference := 0;
     LedgerEntry.depositedToBank := 0;
     LedgerEntry.closingBalance := 0;
     LedgerEntry.isClosed := false;
     LedgerEntry.isAutoMode := true;
     LedgerEntry.notes := None |}.

Module DailyStats.
Record t := mk { grossSales : Q; onlineSales : Q; creditSales : Q }.
End DailyStats.

(** The body of [bills.forEach] in [calculateDailyStats]. *)
Definition dailyStatsStep (acc : DailyStats.t) (b : Bill.t) : DailyStats.t :=
  let grossSales := (DailyStats.grossSales acc + Bill.grandTotal b)%Q in
  let onlineSales := DailyStats.onlineSales acc in
  let creditSales := DailyStats.creditSales acc in
  match Bill.paymentMode b with
  | PaymentMode.UPI =>
      DailyStats.mk grossSales (onlineSales + Bill.grandTotal b)%Q creditSales
  | PaymentMode.CREDIT =>
      DailyStats.mk grossSales onlineSales (creditSales + Bill.grandTotal b)%Q
  | PaymentMode.MIXED =>
      let upi := orZero (default 0%Q (Bill.upiAmount b)) in
      DailyStats.mk grossSales (onlineSales + upi)%Q creditSales
  | PaymentMode.CASH => DailyStats.mk grossSales onlineSales creditSales
  end.

(** [calculateDailyStats(date)]. *)
Definition calculateDailyStats (date : string) : js DailyStats.t :=
  bills ← getBills;
  let bills := filter (λ b, String.prefix date (Bill.date b) = true
                            ∧ Bill.status b ≠ Status.CANCELLED) bills in
  mret (foldl dailyStatsStep (DailyStats.mk 0 0 0) bills).

(** ** Reference built-ins

    The ledger code calls [new Date(s).getTime()], [parseFloat] and
    [Number.prototype.toString]. The model takes them as parameters (section
    [Env] below). The functions here are the instances the examples run on:
    they agree with the built-ins on calendar dates written [YYYY-MM-DD],
    on unsigned decimal numerals and on whole numbers. *)

Definition digitOf (c : ascii) : option Z :=
  let n := (Z.of_N (Ascii.N_of_ascii c) - 48)%Z in
  if decide (0 ≤ n ≤ 9)%Z then Some n else None.

Fixpoint digitsValue (acc : Z) (cs : list ascii) : option Z :=
  match cs with
  | [] => Some acc
  | c :: cs => d ← digitOf c; digitsValue (10 * acc + d)%Z cs
  end.

Definition isLeapYear (y : Z) : bool :=
  ((y mod 4 =? 0) && (negb (y mod 100 =? 0) || (y mod 400 =? 0)))%Z.

Definition daysInMonth (y m : Z) : Z :=
  if (m =? 2)%Z then (if isLeapYear y then 29 else 28)%Z
  else if ((m =? 4) || (m =? 6) || (m =? 9) || (m =? 11))%Z then 30%Z
  else 31%Z.

(** Days from 1970-01-01 to the civil date [y]-[m]-[d]. *)
Definition daysFromCivil (y m d : Z) : Z :=
  let y := (if m <=? 2 then y - 1 else y)%Z in
  let era := (y / 400)%Z in
  let yoe := (y - era * 400)%Z in
  let doy := ((153 * (if 2 <? m then m - 3 else m + 9) + 2) / 5 + d - 1)%Z in
  let doe := (yoe * 365 + yoe / 4 - yoe / 100 + doy)%Z in
  (era * 146097 + doe - 719468)%Z.

(** [new Date(s).getTime()] on a date-only ISO string: the milliseconds
    from the epoch to midnight UTC of that day. *)
Definition isoGetTime (s : string) : option Z :=
  match String.list_ascii_of_string s with
  | [y1; y2; y3; y4; dash1; m1; m2; dash2; d1; d2] =>
      if decide (dash1 = "-"%char ∧ dash2 = "-"%char) then
        y ← digitsValue 0 [y1; y2; y3; y4];
        m ← digitsValue 0 [m1; m2];
        d ← digitsValue 0 [d1; d2];
        if decide (1 ≤ m ≤ 12 ∧ 1 ≤ d ≤ daysInMonth y m)%Z
        then Some (daysFromCivil y m d * 86400000)%Z
        else None
      else None
  | _ => None
  end.

(** The characters of [cs] before and after its first ["."]. *)
Fixpoint splitAtDot (cs : list ascii) : list ascii * list ascii :=
  match cs with
  | [] => ([], [])
  | c :: cs' =>
      if decide (c = "."%char) then ([], cs')
      else let '(whole, frac) := splitAtDot cs' in (c :: whole, frac)
  end.

(** [parseFloat(s)] on an unsigned decimal numeral such as ["5000"] or
    ["12.50"]; [None] ([NaN]) when [s] has no leading digit. *)
Definition decimalParseFloat (s : string) : option Q :=
  let '(whole, frac) := splitAtDot (String.list_ascii_of_string s) in
  match whole with
  | [] => None
  | _ =>
      w ← digitsValue 0 whole;
      f ← digitsValue 0 frac;
      Some (Qred (inject_Z w + inject_Z f / inject_Z (10 ^ Z.of_nat (length frac))))
  end.

(** [num.toString()] on a whole number. *)
Definition wholeToString (num : Q) : string := pretty (Qfloor num).

(** [s.toLowerCase()] on ASCII letters. *)
Definition lowerChar (c : ascii) : ascii :=
  let n := Ascii.N_of_ascii c in
  if ((65 <=? n) && (n <=? 90))%N then Ascii.ascii_of_N (n + 32) else c.
Definition asciiToLowerCase (s : string) : string :=
  String.string_of_list_ascii (lowerChar <$> String.list_ascii_of_string s).

(** [a.localeCompare(b)] in a locale that orders by code unit. *)
Definition codeUnitCompare (a b : string) : Z :=
  match String.compare a b with
  | Lt => (-1)%Z
  | Eq => 0%Z
  | Gt => 1%Z
  end.

Module Inputs.
(** The strings of the form of the ledger page. *)
Record t := mk {
  openingBalance : string;
  grossSales : string;
  onlineSales : string;
  creditSales : string;
  expenses : string;
  actualCash : string;
  bankDeposit : string;
  notes : string
}.
End Inputs.

Module AutoData.
Record t := mk {
  openingBalance : Q;
  grossSales : Q;
  onlineSales : Q;
  creditSales : Q
}.
End AutoData.

Module LedgerPage.
(** The React state of [Ledger] that the handlers read and set. *)
Record t := mk {
  selectedDate : string;
  todayLedger : option LedgerEntry.t;
  isAutoMode : bool;
  autoData : AutoData.t;
  inputs : Inputs.t
}.
End LedgerPage.

Section Env.

(** The built-ins the ledger code calls and the model does not define. *)

(** [new Date(s).getTime()], [None] for [NaN] (an invalid date). *)
Variable getTime : string → option Z.
(** [parseFloat(s)], [None] for [NaN]. *)
Variable parseFloat : string → option Q.
(** [num.toString()]. *)
Variable numToString : Q → string.

(** The comparator of [getLedgerEntry]:
    [new Date(b.date).getTime() - new Date(a.date).getTime()]. *)
Definition byDateDesc (a b : LedgerEntry.t) : Z :=
  match getTime (LedgerEntry.date b), getTime (LedgerEntry.date a) with
  | Some tb, Some ta => (tb - ta)%Z
  | _, _ => 0%Z
  end.

(** [getLedgerEntry(date)]. The sort works on the parsed copy of the
    ledger and nothing is written back. *)
Definition getLedgerEntry (date : string) : js LedgerEntry.t :=
  ledger ← getLedger;
  match list_find (λ l, LedgerEntry.date l = date) ledger with
  | Some (_, existingEntry) => mret existingEntry
  | None =>
      let sorted := Array_sort byDateDesc ledger in
      let lastEntry := list_find (λ l, str_lt (LedgerEntry.date l) date) sorted in
      let openingBalance :=
        match lastEntry with
        | Some (_, lastEntry) => LedgerEntry.closingBalance lastEntry
        | None => 0%Q
        end in
      mret (newLedgerEntry date openingBalance)
  end.

(** The time of the date of a row, for the rows whose date is valid. *)
Definition timeOf (l : LedgerEntry.t) : Z :=
  default 0%Z (getTime (LedgerEntry.date l)).

(** [a] is a day before [b], as [Date] reads the two. *)
Definition earlier (a b : LedgerEntry.t) : Prop :=
  ∃ ta tb, getTime (LedgerEntry.date a) = Some ta
           ∧ getTime (LedgerEntry.date b) = Some tb
           ∧ (ta < tb)%Z.

(** [e] is the latest stored entry with a date before [date]: it is
    stored, its date is below [date], and any other stored entry with a
    date below [date] is of an earlier day. *)
Definition latestBefore (ledger : list LedgerEntry.t) (date : string)
    (e : LedgerEntry.t) : Prop :=
  e ∈ ledger
  ∧ str_lt (LedgerEntry.date e) date
  ∧ ∀ e', e' ∈ ledger → str_lt (LedgerEntry.date e') date → e' = e ∨ earlier e' e.

(** *** [Ledger.tsx]: the state of the page and the day-close handler *)

(** [formatInput(num)] and [parseNum(str)]. *)
Definition formatInput (num : Q) : string :=
  if Qeq_bool num 0 then "" else numToString num.

Definition parseNum (str : string) : Q :=
  match parseFloat str with
  | None => 0%Q
  | Some val => val
  end.

(** [fetchData(date)]: the page state after its [set...] calls. A closed
    row replaces [todayLedger] and leaves the rest of the page alone. *)
Definition fetchData (date : string) (pg : LedgerPage.t) : js LedgerPage.t :=
  base ← getLedgerEntry date;
  if negb (LedgerEntry.isClosed base) then
    stats ← calculateDailyStats date;
    let baseOpening := LedgerEntry.openingBalance base in
    mret (LedgerPage.mk (LedgerPage.selectedDate pg) (Some base) true
            (AutoData.mk baseOpening (DailyStats.grossSales stats)
               (DailyStats.onlineSales stats) (DailyStats.creditSales stats))
            (Inputs.mk
               (formatInput baseOpening)
               (formatInput (DailyStats.grossSales stats))
               (formatInput (DailyStats.onlineSales stats))
               (formatInput (DailyStats.creditSales stats))
               (formatInput (orZero (LedgerEntry.expenses base)))
               (if Qeq_bool (LedgerEntry.actualCash base) 0 then ""
                else formatInput (LedgerEntry.actualCash base))
               (if Qeq_bool (LedgerEntry.depositedToBank base) 0 then ""
                else formatInput (LedgerEntry.depositedToBank base))
               (default "" (LedgerEntry.notes base))))
  else
    mret (LedgerPage.mk (LedgerPage.selectedDate pg) (Some base)
            (LedgerPage.isAutoMode pg) (LedgerPage.autoData pg) (LedgerPage.inputs pg)).

(** The figures the component derives from its inputs on every render. *)
Definition currentOpening (pg : LedgerPage.t) : Q :=
  parseNum (Inputs.openingBalance (LedgerPage.inputs pg)).
Definition currentGross (pg : LedgerPage.t) : Q :=
  parseNum (Inputs.grossSales (LedgerPage.inputs pg)).
Definition currentOnline (pg : LedgerPage.t) : Q :=
  parseNum (Inputs.onlineSales (LedgerPage.inputs pg)).
Definition currentCredit (pg : LedgerPage.t) : Q :=
  parseNum (Inputs.creditSales (LedgerPage.inputs pg)).
Definition currentExpenses (pg : LedgerPage.t) : Q :=
  parseNum (Inputs.expenses (LedgerPage.inputs pg)).

Definition totalDeductions (pg : LedgerPage.t) : Q :=
  (currentOnline pg + currentCredit pg + currentExpenses pg)%Q.
Definition expectedCash (pg : LedgerPage.t) : Q :=
  ((currentOpening pg + currentGross pg) - totalDeductions pg)%Q.

Definition actualCashVal (pg : LedgerPage.t) : Q :=
  parseNum (Inputs.actualCash (LedgerPage.inputs pg)).
Definition bankDepositVal (pg : LedgerPage.t) : Q :=
  parseNum (Inputs.bankDeposit (LedgerPage.inputs pg)).
Definition adjustedClosingCash (pg : LedgerPage.t) : Q :=
  (actualCashVal pg - bankDepositVal pg)%Q.
Definition difference (pg : LedgerPage.t) : Q :=
  (actualCashVal pg - expectedCash pg)%Q.

(** The row [handleCloseDay] builds: every field of [LedgerEntry] is set
    after the spread of [todayLedger], so nothing of it remains. *)
Definition closingEntry (pg : LedgerPage.t) : LedgerEntry.t :=
  {| LedgerEntry.date := LedgerPage.selectedDate pg;
     LedgerEntry.openingBalance := currentOpening pg;
     LedgerEntry.grossSales := currentGross pg;
     LedgerEntry.onlineSales := currentOnline pg;
     LedgerEntry.creditSales := currentCredit pg;
     LedgerEntry.expenses := currentExpenses pg;
     LedgerEntry.expectedCash := expectedCash pg;
     LedgerEntry.actualCash := actualCashVal pg;
     LedgerEntry.depositedToBank := bankDepositVal pg;
     LedgerEntry.closingBalance := adjustedClosingCash pg;
     LedgerEntry.difference := difference pg;
     LedgerEntry.isClosed := true;
     LedgerEntry.isAutoMode := LedgerPage.isAutoMode pg;
     LedgerEntry.notes := Some (Inputs.notes (LedgerPage.inputs pg)) |}.

(** [handleCloseDay()]: the [alert] it shows, if any, and the page state
    after it. *)
Definition handleCloseDay (pg : LedgerPage.t) : js (option string * LedgerPage.t) :=
  match LedgerPage.todayLedger pg with
  | None => mret (None, pg)
  | Some _ =>
      if decide (Inputs.actualCash (LedgerPage.inputs pg) = "")
      then mret (Some "Please enter Actual Closing Cash count.", pg)
      else if Qlt_le_dec (actualCashVal pg) (bankDepositVal pg)
      then mret (Some "Bank deposit cannot exceed actual cash.", pg)
      else
        saveLedgerDay (closingEntry pg) ;;
        pg' ← fetchData (LedgerPage.selectedDate pg) pg;
        mret (Some "Day Closed Successfully!", pg')
  end.

End Env.

(** ** The writers of the store

    Every exported function of [storage.ts] that writes, as one
    operation of a session. *)
Inductive op : Type :=
| SaveProduct (product : Product.t)
| DeleteProduct (id : string)
| SaveCustomer (customer : Customer.t)
| SaveBill (uuid : string) (bill : Bill.t) (customer : option Customer.t)
| CancelBill (billId : string)
| AddKhataPayment (uuid customerId : string) (amount : Q) (date : string)
| AddManualKhataDebit (uuid : string) (customer : Customer.t) (amount : Q)
    (date description : string)
| SaveLedgerDay (entry : LedgerEntry.t).

Definition run_op (o : op) : js unit :=
  match o with
  | SaveProduct p => saveProduct p
  | DeleteProduct id => deleteProduct id
  | SaveCustomer c => saveCustomer c
  | SaveBill uuid bill customer => saveBill uuid bill customer
  | CancelBill billId => cancelBill billId
  | AddKhataPayment uuid cid amount date => addKhataPayment uuid cid amount date
  | AddManualKhataDebit uuid c amount date description =>
      addManualKhataDebit uuid c amount date description
  | SaveLedgerDay entry => saveLedgerDay entry
  end.

(** The store after an operation; an exception ends that operation only. *)
Definition step (s : Store.t) (o : op) : Store.t := exec (run_op o) s.

Definition run (ops : list op) (s : Store.t) : Store.t := foldl step s ops.

(** The stores a session can reach from an empty [localStorage]. *)
Inductive reachable : Store.t → Prop :=
| reachable_empty : reachable Store.empty
| reachable_step s o : reachable s → reachable (step s o).

(** An operation that writes the ledger row of [date]. *)
Definition closes (date : string) (o : op) : Prop :=
  match o with
  | SaveLedgerDay entry => LedgerEntry.date entry = date
  | _ => False
  end.

(** ** The adjustment of a stock in closed form

    [adjustStock id delta products] adds [delta] to the stock of the first
    product with that id and changes nothing when there is none: what
    [deductItem] does with [- qty] and [restoreItem] with [qty]
    (lemmas [deductItem_adjustStock] and [restoreItem_adjustStock]). *)
Fixpoint adjustStock (id : string) (delta : Z) (products : list Product.t)
  : list Product.t :=
  match products with
  | [] => []
  | p :: products' =>
      if decide (Product.id p = id)
      then Product.set_stock (Product.stock p + delta) p :: products'
      else p :: adjustStock id delta products'
  end.

(** The stock the inventory holds for an id: that of the first product
    with the id, which is the one [findIndex] finds. *)
Definition stockOf (id : string) (products : list Product.t) : option Z :=
  (λ found, Product.stock (snd found))
    <$> list_find (λ p, Product.id p = id) products.

(** The quantity the lines of a bill ask of an id. *)
Definition soldQty (id : string) (items : list CartItem.t) : Z :=
  foldr (λ item total,
           if decide (CartItem.id item = id) then (CartItem.qty item + total)%Z
           else total) 0%Z items.

(** An operation that cancels the bill [billId]. *)
Definition cancels (billId : string) (o : op) : Prop :=
  match o with
  | CancelBill b => b = billId
  | _ => False
  end.

(** An operation that writes the products. *)
Definition writesProducts (o : op) : Prop :=
  match o with
  | SaveProduct _ | DeleteProduct _ | SaveBill _ _ _ | CancelBill _ => True
  | _ => False
  end.

(** The khata entry [saveBill] appends for a credit sale. *)
Definition saleDebit (uuid : string) (bill : Bill.t) (c : Customer.t) : KhataEntry.t :=
  KhataEntry.mk uuid (Some (Bill.id bill)) (Customer.id c) (Bill.grandTotal bill)
    KhataType.DEBIT (Bill.date bill) (billDescription (Bill.id bill)).

(** ** [storage.ts]: the live figures of today

    The date of today, [new Date().toISOString().split('T')[0]], is an
    argument of the functions that read the clock. *)

Definition calculateTodayLiveStats (todayStr : string) : js DailyStats.t :=
  calculateDailyStats todayStr.

Module LiveCash.
Record t := mk { cashSales : Q; creditReceived : Q }.
End LiveCash.

(** [calculateTodayLiveCash()]. The clock is read once for the statistics
    ([todayStr]) and once for the khata ([today]). *)
Definition calculateTodayLiveCash (todayStr today : string) : js LiveCash.t :=
  stats ← calculateTodayLiveStats todayStr;
  khata ← getKhata;
  let khata := filter (λ k, String.prefix today (KhataEntry.date k) = true
                            ∧ KhataEntry.type k = KhataType.CREDIT) khata in
  let creditReceived := foldl (λ sum k, (sum + KhataEntry.amount k)%Q) 0%Q khata in
  let cashSales := (DailyStats.grossSales stats - DailyStats.onlineSales stats
                    - DailyStats.creditSales stats)%Q in
  mret (LiveCash.mk cashSales creditReceived).

(** ** [TodaySales.tsx]: the bills of a day and their totals *)

Module TodaySales.
(** [fetchData()]: the bills of the selected date, latest first. *)
Definition fetchData (selectedDate : string) : js (list Bill.t) :=
  allBills ← getBills;
  let filtered :=
    filter (λ b, String.prefix selectedDate (Bill.date b) = true) allBills in
  mret (Array_sort (λ a b, Bill.timestamp b - Bill.timestamp a)%Z filtered).

(** [handleDelete(id)]; [confirmed] is the answer to [confirm(...)]. *)
Definition handleDelete (selectedDate : string) (confirmed : bool) (id : string)
  : js (option (list Bill.t)) :=
  if confirmed then
    cancelBill id ;;
    bills ← fetchData selectedDate;
    mret (Some bills)
  else mret None.

(** The derived metrics of the page, from its [bills]. *)
Definition activeBills (bills : list Bill.t) : list Bill.t :=
  filter (λ b, Bill.status b ≠ Status.CANCELLED) bills.

Definition totalSales (bills : list Bill.t) : Q :=
  foldl (λ sum b, (sum + Bill.grandTotal b)%Q) 0%Q (activeBills bills).

Definition totalCount (bills : list Bill.t) : nat := length (activeBills bills).

Definition avgBillValue (bills : list Bill.t) : Q :=
  if decide (0 < totalCount bills)
  then Math_round (totalSales bills / inject_Z (Z.of_nat (totalCount bills)))
  else 0%Q.
End TodaySales.

(** ** [Billing.tsx]: the cart *)

(** [addToCart(product)], as the function it passes to [setCart]. *)
Definition addToCart (product : Product.t) (prev : list CartItem.t) : list CartItem.t :=
  match list_find (λ item, CartItem.id item = Product.id product) prev with
  | Some _ =>
      (λ item, if decide (CartItem.id item = Product.id product)
               then CartItem.mk (CartItem.product item) (CartItem.qty item + 1)
                      (CartItem.discount item)
               else item) <$> prev
  | None => prev ++ [CartItem.mk product 1 0]
  end.

(** [updateQty(id, delta)], as the function it passes to [setCart]. The
    [alert] of the refused line leaves the cart alone and is not kept;
    [filter(Boolean)] keeps every item, each being an object. *)
Definition updateQty (id : string) (delta : Z) (prev : list CartItem.t)
  : list CartItem.t :=
  (λ item,
     if decide (CartItem.id item = id) then
       let newQty := Z.max 1 (CartItem.qty item + delta) in
       if decide (Product.stock (CartItem.product item) < newQty)%Z then item
       else CartItem.mk (CartItem.product item) newQty (CartItem.discount item)
     else item) <$> prev.

(** [removeItem(id)]. *)
Definition removeItem (id : string) (prev : list CartItem.t) : list CartItem.t :=
  filter (λ item, CartItem.id item ≠ id) prev.

(** What the cashier does to the cart. *)
Inductive cartAction : Type :=
| AddToCart (product : Product.t)
| UpdateQty (id : string) (delta : Z)
| RemoveItem (id : string).

Definition cartStep (cart : list CartItem.t) (a : cartAction) : list CartItem.t :=
  match a with
  | AddToCart product => addToCart product cart
  | UpdateQty id delta => updateQty id delta cart
  | RemoveItem id => removeItem id cart
  end.

(** ** [Billing.tsx]: checkout *)

Module BillingPage.
(** The React state of [Billing] that checkout reads and sets. *)
Record t := mk {
  cart : list CartItem.t;
  paymentMode : PaymentMode.t;
  selectedCustomer : option Customer.t;
  cashAmount : string;
  showConfirmation : bool
}.
End BillingPage.

Section Checkout.

(** [parseFloat(s)], [None] for [NaN]. *)
Variable parseFloat : string → option Q.

(** [parseFloat(cashAmount) || 0]. *)
Definition cashOf (cashAmount : string) : Q :=
  match parseFloat cashAmount with
  | None => 0%Q
  | Some cash => orZero cash
  end.

(** [handleCheckout()]: the [alert], if any, and the page after it. *)
Definition handleCheckout (pg : BillingPage.t) : option string * BillingPage.t :=
  let grandTotal := Totals.grandTotal (calculateTotals (BillingPage.cart pg)) in
  if decide (length (BillingPage.cart pg) = 0) then (Some "Cart is empty", pg)
  else if decide (BillingPage.paymentMode pg = PaymentMode.CREDIT
                  ∧ BillingPage.selectedCustomer pg = None)
  then (Some "Customer required for Credit", pg)
  else
    let confirm :=
      (None,
       BillingPage.mk (BillingPage.cart pg) (BillingPage.paymentMode pg)
         (BillingPage.selectedCustomer pg) (BillingPage.cashAmount pg) true) in
    if decide (BillingPage.paymentMode pg = PaymentMode.MIXED) then
      let cash := cashOf (BillingPage.cashAmount pg) in
      if Qlt_le_dec grandTotal cash then (Some "Cash cannot exceed total", pg)
      else confirm
    else confirm.

(** The bill [finalizeBill] builds. [id], [date] and [timestamp] are what
    [crypto.randomUUID()], [new Date().toISOString()] and [Date.now()]
    return. *)
Definition billOf (id date : string) (timestamp : Z) (pg : BillingPage.t) : Bill.t :=
  let t := calculateTotals (BillingPage.cart pg) in
  let paymentMode := BillingPage.paymentMode pg in
  {| Bill.id := id;
     Bill.date := date;
     Bill.timestamp := timestamp;
     Bill.items := BillingPage.cart pg;
     Bill.subtotal := Totals.subtotal t;
     Bill.totalGst := Totals.totalGst t;
     Bill.totalDiscount := Totals.totalDiscount t;
     Bill.grandTotal := Totals.grandTotal t;
     Bill.paymentMode := paymentMode;
     Bill.customerId := Customer.id <$> BillingPage.selectedCustomer pg;
     Bill.cashAmount :=
       if decide (paymentMode = PaymentMode.MIXED)
       then Some (cashOf (BillingPage.cashAmount pg)) else None;
     Bill.upiAmount :=
       if decide (paymentMode = PaymentMode.MIXED)
       then Some (Totals.grandTotal t - cashOf (BillingPage.cashAmount pg))%Q
       else None;
     Bill.status :=
       if decide (paymentMode = PaymentMode.CREDIT) then Status.CREDIT
       else Status.PAID |}.

(** [finalizeBill()]: the [alert] and the page after the reset. [uuid] is
    the id of the khata entry [saveBill] may append. An exception of
    [saveBill] leaves before the reset. *)
Definition finalizeBill (id date : string) (timestamp : Z) (uuid : string)
    (pg : BillingPage.t) : js (string * BillingPage.t) :=
  saveBill uuid (billOf id date timestamp pg) (BillingPage.selectedCustomer pg) ;;
  mret ("Bill Generated Successfully!",
        BillingPage.mk [] PaymentMode.CASH None "" false).

End Checkout.

(** ** [Ledger.tsx]: the mode switch and the form *)

(** The fields of the form, [keyof typeof inputs]. *)
Inductive inputField : Type :=
| F_openingBalance | F_grossSales | F_onlineSales | F_creditSales
| F_expenses | F_actualCash | F_bankDeposit | F_notes.

(** [{ ...prev, [field]: value }]. *)
Definition setInput (field : inputField) (value : string) (prev : Inputs.t) : Inputs.t :=
  match field with
  | F_openingBalance =>
      Inputs.mk value (Inputs.grossSales prev) (Inputs.onlineSales prev)
        (Inputs.creditSales prev) (Inputs.expenses prev) (Inputs.actualCash prev)
        (Inputs.bankDeposit prev) (Inputs.notes prev)
  | F_grossSales =>
      Inputs.mk (Inputs.openingBalance prev) value (Inputs.onlineSales prev)
        (Inputs.creditSales prev) (Inputs.expenses prev) (Inputs.actualCash prev)
        (Inputs.bankDeposit prev) (Inputs.notes prev)
  | F_onlineSales =>
      Inputs.mk (Inputs.openingBalance prev) (Inputs.grossSales prev) value
        (Inputs.creditSales prev) (Inputs.expenses prev) (Inputs.actualCash prev)
        (Inputs.bankDeposit prev) (Inputs.notes prev)
  | F_creditSales =>
      Inputs.mk (Inputs.openingBalance prev) (Inputs.grossSales prev)
        (Inputs.onlineSales prev) value (Inputs.expenses prev)
        (Inputs.actualCash prev) (Inputs.bankDeposit prev) (Inputs.notes prev)
  | F_expenses =>
      Inputs.mk (Inputs.openingBalance prev) (Inputs.grossSales prev)
        (Inputs.onlineSales prev) (Inputs.creditSales prev) value
        (Inputs.actualCash prev) (Inputs.bankDeposit prev) (Inputs.notes prev)
  | F_actualCash =>
      Inputs.mk (Inputs.openingBalance prev) (Inputs.grossSales prev)
        (Inputs.onlineSales prev) (Inputs.creditSales prev) (Inputs.expenses prev)
        value (Inputs.bankDeposit prev) (Inputs.notes prev)
  | F_bankDeposit =>
      Inputs.mk (Inputs.openingBalance prev) (Inputs.grossSales prev)
        (Inputs.onlineSales prev) (Inputs.creditSales prev) (Inputs.expenses prev)
        (Inputs.actualCash prev) value (Inputs.notes prev)
  | F_notes =>
      Inputs.mk (Inputs.openingBalance prev) (Inputs.grossSales prev)
        (Inputs.onlineSales prev) (Inputs.creditSales prev) (Inputs.expenses prev)
        (Inputs.actualCash prev) (Inputs.bankDeposit prev) value
  end.

(** [value.split('.')[1]] for a [value] that includes ['.']: the characters
    between its first and its second dot. *)
Definition secondPart (value : string) : list ascii :=
  fst (splitAtDot (snd (splitAtDot (String.list_ascii_of_string value)))).

(** [handleInputChange(field, value)]: a value with more than two
    characters after its first dot is dropped. *)
Definition handleInputChange (field : inputField) (value : string)
    (pg : LedgerPage.t) : LedgerPage.t :=
  if decide ("."%char ∈ String.list_ascii_of_string value
             ∧ 2 < length (secondPart value))
  then pg
  else LedgerPage.mk (LedgerPage.selectedDate pg) (LedgerPage.todayLedger pg)
         (LedgerPage.isAutoMode pg) (LedgerPage.autoData pg)
         (setInput field value (LedgerPage.inputs pg)).

Section LedgerModes.

(** [num.toString()]. *)
Variable numToString : Q → string.

(** [handleModeSwitch(mode)]; [newAutoMode] is [mode === 'auto']. *)
Definition handleModeSwitch (newAutoMode : bool) (pg : LedgerPage.t) : LedgerPage.t :=
  let prev := LedgerPage.inputs pg in
  let autoData := LedgerPage.autoData pg in
  LedgerPage.mk (LedgerPage.selectedDate pg) (LedgerPage.todayLedger pg) newAutoMode
    autoData
    (if newAutoMode then
       Inputs.mk
         (formatInput numToString (AutoData.openingBalance autoData))
         (formatInput numToString (AutoData.grossSales autoData))
         (formatInput numToString (AutoData.onlineSales autoData))
         (formatInput numToString (AutoData.creditSales autoData))
         (Inputs.expenses prev) (Inputs.actualCash prev)
         (Inputs.bankDeposit prev) (Inputs.notes prev)
     else prev).

(** The effect on [isAutoMode, todayLedger, selectedDate]: the live
    refresh of an open day in auto mode. *)
Definition autoRefresh (pg : LedgerPage.t) : js LedgerPage.t :=
  match LedgerPage.todayLedger pg with
  | Some todayLedger =>
      if LedgerPage.isAutoMode pg && negb (LedgerEntry.isClosed todayLedger) then
        stats ← calculateDailyStats (LedgerPage.selectedDate pg);
        let prevData := LedgerPage.autoData pg in
        let prev := LedgerPage.inputs pg in
        mret (LedgerPage.mk (LedgerPage.selectedDate pg) (LedgerPage.todayLedger pg)
                (LedgerPage.isAutoMode pg)
                (AutoData.mk (AutoData.openingBalance prevData)
                   (DailyStats.grossSales stats) (DailyStats.onlineSales stats)
                   (DailyStats.creditSales stats))
                (Inputs.mk (Inputs.openingBalance prev)
                   (formatInput numToString (DailyStats.grossSales stats))
                   (formatInput numToString (DailyStats.onlineSales stats))
                   (formatInput numToString (DailyStats.creditSales stats))
                   (Inputs.expenses prev) (Inputs.actualCash prev)
                   (Inputs.bankDeposit prev) (Inputs.notes prev)))
      else mret pg
  | None => mret pg
  end.

End LedgerModes.

(** ** [storage.ts] and [CashInHand.tsx]: the ledger of today *)

Module CashView.
(** What [fetchData] of the cash page sets. *)
Record t := mk {
  historyList : list LedgerEntry.t;
  depositHistory : list LedgerEntry.t;
  data : option LedgerEntry.t
}.
End CashView.

(** [a > b] on numbers is decidable. *)
#[global] Instance Qlt_decision (x y : Q) : Decision (x < y)%Q.
Proof.
  destruct (Qlt_le_dec x y) as [H|H]; [left; exact H | right; by apply Qle_not_lt].
Defined.

Section Today.

(** [new Date(s).getTime()], [None] for [NaN]. *)
Variable getTime : string → option Z.
(** [a.localeCompare(b)]. *)
Variable localeCompare : string → string → Z.

(** [getTodayLedger()]; [today] is the date the clock shows. *)
Definition getTodayLedger (today : string) : js LedgerEntry.t :=
  getLedgerEntry getTime today.

(** [fetchData()] of the cash page. The clock is read for the test
    [isToday] ([today]), in [getTodayLedger] ([today1]) and in
    [calculateTodayLiveStats] ([today2]). *)
Definition cashFetchData (selectedDate today today1 today2 : string)
  : js CashView.t :=
  allLedger ← getLedger;
  let sorted :=
    Array_sort (λ a b, localeCompare (LedgerEntry.date b) (LedgerEntry.date a))
      allLedger in
  let historyList := filter (λ l, LedgerEntry.isClosed l = true) sorted in
  let depositHistory := filter (λ l, (0 < LedgerEntry.depositedToBank l)%Q) sorted in
  let entry := snd <$> list_find (λ l, LedgerEntry.date l = selectedDate) allLedger in
  if decide (selectedDate = today) then
    base ← getTodayLedger today1;
    if negb (LedgerEntry.isClosed base) then
      stats ← calculateTodayLiveStats today2;
      let expected :=
        ((LedgerEntry.openingBalance base + DailyStats.grossSales stats)
         - (DailyStats.onlineSales stats + DailyStats.creditSales stats
            + orZero (LedgerEntry.expenses base)
            + orZero (LedgerEntry.depositedToBank base)))%Q in
      mret (CashView.mk historyList depositHistory
              (Some {| LedgerEntry.date := LedgerEntry.date base;
                       LedgerEntry.openingBalance := LedgerEntry.openingBalance base;
                       LedgerEntry.grossSales := DailyStats.grossSales stats;
                       LedgerEntry.onlineSales := DailyStats.onlineSales stats;
                       LedgerEntry.creditSales := DailyStats.creditSales stats;
                       LedgerEntry.expenses := LedgerEntry.expenses base;
                       LedgerEntry.expectedCash := expected;
                       LedgerEntry.actualCash := LedgerEntry.actualCash base;
                       LedgerEntry.depositedToBank := LedgerEntry.depositedToBank base;
                       LedgerEntry.closingBalance := LedgerEntry.closingBalance base;
                       LedgerEntry.difference := LedgerEntry.difference base;
                       LedgerEntry.isClosed := LedgerEntry.isClosed base;
                       LedgerEntry.isAutoMode := LedgerEntry.isAutoMode base;
                       LedgerEntry.notes := LedgerEntry.notes base |}))
    else mret (CashView.mk historyList depositHistory (Some base))
  else mret (CashView.mk historyList depositHistory entry).

End Today.

(** ** [Dashboard.tsx]: the figures of today *)

Module Dashboard.
Record t := mk {
  todaySales : Q;
  todayCash : Q;
  todayCreditGiven : Q;
  lowStockCount : nat
}.

(** The body of [todayBills.forEach]: [(totalSales, creditGiven)]. *)
Definition billStep (acc : Q * Q) (b : Bill.t) : Q * Q :=
  let totalSales := (fst acc + Bill.grandTotal b)%Q in
  let creditGiven :=
    if decide (Bill.paymentMode b = PaymentMode.CREDIT)
    then (snd acc + Bill.grandTotal b)%Q else snd acc in
  let creditGiven :=
    if decide (Bill.paymentMode b = PaymentMode.MIXED)
    then (creditGiven
          + (Bill.grandTotal b - orZero (default 0%Q (Bill.cashAmount b))
             - orZero (default 0%Q (Bill.upiAmount b))))%Q
    else creditGiven in
  (totalSales, creditGiven).

(** The effect of the dashboard. The clock is read twice in
    [calculateTodayLiveCash] ([today1], [today2]) and once here
    ([todayStr]). *)
Definition loadStats (today1 today2 todayStr : string) : js t :=
  live ← calculateTodayLiveCash today1 today2;
  bills ← getBills;
  let todayBills :=
    filter (λ b, String.prefix todayStr (Bill.date b) = true
                 ∧ Bill.status b ≠ Status.CANCELLED) bills in
  let '(totalSales, creditGiven) := foldl billStep (0%Q, 0%Q) todayBills in
  products ← getProducts;
  let lowStock := length (filter (λ p, (Product.stock p < 10)%Z) products) in
  mret (mk totalSales (LiveCash.cashSales live + LiveCash.creditReceived live)%Q
          creditGiven lowStock).
End Dashboard.

(** ** [Inventory.tsx]: the import of a purchase list *)

Module ImportItem.
(** A line of the preview; [''] in a number field is [None]. *)
Record t := mk {
  id : string;
  name : string;
  batch : string;
  expiry : string;
  qty : option Z;
  mrp : option Q;
  rate : option Q;
  unit : string
}.
End ImportItem.

Module ImportStats.
Record t := mk { added : nat; totalStock : Z }.
End ImportStats.

(** The stock of all products together. *)
Definition totalStockOf (products : list Product.t) : Z :=
  foldr Z.add 0%Z (Product.stock <$> products).

Section PurchaseList.

(** [s.toLowerCase()]. *)
Variable toLowerCase : string → string.
(** What [crypto.randomUUID()] returns while a line is imported. *)
Variable freshId : ImportItem.t → string.
(** ['INV-' + Date.now().toString().slice(-6)] while a line is imported. *)
Variable fallbackCode : ImportItem.t → string.

(** The product [finalizeImport] saves for a line. [products] is the state
    of the page, which the loop does not refresh. *)
Definition importProduct (products : list Product.t) (item : ImportItem.t)
  : Product.t :=
  let qty := default 0%Z (ImportItem.qty item) in
  let rate := default 0%Q (ImportItem.rate item) in
  let mrp := default 0%Q (ImportItem.mrp item) in
  match list_find (λ p, toLowerCase (Product.name p)
                        = toLowerCase (ImportItem.name item)) products with
  | Some (_, existing) =>
      {| Product.id := Product.id existing;
         Product.name := Product.name existing;
         Product.code := Product.code existing;
         Product.category := Product.category existing;
         Product.purchasePrice :=
           if Qlt_le_dec 0 rate then rate else Product.purchasePrice existing;
         Product.sellingPrice :=
           if Qlt_le_dec 0 mrp then mrp else Product.sellingPrice existing;
         Product.stock := (Product.stock existing + qty)%Z;
         Product.stockUnit := Product.stockUnit existing;
         Product.gstPercent := Product.gstPercent existing;
         Product.gstIncluded := Product.gstIncluded existing |}
  | None =>
      {| Product.id := freshId item;
         Product.name := ImportItem.name item;
         Product.code :=
           if decide (ImportItem.batch item = "") then fallbackCode item
           else ImportItem.batch item;
         Product.category := "Pharma";
         Product.purchasePrice := rate;
         Product.sellingPrice := mrp;
         Product.stock := qty;
         Product.stockUnit := Some (ImportItem.unit item);
         Product.gstPercent := 0;
         Product.gstIncluded := Some false |}
  end.

(** The loop of [finalizeImport], with its two counters. *)
Fixpoint importLoop (products : list Product.t) (previewData : list ImportItem.t)
    (count : nat) (totalStockAdded : Z) : js (nat * Z) :=
  match previewData with
  | [] => mret (count, totalStockAdded)
  | item :: previewData =>
      saveProduct (importProduct products item) ;;
      importLoop products previewData (S count)
        (totalStockAdded + default 0%Z (ImportItem.qty item))%Z
  end.

(** [finalizeImport()]: the statistics it shows and the products it reads
    back. *)
Definition finalizeImport (products : list Product.t)
    (previewData : list ImportItem.t) : js (ImportStats.t * list Product.t) :=
  '(count, totalStockAdded) ← importLoop products previewData 0 0%Z;
  products' ← getProducts;
  mret (ImportStats.mk count totalStockAdded, products').

End PurchaseList.

(** ** Data of the examples *)

Module Demo.
Definition soap : Product.t :=
  Product.mk "p1" "Soap" "S001" "Grocery" 90 118 5 None 18 (Some true).
Definition rice : Product.t :=
  Product.mk "p2" "Rice" "R001" "Grocery" 40 50 20 (Some "Kg") 5 (Some false).

Definition line (p : Product.t) (qty : Z) (discount : Q) : CartItem.t :=
  CartItem.mk p qty discount.

Definition asha : Customer.t := Customer.mk "c1" "Asha" "9000000001" None None.

(** A bill of [cart], with the totals the billing page computes for it. *)
Definition bill (id : string) (cart : list CartItem.t) (mode : PaymentMode.t)
    (customerId : option string) (status : Status.t) : Bill.t :=
  let t := calculateTotals cart in
  Bill.mk id "2024-03-05T10:00:00.000Z" 1709632800000 cart
    (Qred (Totals.subtotal t)) (Qred (Totals.totalGst t))
    (Totals.totalDiscount t) (Totals.grandTotal t)
    mode customerId None None status.

(** A credit sale of two soaps to Asha, 236 in all. *)
Definition creditBill : Bill.t :=
  bill "b1" [line soap 2 0] PaymentMode.CREDIT (Some "c1") Status.CREDIT.

(** A cash sale of seven soaps, two more than the shelf holds. *)
Definition bigBill : Bill.t :=
  bill "b2" [line soap 7 0] PaymentMode.CASH None Status.PAID.


Definition shop : Store.t := Store.mk [soap; rice] [] [] [] [].

(** The shop after the cash sale. *)
Definition busyShop : Store.t := exec (saveBill "k0" bigBill None) shop.

(** A closed day that ended with [closingBalance] in the till. *)
Definition day (date : string) (closingBalance : Q) : LedgerEntry.t :=
  {| LedgerEntry.date := date;
     LedgerEntry.openingBalance := 0;
     LedgerEntry.grossSales := 0;
     LedgerEntry.onlineSales := 0;
     LedgerEntry.creditSales := 0;
     LedgerEntry.expenses := 0;
     LedgerEntry.expectedCash := 0;
     LedgerEntry.actualCash := closingBalance;
     LedgerEntry.depositedToBank := 0;
     LedgerEntry.closingBalance := closingBalance;
     LedgerEntry.difference := closingBalance;
     LedgerEntry.isClosed := true;
     LedgerEntry.isAutoMode := true;
     LedgerEntry.notes := None |}.

(** A shop with three closed days, stored out of order. *)
Definition ledgerShop : Store.t :=
  Store.mk [soap; rice] [] []
    [day "2024-03-04" 3000; day "2024-03-01" 1000; day "2024-03-10" 9000] [].

(** The ledger page of [date] with the form filled in. *)
Definition page (date actualCash bankDeposit : string) : LedgerPage.t :=
  LedgerPage.mk date (Some (newLedgerEntry date 1000)) true
    (AutoData.mk 1000 4500 500 300)
    (Inputs.mk "1000" "4500" "500" "300" "200" actualCash bankDeposit "ok").

(** The shop on the fifth of March: the fourth was closed with 3000 in the
    till and the cash sale of 826 is recorded. *)
Definition openShop : Store.t :=
  Store.mk [soap; rice] [bigBill] [] [day "2024-03-04" 3000] [].

(** The ledger page of [date] before anything is loaded. *)
Definition blankPage (date : string) : LedgerPage.t :=
  LedgerPage.mk date None true (AutoData.mk 0 0 0 0)
    (Inputs.mk "" "" "" "" "" "" "" "").

(** The billing page with two soaps for Asha, on credit. *)
Definition billing : BillingPage.t :=
  BillingPage.mk [line soap 2 0] PaymentMode.CREDIT (Some asha) "" false.

(** Lines of a purchase list: salt is new, the two others are soap. *)
Definition saltLine : ImportItem.t :=
  ImportItem.mk "i1" "Salt" "B7" "" (Some 4%Z) (Some 20%Q) (Some 15%Q) "Kg".
Definition soapLine : ImportItem.t :=
  ImportItem.mk "i2" "SOAP" "" "" (Some 10%Z) None (Some 95%Q) "Pcs".
Definition soapAgain : ImportItem.t :=
  ImportItem.mk "i3" "soap" "" "" (Some 3%Z) None None "Pcs".

(** A product without tax at a given price. *)
Definition priced (id : string) (price : Q) : Product.t :=
  Product.mk id "Item" "I001" "Grocery" 0 price 100 None 0 (Some false).

(** A cart of one piece at 0.15 and one at 0.35, the prices being the
    values of the two doubles that [0.15] and [0.35] denote. *)
Definition centsCart : list CartItem.t :=
  [line (priced "p3" (F2Q (Q2F (15 # 100)))) 1 0;
   line (priced "p4" (F2Q (Q2F (35 # 100)))) 1 0].

(** A cart of three pieces at 171.69 and one at 8.43. *)
Definition halfCart : list CartItem.t :=
  [line (priced "p5" (17169 # 100)) 3 0; line (priced "p6" (843 # 100)) 1 0].

(** The ledger after a day was closed while the date field of the page was
    empty, and the fourth of March after it. *)
Definition undatedShop : Store.t :=
  run [SaveLedgerDay (day "" 777); SaveLedgerDay (day "2024-03-04" 3000)]
    Store.empty.

Definition freshId (item : ImportItem.t) : string := "new-" +:+ ImportItem.id item.
Definition fallbackCode (item : ImportItem.t) : string := "INV-000000".
End Demo.

(** * Properties *)

(** ** The monad and the projections of the two transactions *)

Ltac js_unfold :=
  unfold exec, result, step, run_op,
    saveBill, cancelBill, saveCustomer, saveProduct, deleteProduct,
    addKhataPayment, addManualKhataDebit, saveLedgerDay, calculateDailyStats,
    getProducts, getCustomers, getBills, getKhata, getLedger,
    get_PRODUCTS, get_BILLS, get_CUSTOMERS, get_LEDGER, get_KHATA,
    set_PRODUCTS, set_BILLS, set_CUSTOMERS, set_LEDGER, set_KHATA,
    mbind, js_bind, bind, mret, js_ret, ret, throw in *;
  cbn [fst snd Store.products Store.bills Store.customers Store.ledger Store.khata] in *.

Section SaveBillFacts.
Context (uuid : string) (bill : Bill.t) (customer : option Customer.t) (s : Store.t).

Lemma saveBill_bills :
  Store.bills (exec (saveBill uuid bill customer) s) = Store.bills s ++ [bill].
Proof. js_unfold. destruct customer; repeat case_decide; reflexivity. Qed.

Lemma saveBill_products :
  Store.products (exec (saveBill uuid bill customer) s)
  = foldl deductItem (Store.products s) (Bill.items bill).
Proof. js_unfold. destruct customer; repeat case_decide; reflexivity. Qed.

Lemma saveBill_ledger :
  Store.ledger (exec (saveBill uuid bill customer) s) = Store.ledger s.
Proof. js_unfold. destruct customer; repeat case_decide; reflexivity. Qed.

Lemma saveBill_khata :
  Store.khata (exec (saveBill uuid bill customer) s)
  = match customer with
    | Some c =>
        if decide (Bill.paymentMode bill = PaymentMode.CREDIT
                   ∨ Bill.status bill = Status.CREDIT)
        then Store.khata s ++ [saleDebit uuid bill c]
        else Store.khata s
    | None => Store.khata s
    end.
Proof. js_unfold. destruct customer; repeat case_decide; reflexivity. Qed.

Lemma saveBill_result :
  result (saveBill uuid bill customer) s
  = if decide (Bill.paymentMode bill = PaymentMode.CREDIT
               ∨ Bill.status bill = Status.CREDIT)
    then match customer with
         | Some _ => Returned tt
         | None => Thrown "Customer required for credit"
         end
    else Returned tt.
Proof. js_unfold. destruct customer; repeat case_decide; reflexivity. Qed.
End SaveBillFacts.

Section CancelBillFacts.
Context (billId : string) (s : Store.t).

Lemma cancelBill_absent :
  list_find (λ b, Bill.id b = billId) (Store.bills s) = None →
  cancelBill billId s = (Returned tt, s).
Proof. intros Hfind. js_unfold. rewrite Hfind. reflexivity. Qed.

Lemma cancelBill_cancelled i b :
  list_find (λ b, Bill.id b = billId) (Store.bills s) = Some (i, b) →
  Bill.status b = Status.CANCELLED →
  cancelBill billId s = (Returned tt, s).
Proof. intros Hfind Hst. js_unfold. rewrite Hfind. case_decide; done. Qed.

Lemma cancelBill_live i b :
  list_find (λ b, Bill.id b = billId) (Store.bills s) = Some (i, b) →
  Bill.status b ≠ Status.CANCELLED →
  cancelBill billId s
  = (Returned tt,
     Store.mk
       (foldl restoreItem (Store.products s) (Bill.items b))
       (<[i := Bill.set_status Status.CANCELLED b]> (Store.bills s))
       (Store.customers s)
       (Store.ledger s)
       (if decide (Bill.paymentMode b = PaymentMode.CREDIT)
        then filter (λ k, KhataEntry.billId k ≠ Some billId) (Store.khata s)
        else Store.khata s)).
Proof.
  intros Hfind Hst. js_unfold. rewrite Hfind.
  case_decide; [done|]. cbn. case_decide; reflexivity.
Qed.

Lemma cancelBill_result : result (cancelBill billId) s = Returned tt.
Proof.
  destruct (list_find (λ b, Bill.id b = billId) (Store.bills s)) as [[i b]|] eqn:Hfind.
  - destruct (decide (Bill.status b = Status.CANCELLED)) as [Hst|Hst].
    + unfold result. by rewrite (cancelBill_cancelled i b).
    + unfold result. by rewrite (cancelBill_live i b).
  - unfold result. by rewrite cancelBill_absent.
Qed.

Lemma cancelBill_ledger :
  Store.ledger (exec (cancelBill billId) s) = Store.ledger s.
Proof.
  destruct (list_find (λ b, Bill.id b = billId) (Store.bills s)) as [[i b]|] eqn:Hfind.
  - destruct (decide (Bill.status b = Status.CANCELLED)) as [Hst|Hst].
    + unfold exec. by rewrite (cancelBill_cancelled i b).
    + unfold exec. by rewrite (cancelBill_live i b).
  - unfold exec. by rewrite cancelBill_absent.
Qed.
End CancelBillFacts.

(** After [bills[i] = x], [findIndex] still stops at [i] when [x] matches
    and [i] was the first match. *)
Lemma list_find_insert_same {A} (P : A → Prop) `{∀ x, Decision (P x)}
    (l : list A) i x y :
  list_find P l = Some (i, y) → P x → list_find P (<[i := x]> l) = Some (i, x).
Proof.
  intros Hfind HPx. apply list_find_insert_Some. right; left.
  apply list_find_Some in Hfind as (Hi & _ & Hleast).
  repeat split; [by eapply lookup_lt_Some|done|].
  intros k z Hk Hlt. by eapply Hleast.
Qed.

(** ** C1: a credit sale without a customer *)

(** For every credit bill recorded without a customer, [saveBill] throws
    only at its fourth step: the bill is already appended and the stock
    already deducted. The customers and the khata are as before. *)
Lemma saveBill_credit_without_customer uuid bill s :
  Bill.paymentMode bill = PaymentMode.CREDIT →
  saveBill uuid bill None s
  = (Thrown "Customer required for credit",
     Store.mk (foldl deductItem (Store.products s) (Bill.items bill))
       (Store.bills s ++ [bill]) (Store.customers s) (Store.ledger s) (Store.khata s)).
Proof. intros Hmode. js_unfold. case_decide; [reflexivity|]. tauto. Qed.

(** C1, at the failing input: the credit bill [Demo.creditBill] of two soaps
    is recorded without a customer in a shop that holds five. The call
    throws, the customers and the khata are unchanged, and yet the bill is in
    the bills collection and the stock of soap is three: the rejection comes
    after two writes, not before any store mutation. *)
Theorem saveBill_credit_without_customer_partial_write :
  let call := saveBill "k1" Demo.creditBill None in
  result call Demo.shop = Thrown "Customer required for credit"
  ∧ Store.customers (exec call Demo.shop) = Store.customers Demo.shop
  ∧ Store.khata (exec call Demo.shop) = Store.khata Demo.shop
  ∧ Store.bills (exec call Demo.shop) = [Demo.creditBill]
  ∧ Store.bills (exec call Demo.shop) ≠ Store.bills Demo.shop
  ∧ Store.products (exec call Demo.shop) = [Product.set_stock 3 Demo.soap; Demo.rice]
  ∧ Store.products (exec call Demo.shop) ≠ Store.products Demo.shop.
Proof.
  intros call. unfold call, exec, result.
  rewrite saveBill_credit_without_customer by reflexivity.
  cbn [fst snd Store.customers Store.khata Store.bills Store.products].
  repeat split; try reflexivity.
  - discriminate.
  - vm_compute. intros Heq. discriminate Heq.
Qed.

(** ** C7: cancelling twice *)

(** C7. [cancelBill] leaves the store as it is when no bill has the id and
    when the bill it finds is already CANCELLED; a second call after a first
    one is such a call, so it restores no stock and removes no khata entry
    again. Otherwise the bills collection differs from the old one at the
    index of the bill only, where the same bill stands with status
    CANCELLED: no bill and no item is deleted. *)
Theorem cancelBill_noop_or_soft_delete (billId : string) (s : Store.t) :
  (list_find (λ b, Bill.id b = billId) (Store.bills s) = None →
   cancelBill billId s = (Returned tt, s))
  ∧ (∀ i b, list_find (λ b, Bill.id b = billId) (Store.bills s) = Some (i, b) →
            Bill.status b = Status.CANCELLED →
            cancelBill billId s = (Returned tt, s))
  ∧ cancelBill billId (exec (cancelBill billId) s)
    = (Returned tt, exec (cancelBill billId) s)
  ∧ (∀ i b, list_find (λ b, Bill.id b = billId) (Store.bills s) = Some (i, b) →
            Bill.status b ≠ Status.CANCELLED →
            let bills' := Store.bills (exec (cancelBill billId) s) in
            bills' = <[i := Bill.set_status Status.CANCELLED b]> (Store.bills s)
            ∧ length bills' = length (Store.bills s)
            ∧ Bill.id <$> bills' = Bill.id <$> Store.bills s
            ∧ Bill.items <$> bills' = Bill.items <$> Store.bills s
            ∧ ∃ b', bills' !! i = Some b' ∧ Bill.status b' = Status.CANCELLED).
Proof.
  split; [apply cancelBill_absent|].
  split; [apply cancelBill_cancelled|].
  split.
  - destruct (list_find (λ b, Bill.id b = billId) (Store.bills s))
      as [[i b]|] eqn:Hfind.
    + destruct (decide (Bill.status b = Status.CANCELLED)) as [Hst|Hst].
      * unfold exec. rewrite (cancelBill_cancelled billId s i b) by done.
        cbn [snd]. by apply (cancelBill_cancelled _ _ i b).
      * unfold exec. rewrite (cancelBill_live billId s i b) by done. cbn [snd].
        apply (cancelBill_cancelled _ _ i (Bill.set_status Status.CANCELLED b));
          [|reflexivity].
        cbn [Store.bills]. eapply list_find_insert_same; [exact Hfind|].
        apply list_find_Some in Hfind as (_ & Hid & _). exact Hid.
    + unfold exec. rewrite (cancelBill_absent billId s) by done.
      cbn [snd]. by apply cancelBill_absent.
  - intros i b Hfind Hst bills'. subst bills'. unfold exec.
    rewrite (cancelBill_live billId s i b) by done. cbn [snd Store.bills].
    pose proof Hfind as (Hi & Hid & _)%list_find_Some.
    split; [reflexivity|]. split; [apply length_insert|].
    split; [|split].
    + rewrite list_fmap_insert. apply list_insert_id.
      rewrite list_lookup_fmap, Hi. reflexivity.
    + rewrite list_fmap_insert. apply list_insert_id.
      rewrite list_lookup_fmap, Hi. reflexivity.
    + exists (Bill.set_status Status.CANCELLED b). split; [|reflexivity].
      apply list_lookup_insert_eq. by eapply lookup_lt_Some.
Qed.

(** ** The stock of the products *)

Section Stock.
Implicit Types (products : list Product.t) (item : CartItem.t).

Lemma set_stock_same (p : Product.t) : Product.set_stock (Product.stock p) p = p.
Proof. by destruct p. Qed.

(** [findIndex] followed by the write at that index is [adjustStock]. *)
Lemma find_then_write id delta products :
  match list_find (λ p, Product.id p = id) products with
  | Some (pIndex, p) =>
      <[pIndex := Product.set_stock (Product.stock p + delta) p]> products
  | None => products
  end = adjustStock id delta products.
Proof.
  induction products as [|q products IH]; [reflexivity|].
  cbn [list_find adjustStock]. case_decide; [reflexivity|].
  rewrite <- IH.
  destruct (list_find _ products) as [[i p]|]; reflexivity.
Qed.

Lemma deductItem_adjustStock products item :
  deductItem products item
  = adjustStock (CartItem.id item) (- CartItem.qty item) products.
Proof. unfold deductItem. rewrite <- find_then_write. reflexivity. Qed.

Lemma restoreItem_adjustStock products item :
  restoreItem products item
  = adjustStock (CartItem.id item) (CartItem.qty item) products.
Proof. unfold restoreItem. rewrite <- find_then_write. reflexivity. Qed.

Lemma adjustStock_absent id delta products :
  Forall (λ p, Product.id p ≠ id) products →
  adjustStock id delta products = products.
Proof.
  induction 1 as [|p products Hp _ IH]; [reflexivity|].
  cbn [adjustStock]. case_decide; [done|]. by rewrite IH.
Qed.

Lemma adjustStock_ids id delta products :
  Product.id <$> adjustStock id delta products = Product.id <$> products.
Proof.
  induction products as [|p products IH]; [reflexivity|].
  cbn [adjustStock]. case_decide; cbn; [reflexivity|]. by rewrite IH.
Qed.

(** Two adjustments on the same id add up, ... *)
Lemma adjustStock_twice id d1 d2 products :
  adjustStock id d2 (adjustStock id d1 products) = adjustStock id (d1 + d2) products.
Proof.
  induction products as [|p products IH]; [reflexivity|].
  cbn [adjustStock]. case_decide as Hid.
  - cbn [adjustStock Product.set_stock Product.id]. case_decide; [|done].
    unfold Product.set_stock. cbn. do 2 f_equal. lia.
  - cbn [adjustStock]. case_decide; [done|]. by rewrite IH.
Qed.

(** ... an adjustment by zero changes nothing, ... *)
Lemma adjustStock_zero id products : adjustStock id 0 products = products.
Proof.
  induction products as [|p products IH]; [reflexivity|].
  cbn [adjustStock]. case_decide.
  - rewrite Z.add_0_r. by rewrite set_stock_same.
  - by rewrite IH.
Qed.

(** ... and adjustments commute, whatever the ids. *)
Lemma adjustStock_comm id1 d1 id2 d2 products :
  adjustStock id2 d2 (adjustStock id1 d1 products)
  = adjustStock id1 d1 (adjustStock id2 d2 products).
Proof.
  induction products as [|p products IH]; [reflexivity|].
  cbn [adjustStock].
  destruct (decide (Product.id p = id1)) as [H1|H1],
           (decide (Product.id p = id2)) as [H2|H2];
    cbn [adjustStock Product.set_stock Product.id];
    repeat case_decide; try done.
  - unfold Product.set_stock. cbn. do 2 f_equal. lia.
  - by rewrite IH.
Qed.

Lemma foldl_deductItem_comm products items id delta :
  adjustStock id delta (foldl deductItem products items)
  = foldl deductItem (adjustStock id delta products) items.
Proof.
  revert products. induction items as [|item items IH]; intros products;
    [reflexivity|].
  cbn [foldl]. rewrite IH, !deductItem_adjustStock. f_equal.
  apply adjustStock_comm.
Qed.

(** The loop of [cancelBill] undoes the loop of [saveBill] on the same
    lines, line by line. *)
Lemma restore_after_deduct products items :
  foldl restoreItem (foldl deductItem products items) items = products.
Proof.
  revert products. induction items as [|item items IH]; intros products;
    [reflexivity|].
  cbn [foldl]. rewrite restoreItem_adjustStock, foldl_deductItem_comm.
  rewrite deductItem_adjustStock, adjustStock_twice, Z.add_opp_diag_l.
  rewrite adjustStock_zero. apply IH.
Qed.

Lemma foldl_deductItem_absent products items :
  Forall (λ item, Forall (λ p, Product.id p ≠ CartItem.id item) products) items →
  foldl deductItem products items = products.
Proof.
  induction 1 as [|item items Hitem _ IH]; [reflexivity|].
  cbn [foldl]. rewrite deductItem_adjustStock, adjustStock_absent by done.
  exact IH.
Qed.

Lemma foldl_restoreItem_absent products items :
  Forall (λ item, Forall (λ p, Product.id p ≠ CartItem.id item) products) items →
  foldl restoreItem products items = products.
Proof.
  induction 1 as [|item items Hitem _ IH]; [reflexivity|].
  cbn [foldl]. rewrite restoreItem_adjustStock, adjustStock_absent by done.
  exact IH.
Qed.
End Stock.

Lemma foldl_pointwise {A B} (f g : A → B → A) (l : list B) (a : A) :
  (∀ a b, f a b = g a b) → foldl f a l = foldl g a l.
Proof.
  intros Hfg. revert a. induction l as [|b l IH]; intros a; [reflexivity|].
  cbn [foldl]. by rewrite Hfg, IH.
Qed.

(** The bill just recorded under a fresh id is the one [cancelBill] finds. *)
Lemma find_fresh_bill (bills : list Bill.t) (bill : Bill.t) :
  Forall (λ b, Bill.id b ≠ Bill.id bill) bills →
  list_find (λ b, Bill.id b = Bill.id bill) (bills ++ [bill])
  = Some (length bills, bill).
Proof.
  intros Hfresh. apply list_find_app_Some. right.
  split; [lia|]. split; [by apply list_find_None|].
  rewrite Nat.sub_diag. cbn. case_decide; done.
Qed.

(** ** C6: recording then cancelling a bill *)

Lemma stockOf_adjustStock (id j : string) (delta : Z) (products : list Product.t) :
  stockOf id (adjustStock j delta products)
  = if decide (j = id) then (λ st, st + delta)%Z <$> stockOf id products
    else stockOf id products.
Proof.
  unfold stockOf. induction products as [|p products IH]; cbn [adjustStock].
  - by case_decide.
  - destruct (decide (Product.id p = j)) as [Hj|Hj].
    + cbn [list_find]. destruct p as [pid ? ? ? ? ? stock ? ? ?].
      cbn [Product.set_stock Product.id Product.stock] in *. subst j.
      destruct (decide (pid = id)) as [Hid|Hid]; reflexivity.
    + cbn [list_find]. destruct (decide (Product.id p = id)) as [Hid|Hid].
      * rewrite decide_False by congruence. reflexivity.
      * revert IH.
        destruct (list_find _ (adjustStock j delta products)) as [[? ?]|],
                 (list_find _ products) as [[? ?]|];
          cbn; case_decide; cbn; congruence.
Qed.

Lemma stockOf_after_sale (id : string) (items : list CartItem.t)
    (products : list Product.t) :
  stockOf id (foldl deductItem products items)
  = (λ st, st - soldQty id items)%Z <$> stockOf id products.
Proof.
  revert products. induction items as [|item items IH]; intros products.
  - cbn [foldl soldQty foldr].
    destruct (stockOf id products); simpl; f_equal; lia.
  - cbn [foldl soldQty foldr]. rewrite IH, deductItem_adjustStock.
    rewrite stockOf_adjustStock. fold (soldQty id items).
    case_decide; destruct (stockOf id products); simpl; f_equal; lia.
Qed.

Lemma stockOf_after_cancel (id : string) (items : list CartItem.t)
    (products : list Product.t) :
  stockOf id (foldl restoreItem products items)
  = (λ st, st + soldQty id items)%Z <$> stockOf id products.
Proof.
  revert products. induction items as [|item items IH]; intros products.
  - cbn [foldl soldQty foldr].
    destruct (stockOf id products); simpl; f_equal; lia.
  - cbn [foldl soldQty foldr]. rewrite IH, restoreItem_adjustStock.
    rewrite stockOf_adjustStock. fold (soldQty id items).
    case_decide; destruct (stockOf id products); simpl; f_equal; lia.
Qed.

(** A write at an index whose old and new elements both miss [P] does not
    move what [find] finds. *)
Lemma list_find_insert_miss {A} (P : A → Prop) `{∀ x, Decision (P x)}
    (l : list A) i x y :
  l !! i = Some y → ¬ P x → ¬ P y → list_find P (<[i := x]> l) = list_find P l.
Proof.
  revert i. induction l as [|z l IH]; intros i Hi Hx Hy; [done|].
  destruct i as [|i]; cbn in Hi.
  - injection Hi as ->. cbn [list_find]. cbn. by rewrite !decide_False.
  - cbn. cbn [list_find]. case_decide; [done|]. by rewrite IH.
Qed.

(** What each operation leaves of the bills is in [cancelBill_absent],
    [cancelBill_cancelled], [cancelBill_live] and [saveBill_bills]: a bill
    that is found under its id and not cancelled stays so until an
    operation cancels that id. *)
Lemma step_keeps_live_bill (s : Store.t) (o : op) (i : nat) (bill : Bill.t) :
  list_find (λ b, Bill.id b = Bill.id bill) (Store.bills s) = Some (i, bill) →
  ¬ cancels (Bill.id bill) o →
  list_find (λ b, Bill.id b = Bill.id bill) (Store.bills (step s o)) = Some (i, bill).
Proof.
  intros Hfind Hother.
  destruct o as [| | |uuid' bill' customer'|billId| | |];
    try (unfold step, run_op; js_unfold; exact Hfind).
  - unfold step, run_op. rewrite saveBill_bills.
    apply list_find_app_Some. by left.
  - cbn in Hother. unfold step, run_op.
    destruct (list_find (λ b, Bill.id b = billId) (Store.bills s))
      as [[j b]|] eqn:Hj.
    + destruct (decide (Bill.status b = Status.CANCELLED)) as [Hst|Hst]; unfold exec.
      * by rewrite (cancelBill_cancelled billId s j b).
      * rewrite (cancelBill_live billId s j b) by done.
        cbn [snd Store.bills].
        apply list_find_Some in Hj as (Hj & Hid & _).
        erewrite list_find_insert_miss; [exact Hfind|exact Hj| |];
          cbn; congruence.
    + unfold exec. by rewrite cancelBill_absent.
Qed.

Lemma run_keeps_live_bill (ops : list op) (s : Store.t) (i : nat) (bill : Bill.t) :
  list_find (λ b, Bill.id b = Bill.id bill) (Store.bills s) = Some (i, bill) →
  Forall (λ o, ¬ cancels (Bill.id bill) o) ops →
  list_find (λ b, Bill.id b = Bill.id bill) (Store.bills (run ops s)) = Some (i, bill).
Proof.
  intros Hfind Hops. revert s Hfind.
  induction Hops as [|o ops Ho _ IH]; intros s Hfind; [exact Hfind|].
  unfold run in *. cbn [foldl]. apply IH. by apply step_keeps_live_bill.
Qed.

Lemma step_keeps_products (s : Store.t) (o : op) :
  ¬ writesProducts o → Store.products (step s o) = Store.products s.
Proof.
  destruct o; cbn; intros Ho; try tauto;
    unfold step, run_op; js_unfold; reflexivity.
Qed.

Lemma run_keeps_products (ops : list op) (s : Store.t) :
  Forall (λ o, ¬ writesProducts o) ops →
  Store.products (run ops s) = Store.products s.
Proof.
  intros Hops. revert s.
  induction Hops as [|o ops Ho _ IH]; intros s; [reflexivity|].
  unfold run in *. cbn [foldl]. by rewrite IH, step_keeps_products.
Qed.

(** C6. A bill is recorded under an id no stored bill has and with a
    status other than CANCELLED; any operations follow that do not cancel
    it; then it is cancelled. For every id, recording takes the quantities
    the lines of the bill ask of that id from the stock of the product with
    that id, and cancelling adds the same quantities to the stock that
    product has by then. A product whose stock the operations in between
    left alone therefore has its original stock again, and when none of
    them writes the products, the products are exactly what they were
    before the sale. *)
Theorem record_then_cancel_restores_stock
    (uuid : string) (bill : Bill.t) (customer : option Customer.t)
    (ops : list op) (s : Store.t) :
  Forall (λ b, Bill.id b ≠ Bill.id bill) (Store.bills s) →
  Bill.status bill ≠ Status.CANCELLED →
  Forall (λ o, ¬ cancels (Bill.id bill) o) ops →
  let recorded := exec (saveBill uuid bill customer) s in
  let later := run ops recorded in
  let cancelled := exec (cancelBill (Bill.id bill)) later in
  (∀ id, stockOf id (Store.products recorded)
         = (λ st, st - soldQty id (Bill.items bill))%Z
             <$> stockOf id (Store.products s))
  ∧ (∀ id, stockOf id (Store.products cancelled)
           = (λ st, st + soldQty id (Bill.items bill))%Z
               <$> stockOf id (Store.products later))
  ∧ (∀ id, stockOf id (Store.products later) = stockOf id (Store.products recorded) →
           stockOf id (Store.products cancelled) = stockOf id (Store.products s))
  ∧ (Forall (λ o, ¬ writesProducts o) ops →
     Store.products cancelled = Store.products s).
Proof.
  intros Hfresh Hstatus Hops recorded later cancelled.
  assert (Hrecord : Store.products recorded
                    = foldl deductItem (Store.products s) (Bill.items bill))
    by apply saveBill_products.
  assert (Hlive : list_find (λ b, Bill.id b = Bill.id bill) (Store.bills later)
                  = Some (length (Store.bills s), bill)).
  { subst later. apply run_keeps_live_bill; [|exact Hops].
    subst recorded. rewrite saveBill_bills. by apply find_fresh_bill. }
  assert (Hcancel : Store.products cancelled
                    = foldl restoreItem (Store.products later) (Bill.items bill)).
  { subst cancelled. unfold exec at 1.
    by rewrite (cancelBill_live (Bill.id bill) later (length (Store.bills s)) bill). }
  assert (Hsale : ∀ id, stockOf id (Store.products recorded)
                        = (λ st, st - soldQty id (Bill.items bill))%Z
                            <$> stockOf id (Store.products s)).
  { intros id. rewrite Hrecord. apply stockOf_after_sale. }
  assert (Hback : ∀ id, stockOf id (Store.products cancelled)
                        = (λ st, st + soldQty id (Bill.items bill))%Z
                            <$> stockOf id (Store.products later)).
  { intros id. rewrite Hcancel. apply stockOf_after_cancel. }
  split; [exact Hsale|]. split; [exact Hback|]. split.
  - intros id Hsame. rewrite Hback, Hsame, Hsale.
    destruct (stockOf id (Store.products s)); cbn; f_equal. lia.
  - intros Hkeep. rewrite Hcancel. subst later.
    rewrite run_keeps_products by exact Hkeep.
    rewrite Hrecord. apply restore_after_deduct.
Qed.

(** ** C9: the stock adjustment *)

(** C9. On a sale the stock of the product found becomes [stock - qty] and
    on a cancellation [stock + qty], written at the index found and nowhere
    else, with no lower bound: selling seven soaps out of five leaves a
    stock of [-2]. When no product has the id of a line the products are
    unchanged, and neither [saveBill] (given its customer) nor [cancelBill]
    ends with an exception. *)
Theorem stock_adjustment_unclamped_silent_miss :
  (∀ (products : list Product.t) (item : CartItem.t) pIndex p,
      list_find (λ p, Product.id p = CartItem.id item) products = Some (pIndex, p) →
      deductItem products item
      = <[pIndex := Product.set_stock (Product.stock p - CartItem.qty item) p]> products
      ∧ restoreItem products item
        = <[pIndex := Product.set_stock (Product.stock p + CartItem.qty item) p]> products)
  ∧ (let sold := exec (saveBill "k2" Demo.bigBill None) Demo.shop in
     result (saveBill "k2" Demo.bigBill None) Demo.shop = Returned tt
     ∧ Product.stock <$> Store.products Demo.shop = [5; 20]%Z
     ∧ Product.stock <$> Store.products sold = [-2; 20]%Z)
  ∧ (∀ (products : list Product.t) (item : CartItem.t),
      list_find (λ p, Product.id p = CartItem.id item) products = None →
      deductItem products item = products ∧ restoreItem products item = products)
  ∧ (∀ uuid bill c s,
      Forall (λ item, Forall (λ p, Product.id p ≠ CartItem.id item) (Store.products s))
        (Bill.items bill) →
      saveBill uuid bill (Some c) s
      = (Returned tt,
         Store.mk (Store.products s)
           (Store.bills (exec (saveBill uuid bill (Some c)) s))
           (Store.customers (exec (saveBill uuid bill (Some c)) s))
           (Store.ledger s)
           (Store.khata (exec (saveBill uuid bill (Some c)) s))))
  ∧ (∀ billId s i b,
      list_find (λ b, Bill.id b = billId) (Store.bills s) = Some (i, b) →
      Forall (λ item, Forall (λ p, Product.id p ≠ CartItem.id item) (Store.products s))
        (Bill.items b) →
      result (cancelBill billId) s = Returned tt
      ∧ Store.products (exec (cancelBill billId) s) = Store.products s).
Proof.
  split; [|split; [|split; [|split]]].
  - intros products item pIndex p Hfind. unfold deductItem, restoreItem.
    rewrite Hfind. done.
  - vm_compute. done.
  - intros products item Hfind. unfold deductItem, restoreItem.
    rewrite Hfind. done.
  - intros uuid bill c s Habsent.
    pose proof (saveBill_products uuid bill (Some c) s) as Hp.
    pose proof (saveBill_ledger uuid bill (Some c) s) as Hl.
    pose proof (saveBill_result uuid bill (Some c) s) as Hr.
    rewrite foldl_deductItem_absent in Hp by done.
    unfold exec, result in *.
    destruct (saveBill uuid bill (Some c) s) as [r [ps bs cs ls ks]].
    cbn in *. subst. by case_decide.
  - intros billId s i b Hfind Habsent.
    split; [apply cancelBill_result|].
    destruct (decide (Bill.status b = Status.CANCELLED)) as [Hst|Hst]; unfold exec.
    + by rewrite (cancelBill_cancelled billId s i b).
    + rewrite (cancelBill_live billId s i b) by done. cbn.
      by apply foldl_restoreItem_absent.
Qed.

(** ** C10: a bill whose status is CREDIT and whose payment mode is not *)


(** ** C8: the khata after the cancellation of a credit bill *)

(** C8. Cancelling a live bill whose payment mode is CREDIT leaves in the
    khata exactly the entries whose [billId] is not the id of the bill, in
    their order: every entry of the bill is gone, nothing is added, and the
    entries without a [billId], the payments among them, all stay. In the
    history where Asha buys on credit for 236, pays 100 of it and the bill
    is then cancelled, her balance, the DEBIT amounts minus the CREDIT
    amounts, is [-100], which is also what [calculateBalances] shows. *)
Theorem cancel_credit_bill_deletes_debit_only :
  (∀ billId s i b,
      list_find (λ b, Bill.id b = billId) (Store.bills s) = Some (i, b) →
      Bill.status b ≠ Status.CANCELLED →
      Bill.paymentMode b = PaymentMode.CREDIT →
      let khata' := Store.khata (exec (cancelBill billId) s) in
      khata' = filter (λ k, KhataEntry.billId k ≠ Some billId) (Store.khata s)
      ∧ (∀ k, k ∈ khata' ↔ k ∈ Store.khata s ∧ KhataEntry.billId k ≠ Some billId)
      ∧ filter (λ k, KhataEntry.billId k = None) khata'
        = filter (λ k, KhataEntry.billId k = None) (Store.khata s))
  ∧ (let history :=
       [SaveBill "k1" Demo.creditBill (Some Demo.asha);
        AddKhataPayment "k2" "c1" 100 "2024-03-06T09:00:00.000Z";
        CancelBill "b1"] in
     let s := run history Demo.shop in
     Store.khata s
     = [KhataEntry.mk "k2" None "c1" 100 KhataType.CREDIT
          "2024-03-06T09:00:00.000Z" "Payment Received"]
     ∧ balanceFor "c1" (Store.khata s) = (-100)%Q
     ∧ (balanceFor "c1" (Store.khata s) < 0)%Q
     ∧ calculateBalances (Store.khata s) (Store.customers s) !! "c1"
       = Some (-100)%Q).
Proof.
  split.
  - intros billId s i b Hfind Hst Hmode khata'. subst khata'. unfold exec.
    rewrite (cancelBill_live billId s i b) by done. cbn [snd Store.khata].
    case_decide; [|done].
    split; [reflexivity|]. split.
    + intros k. rewrite list_elem_of_filter. tauto.
    + rewrite list_filter_filter. apply list_filter_iff.
      intros k. split; [tauto|]. intros Hk. split; [done|]. by rewrite Hk.
  - vm_compute. done.
Qed.

(** ** [Array.prototype.sort] with a comparator that subtracts keys *)

Section Sort.
Context {A : Type} (cmp : A → A → Z) (key : A → Z) (ok : A → Prop).
Hypothesis cmp_key : ∀ a b, ok a → ok b → cmp a b = (key b - key a)%Z.

Lemma sortInsert_perm x l : sortInsert cmp x l ≡ₚ x :: l.
Proof.
  induction l as [|y l IH]; [reflexivity|].
  cbn [sortInsert]. case_decide; [reflexivity|].
  rewrite IH. apply Permutation_swap.
Qed.

Lemma Array_sort_perm l : Array_sort cmp l ≡ₚ l.
Proof.
  induction l as [|x l IH]; [reflexivity|].
  cbn [Array_sort foldr]. rewrite sortInsert_perm. by constructor.
Qed.

Lemma sortInsert_sorted x l :
  ok x → Forall ok l →
  StronglySorted (descending key) l → StronglySorted (descending key) (sortInsert cmp x l).
Proof.
  intros Hx Hl Hsorted.
  induction Hsorted as [|y l Hsorted IH Hy]; cbn [sortInsert].
  - repeat constructor.
  - apply Forall_cons in Hl as [Hoky Hokl].
    case_decide as Hcmp; rewrite cmp_key in Hcmp by done.
    + constructor; [by constructor|].
      constructor; [unfold descending; lia|].
      eapply Forall_impl; [exact Hy|]. unfold descending. intros z ?. lia.
    + constructor; [by apply IH|].
      rewrite sortInsert_perm. constructor; [unfold descending; lia|exact Hy].
Qed.

Lemma Array_sort_sorted l :
  Forall ok l → StronglySorted (descending key) (Array_sort cmp l).
Proof.
  induction 1 as [|x l Hx Hl IH]; [constructor|].
  cbn [Array_sort foldr]. apply sortInsert_sorted; [done| |done].
  fold (Array_sort cmp l). by rewrite Array_sort_perm.
Qed.

(** In a list sorted by descending keys, the first element with a
    property has the largest key among the elements with it. *)
Lemma list_find_sorted_desc (P : A → Prop) `{∀ x, Decision (P x)} l i x y :
  StronglySorted (descending key) l →
  list_find P l = Some (i, x) → y ∈ l → P y → (key y ≤ key x)%Z.
Proof.
  intros Hsorted. revert i.
  induction Hsorted as [|z l Hsorted IH Hz]; intros i Hfind Hy HPy;
    [by apply elem_of_nil in Hy|].
  cbn [list_find] in Hfind. case_decide as HPz.
  - injection Hfind as <- <-.
    apply elem_of_cons in Hy as [->|Hy]; [lia|].
    rewrite Forall_forall in Hz. by apply Hz.
  - destruct (list_find P l) as [[j x']|] eqn:Hfind'; [|done].
    injection Hfind as <- <-.
    apply elem_of_cons in Hy as [->|Hy]; [done|].
    by eapply IH.
Qed.
End Sort.

(** ** The cash ledger *)

(** Only [saveLedgerDay] writes the ledger. *)
Lemma step_ledger (s : Store.t) (o : op) :
  Store.ledger (step s o)
  = match o with
    | SaveLedgerDay entry =>
        filter (λ l, LedgerEntry.date l ≠ LedgerEntry.date entry) (Store.ledger s)
          ++ [entry]
    | _ => Store.ledger s
    end.
Proof.
  destruct o; unfold step, run_op;
    [| | | apply saveBill_ledger | apply cancelBill_ledger | | |];
    js_unfold; reflexivity.
Qed.

(** The first element [find] meets is the head of what [filter] keeps. *)
Lemma list_find_filter_head {A} (P : A → Prop) `{∀ x, Decision (P x)}
    (l : list A) x rest :
  filter P l = x :: rest → ∃ i, list_find P l = Some (i, x).
Proof.
  induction l as [|y l IH]; [done|].
  rewrite filter_cons. cbn [list_find]. case_decide.
  - intros [= -> _]. by exists 0.
  - intros Hf. destruct (IH Hf) as [i ->]. by exists (S i).
Qed.

Lemma filter_none {A} (P : A → Prop) `{∀ x, Decision (P x)} (l : list A) :
  Forall (λ x, ¬ P x) l → filter P l = [].
Proof.
  induction 1 as [|x l Hx _ IH]; [reflexivity|].
  by rewrite filter_cons_False.
Qed.

Lemma filter_date_after_save (date : string) (entry : LedgerEntry.t)
    (ledger : list LedgerEntry.t) :
  LedgerEntry.date entry ≠ date →
  filter (λ l, LedgerEntry.date l = date)
    (filter (λ l, LedgerEntry.date l ≠ LedgerEntry.date entry) ledger ++ [entry])
  = filter (λ l, LedgerEntry.date l = date) ledger.
Proof.
  intros Hne. rewrite filter_app, list_filter_filter.
  rewrite (filter_cons _ entry), filter_nil. case_decide; [done|].
  rewrite app_nil_r. apply list_filter_iff. intros l. split; [tauto|].
  intros Hl. split; [done|]. congruence.
Qed.

Lemma filter_date_saved (entry : LedgerEntry.t) (ledger : list LedgerEntry.t) :
  filter (λ l, LedgerEntry.date l = LedgerEntry.date entry)
    (filter (λ l, LedgerEntry.date l ≠ LedgerEntry.date entry) ledger ++ [entry])
  = [entry].
Proof.
  rewrite filter_app, list_filter_filter.
  rewrite (filter_cons _ entry), filter_nil. case_decide; [|done].
  rewrite filter_none; [done|].
  apply Forall_forall. intros l _. tauto.
Qed.

(** Operations that do not write the row of [date] leave the rows of
    [date] as they are. *)
Lemma run_keeps_rows (date : string) (ops : list op) (s : Store.t) :
  Forall (λ o, ¬ closes date o) ops →
  filter (λ l, LedgerEntry.date l = date) (Store.ledger (run ops s))
  = filter (λ l, LedgerEntry.date l = date) (Store.ledger s).
Proof.
  intros Hops. revert s.
  induction Hops as [|o ops Ho _ IH]; intros s; [reflexivity|].
  unfold run in *. cbn [foldl]. rewrite IH, step_ledger.
  destruct o; try reflexivity.
  apply filter_date_after_save. exact Ho.
Qed.

Lemma saveLedgerDay_keeps_unique (entry : LedgerEntry.t) (ledger : list LedgerEntry.t) :
  NoDup (LedgerEntry.date <$> ledger) →
  NoDup (LedgerEntry.date <$>
           filter (λ l, LedgerEntry.date l ≠ LedgerEntry.date entry) ledger ++ [entry]).
Proof.
  intros Hnodup. rewrite fmap_app. apply NoDup_app. split; [|split].
  - eapply sublist_NoDup; [exact Hnodup|].
    apply fmap_sublist, sublist_filter.
  - intros d Hd. cbn. rewrite list_elem_of_singleton. intros ->.
    apply list_elem_of_fmap in Hd as (l & Hl & Hin).
    apply list_elem_of_filter in Hin as [Hne _]. congruence.
  - cbn. apply NoDup_singleton.
Qed.

Section LedgerProperties.
Context (getTime : string → option Z).

Lemma byDateDesc_timeOf a b :
  is_Some (getTime (LedgerEntry.date a)) →
  is_Some (getTime (LedgerEntry.date b)) →
  byDateDesc getTime a b = (timeOf getTime b - timeOf getTime a)%Z.
Proof.
  intros [ta Ha] [tb Hb]. unfold byDateDesc, timeOf. by rewrite Ha, Hb.
Qed.

Lemma getLedgerEntry_store date s : exec (getLedgerEntry getTime date) s = s.
Proof.
  unfold getLedgerEntry. js_unfold.
  destruct (list_find _ (Store.ledger s)) as [[i e]|]; reflexivity.
Qed.

Lemma getLedgerEntry_stored date s i e :
  list_find (λ l, LedgerEntry.date l = date) (Store.ledger s) = Some (i, e) →
  getLedgerEntry getTime date s = (Returned e, s).
Proof. intros Hfind. unfold getLedgerEntry. js_unfold. by rewrite Hfind. Qed.

(** ** The row of a date that has none *)

(** When no stored row has the date [D], [getLedgerEntry(D)] returns,
    without writing anything, a row for [D] that is not closed and whose
    figures are all 0 except the opening balance. When the stored dates
    are valid dates, the opening balance is the closing balance of the
    latest stored entry with a date before [D]; when no stored entry has a
    date before [D], it is 0. *)
Theorem getLedgerEntry_unstored (s : Store.t) (D : string) :
  Forall (λ l, LedgerEntry.date l ≠ D) (Store.ledger s) →
  ∃ opening,
    getLedgerEntry getTime D s
    = (Returned {| LedgerEntry.date := D;
                   LedgerEntry.openingBalance := opening;
                   LedgerEntry.grossSales := 0;
                   LedgerEntry.onlineSales := 0;
                   LedgerEntry.creditSales := 0;
                   LedgerEntry.expenses := 0;
                   LedgerEntry.expectedCash := 0;
                   LedgerEntry.actualCash := 0;
                   LedgerEntry.difference := 0;
                   LedgerEntry.depositedToBank := 0;
                   LedgerEntry.closingBalance := 0;
                   LedgerEntry.isClosed := false;
                   LedgerEntry.isAutoMode := true;
                   LedgerEntry.notes := None |}, s)
    ∧ (Forall (λ l, is_Some (getTime (LedgerEntry.date l))) (Store.ledger s) →
       ∀ e, latestBefore getTime (Store.ledger s) D e →
            opening = LedgerEntry.closingBalance e)
    ∧ ((∀ e, e ∈ Store.ledger s → ¬ str_lt (LedgerEntry.date e) D) →
       opening = 0%Q).
Proof.
  intros Hnone.
  assert (Hfind0 : list_find (λ l, LedgerEntry.date l = D) (Store.ledger s) = None)
    by (by apply list_find_None).
  unfold getLedgerEntry. js_unfold. rewrite Hfind0.
  set (sorted := Array_sort (byDateDesc getTime) (Store.ledger s)).
  assert (Hperm : sorted ≡ₚ Store.ledger s) by apply Array_sort_perm.
  destruct (list_find (λ l, str_lt (LedgerEntry.date l) D) sorted)
    as [[j x]|] eqn:Hfind.
  - exists (LedgerEntry.closingBalance x). split; [reflexivity|].
    pose proof Hfind as (Hj & Hlt & _)%list_find_Some.
    assert (Hx : x ∈ Store.ledger s).
    { rewrite <- Hperm. by eapply list_elem_of_lookup_2. }
    split.
    + intros Hvalid e (Hin & Hlte & Hmax).
      destruct (Hmax x Hx Hlt) as [->|(tx & te & Htx & Hte & Hearlier)];
        [reflexivity|].
      assert (Hle : (timeOf getTime e ≤ timeOf getTime x)%Z).
      { eapply (list_find_sorted_desc (timeOf getTime)); [|exact Hfind| |exact Hlte].
        - eapply Array_sort_sorted; [apply byDateDesc_timeOf|exact Hvalid].
        - by rewrite Hperm. }
      unfold timeOf in Hle. rewrite Htx, Hte in Hle. cbn in Hle. lia.
    + intros Hnone'. exfalso. by eapply Hnone'.
  - exists 0%Q. split; [reflexivity|]. split; [|reflexivity].
    intros _ e (Hin & Hlte & _). exfalso.
    apply list_find_None in Hfind. rewrite Forall_forall in Hfind.
    eapply Hfind; [|exact Hlte]. by rewrite Hperm.
Qed.

Context (parseFloat : string → option Q) (numToString : Q → string).

Lemma fetchData_store date pg s : exec (fetchData getTime numToString date pg) s = s.
Proof.
  unfold fetchData, exec, mbind, js_bind, bind.
  pose proof (getLedgerEntry_store date s) as Hs. unfold exec in Hs.
  destruct (getLedgerEntry getTime date s) as [[base|msg] s'];
    cbn [snd] in Hs; subst s'; [|reflexivity].
  destruct (LedgerEntry.isClosed base); reflexivity.
Qed.

Lemma fetchData_closed date pg s e :
  getLedgerEntry getTime date s = (Returned e, s) →
  LedgerEntry.isClosed e = true →
  fetchData getTime numToString date pg s
  = (Returned (LedgerPage.mk (LedgerPage.selectedDate pg) (Some e)
                 (LedgerPage.isAutoMode pg) (LedgerPage.autoData pg)
                 (LedgerPage.inputs pg)), s).
Proof.
  intros Hget Hclosed. unfold fetchData, mbind, js_bind, bind.
  rewrite Hget, Hclosed. reflexivity.
Qed.

(** ** C3: one row per date, and closed rows are kept *)

(** C3. In every store a session reaches from an empty one, no two ledger
    rows have the same date. [saveLedgerDay] drops the rows with the date
    of the entry and appends the entry, which is then the only row of its
    date. From then on, whatever bills, cancellations, payments, product
    and customer changes and closings of other dates follow,
    [getLedgerEntry] of that date returns the row as it was saved, and when
    the row is closed [fetchData] shows it and recomputes nothing. *)
Theorem ledger_one_row_per_date_closed_row_kept :
  (∀ s, reachable s → NoDup (LedgerEntry.date <$> Store.ledger s))
  ∧ (∀ entry s,
        let s' := exec (saveLedgerDay entry) s in
        Store.ledger s'
        = filter (λ l, LedgerEntry.date l ≠ LedgerEntry.date entry) (Store.ledger s)
            ++ [entry]
        ∧ filter (λ l, LedgerEntry.date l = LedgerEntry.date entry) (Store.ledger s')
          = [entry])
  ∧ (∀ entry s ops,
        Forall (λ o, ¬ closes (LedgerEntry.date entry) o) ops →
        let s' := run ops (exec (saveLedgerDay entry) s) in
        getLedgerEntry getTime (LedgerEntry.date entry) s' = (Returned entry, s')
        ∧ (LedgerEntry.isClosed entry = true →
           ∀ pg, fetchData getTime numToString (LedgerEntry.date entry) pg s'
                 = (Returned (LedgerPage.mk (LedgerPage.selectedDate pg) (Some entry)
                                (LedgerPage.isAutoMode pg) (LedgerPage.autoData pg)
                                (LedgerPage.inputs pg)), s'))).
Proof.
  split; [|split].
  - induction 1 as [|s o _ IH]; [constructor|].
    rewrite step_ledger. destruct o; try exact IH.
    by apply saveLedgerDay_keeps_unique.
  - intros entry s s'. subst s'.
    change (exec (saveLedgerDay entry) s) with (step s (SaveLedgerDay entry)).
    rewrite step_ledger. split; [reflexivity|apply filter_date_saved].
  - intros entry s ops Hops s'.
    assert (Hget : getLedgerEntry getTime (LedgerEntry.date entry) s'
                   = (Returned entry, s')).
    { assert (Hrows : filter (λ l, LedgerEntry.date l = LedgerEntry.date entry)
                        (Store.ledger s') = [entry]).
      { subst s'. rewrite run_keeps_rows by done.
        change (exec (saveLedgerDay entry) s) with (step s (SaveLedgerDay entry)).
        rewrite step_ledger. apply filter_date_saved. }
      apply list_find_filter_head in Hrows as [i Hfind].
      by eapply getLedgerEntry_stored. }
    split; [exact Hget|].
    intros Hclosed pg. by apply fetchData_closed.
Qed.

(** ** C2: closing a day *)

(** C2. With actual cash [A] and bank deposit [D] read from the form:
    when [D > A] the handler writes nothing, leaves the page as it is and
    does not report a closed day. When a ledger row is loaded, the actual
    cash is entered and [D <= A], the handler reports the day closed and
    the row of the selected date is then the entry whose opening, gross,
    online, credit and expenses figures are the ones of the form, with
    [expectedCash = openingBalance + grossSales - (onlineSales +
    creditSales + expenses)], [closingBalance = A - D],
    [difference = A - expectedCash] and [isClosed = true]. *)
Theorem handleCloseDay_rejects_or_persists (pg : LedgerPage.t) (s : Store.t) :
  let A := actualCashVal parseFloat pg in
  let D := bankDepositVal parseFloat pg in
  ((A < D)%Q →
   ∃ alert, handleCloseDay getTime parseFloat numToString pg s
            = (Returned (alert, pg), s)
            ∧ alert ≠ Some "Day Closed Successfully!")
  ∧ (is_Some (LedgerPage.todayLedger pg) →
     Inputs.actualCash (LedgerPage.inputs pg) ≠ "" →
     (D <= A)%Q →
     let s' := exec (handleCloseDay getTime parseFloat numToString pg) s in
     ∃ e pg',
       handleCloseDay getTime parseFloat numToString pg s
       = (Returned (Some "Day Closed Successfully!", pg'), s')
       ∧ Store.ledger s'
         = filter (λ l, LedgerEntry.date l ≠ LedgerPage.selectedDate pg)
             (Store.ledger s) ++ [e]
       ∧ getLedgerEntry getTime (LedgerPage.selectedDate pg) s' = (Returned e, s')
       ∧ LedgerEntry.date e = LedgerPage.selectedDate pg
       ∧ LedgerEntry.openingBalance e
         = parseNum parseFloat (Inputs.openingBalance (LedgerPage.inputs pg))
       ∧ LedgerEntry.grossSales e
         = parseNum parseFloat (Inputs.grossSales (LedgerPage.inputs pg))
       ∧ LedgerEntry.onlineSales e
         = parseNum parseFloat (Inputs.onlineSales (LedgerPage.inputs pg))
       ∧ LedgerEntry.creditSales e
         = parseNum parseFloat (Inputs.creditSales (LedgerPage.inputs pg))
       ∧ LedgerEntry.expenses e
         = parseNum parseFloat (Inputs.expenses (LedgerPage.inputs pg))
       ∧ LedgerEntry.actualCash e = A
       ∧ LedgerEntry.depositedToBank e = D
       ∧ LedgerEntry.expectedCash e
         = (LedgerEntry.openingBalance e + LedgerEntry.grossSales e
            - (LedgerEntry.onlineSales e + LedgerEntry.creditSales e
               + LedgerEntry.expenses e))%Q
       ∧ LedgerEntry.closingBalance e = (A - D)%Q
       ∧ LedgerEntry.difference e = (A - LedgerEntry.expectedCash e)%Q
       ∧ LedgerEntry.isClosed e = true).
Proof.
  intros A D. split.
  - intros Hlt. unfold handleCloseDay.
    destruct (LedgerPage.todayLedger pg) as [today|].
    + case_decide.
      * eexists. split; [reflexivity|discriminate].
      * destruct (Qlt_le_dec _ _) as [_|Hle].
        -- eexists. split; [reflexivity|discriminate].
        -- exfalso. subst A D. by apply Qle_not_lt in Hle.
    + eexists. split; [reflexivity|discriminate].
  - intros [today Htoday] Hentered Hle s'.
    set (e := closingEntry parseFloat pg).
    set (saved := exec (saveLedgerDay e) s).
    assert (Hget : getLedgerEntry getTime (LedgerPage.selectedDate pg) saved
                   = (Returned e, saved)).
    { assert (Hrows : filter (λ l, LedgerEntry.date l = LedgerEntry.date e)
                        (Store.ledger saved) = [e]).
      { subst saved.
        change (exec (saveLedgerDay e) s) with (step s (SaveLedgerDay e)).
        rewrite step_ledger. apply filter_date_saved. }
      apply list_find_filter_head in Hrows as [i Hfind].
      by eapply getLedgerEntry_stored. }
    assert (Hrun : handleCloseDay getTime parseFloat numToString pg s
                   = (Returned (Some "Day Closed Successfully!",
                                LedgerPage.mk (LedgerPage.selectedDate pg) (Some e)
                                  (LedgerPage.isAutoMode pg) (LedgerPage.autoData pg)
                                  (LedgerPage.inputs pg)), saved)).
    { unfold handleCloseDay. rewrite Htoday.
      case_decide; [done|].
      destruct (Qlt_le_dec _ _) as [Hlt|_];
        [exfalso; subst A D; by apply Qle_not_lt in Hle|].
      fold e. unfold mbind, js_bind, bind at 1.
      change (saveLedgerDay e s) with (Returned tt, saved).
      unfold bind. erewrite fetchData_closed; [reflexivity|exact Hget|reflexivity]. }
    assert (Hs' : s' = saved) by (subst s'; unfold exec; by rewrite Hrun).
    exists e. eexists. rewrite Hs'. split; [exact Hrun|].
    split.
    { subst saved.
      change (exec (saveLedgerDay e) s) with (step s (SaveLedgerDay e)).
      by rewrite step_ledger. }
    split; [exact Hget|].
    repeat split; reflexivity.
Qed.
End LedgerProperties.

(** ** C4: a stored date that [Date] cannot read

    [getLedgerEntry] sorts by [new Date(l.date).getTime()] and then looks
    for the first row with [l.date < date] as strings. The ledger page
    stores the row of whatever its date field holds, the empty string
    included; its time is [NaN], the comparator answers [NaN] for every
    pair with it, the sort leaves the rows as they are stored, and the
    first row below the date is then not the latest one. *)

(** C4. The ledger holds the row of the empty date, closed with 777, and
    after it the row of the fourth of March, closed with 3000; it has no
    row of the fifth. The fourth is the latest stored date before the
    fifth: every other stored date before the fifth is before the fourth.
    [getLedgerEntry] of the fifth opens with the 777 of the empty date and
    not with the 3000 of the fourth. *)
Theorem getLedgerEntry_unparsed_date_hides_latest :
  let D := "2024-03-05" in
  let latest := Demo.day "2024-03-04" 3000 in
  let ledger := Store.ledger Demo.undatedShop in
  ledger = [Demo.day "" 777; latest]
  ∧ Forall (λ l, LedgerEntry.date l ≠ D) ledger
  ∧ latest ∈ ledger
  ∧ str_lt (LedgerEntry.date latest) D
  ∧ (∀ e, e ∈ ledger → str_lt (LedgerEntry.date e) D →
          e = latest ∨ str_lt (LedgerEntry.date e) (LedgerEntry.date latest))
  ∧ isoGetTime "" = None
  ∧ getLedgerEntry isoGetTime D Demo.undatedShop
    = (Returned (newLedgerEntry D 777), Demo.undatedShop)
  ∧ ¬ (777 == LedgerEntry.closingBalance latest)%Q.
Proof.
  intros D latest ledger.
  assert (Hledger : ledger = [Demo.day "" 777; latest]) by reflexivity.
  split; [exact Hledger|]. rewrite Hledger.
  split; [repeat constructor; discriminate|].
  split; [apply list_elem_of_further, list_elem_of_here|].
  split; [vm_compute; reflexivity|].
  split.
  { intros e He _. rewrite !elem_of_cons, elem_of_nil in He.
    destruct He as [->|[->|[]]]; [right|left; reflexivity].
    vm_compute. reflexivity. }
  split; [reflexivity|].
  split; [vm_compute; reflexivity|].
  vm_compute. discriminate.
Qed.

(** ** C5: the totals of a cart *)

Lemma orZero_eq (x : Q) : (orZero x == x)%Q.
Proof.
  unfold orZero. destruct (Qeq_bool x 0) eqn:Hx; [|reflexivity].
  apply Qeq_bool_iff in Hx. by rewrite Hx.
Qed.

Lemma itemTaxableTax_formulas (item : CartItem.t) :
  itemTaxableTax item = (doubleTaxable item, doubleTax item).
Proof.
  unfold itemTaxableTax, doubleTax, doubleTaxable.
  by destruct (default false (CartItem.gstIncluded item)).
Qed.

(** The three running sums of the loop of [calculateTotals], from any
    starting values. *)
Lemma totals_loop (cart : list CartItem.t) (a b c : PrimFloat.float) :
  foldl (λ '(subtotal, totalGst, totalDiscount) item,
           let '(itemTaxable, itemTax) := itemTaxableTax item in
           ((subtotal + itemTaxable)%float,
            (totalGst + itemTax)%float,
            (totalDiscount + Q2F (orZero (CartItem.discount item)))%float))
        (a, b, c) cart
  = (foldl PrimFloat.add a (doubleTaxable <$> cart),
     foldl PrimFloat.add b (doubleTax <$> cart),
     foldl PrimFloat.add c (doubleDiscount <$> cart)).
Proof.
  revert a b c. induction cart as [|item cart IH]; intros a b c; [reflexivity|].
  cbn [foldl fmap list_fmap]. rewrite itemTaxableTax_formulas. apply IH.
Qed.

(** [Math.round] returns the integer at most one half away, the upper one
    of the two when [x] lies half way between them. *)
Lemma Math_round_half_up (x : Q) :
  ∃ n : Z, Math_round x = inject_Z n
           ∧ (inject_Z n - (1 # 2) <= x)%Q ∧ (x < inject_Z n + (1 # 2))%Q.
Proof.
  exists (Qfloor (x + (1 # 2))). split; [reflexivity|].
  pose proof (Qfloor_le (x + (1 # 2))) as Hlo.
  pose proof (Qlt_floor (x + (1 # 2))) as Hhi.
  rewrite inject_Z_plus in Hhi. change (inject_Z 1) with 1%Q in Hhi.
  set (n := inject_Z (Qfloor (x + (1 # 2)))) in *. split; lra.
Qed.

(** C5. For every cart, the totals [calculateTotals] returns are the
    formulas of the specification evaluated in double arithmetic, every
    operation rounded to the nearest double. A line with price [P], quantity [q] and
    rate [r] has taxable value [P*q / (1 + r/100)] and tax [P*q - taxable]
    when its price includes the tax, and taxable value [P*q] and tax
    [taxable * (r/100)] otherwise; the subtotal, the total GST and the
    total discount are these values and the discounts added up from 0 in
    the order of the cart. The grand total is [Math.round] of the double
    [subtotal + totalGst - totalDiscount]: the integer at most one half
    away from its value, the upper one when two are. *)
Theorem calculateTotals_formulas (cart : list CartItem.t) :
  let subtotal := doubleSum (doubleTaxable <$> cart) in
  let totalGst := doubleSum (doubleTax <$> cart) in
  let totalDiscount := doubleSum (doubleDiscount <$> cart) in
  let x := F2Q (subtotal + totalGst - totalDiscount)%float in
  let t := calculateTotals cart in
  totalsLoop cart = (subtotal, totalGst, totalDiscount)
  ∧ Totals.subtotal t = F2Q subtotal
  ∧ Totals.totalGst t = F2Q totalGst
  ∧ Totals.totalDiscount t = F2Q totalDiscount
  ∧ Totals.grandTotal t = Math_round x
  ∧ ∃ n : Z, Totals.grandTotal t = inject_Z n
             ∧ (inject_Z n - (1 # 2) <= x)%Q ∧ (x < inject_Z n + (1 # 2))%Q.
Proof.
  intros subtotal totalGst totalDiscount x t.
  assert (Hloop : totalsLoop cart = (subtotal, totalGst, totalDiscount))
    by apply totals_loop.
  split; [exact Hloop|].
  subst t. unfold calculateTotals. rewrite Hloop.
  cbn [Totals.subtotal Totals.totalGst Totals.totalDiscount Totals.grandTotal].
  fold x. repeat (split; [reflexivity|]). apply Math_round_half_up.
Qed.

(** The first scenario of the specification: one line with a tax-inclusive
    price of 118 at 18 percent has a taxable value of 100, a tax of 18 and a
    grand total of 118. *)
Example calculateTotals_one_soap :
  let t := calculateTotals [Demo.line Demo.soap 1 0] in
  (Totals.subtotal t == 100)%Q ∧ (Totals.totalGst t == 18)%Q
  ∧ Totals.grandTotal t = 118%Q.
Proof. vm_compute. done. Qed.

(** A cart of one soap, tax included, and two packs of rice, tax on top,
    with a discount of 3: 200 + 23 - 3 = 220. *)
Example calculateTotals_soap_and_rice :
  calculateTotals [Demo.line Demo.soap 1 0; Demo.line Demo.rice 2 3]
  = Totals.mk 200 23 3 220.
Proof. vm_compute. reflexivity. Qed.

(** The double of one half is one half, that of 0.15 lies below 0.15, and
    a value of a double gives that double back. *)
Example Q2F_values :
  F2Q (Q2F (1 # 2)) = (1 # 2)%Q
  ∧ F2Q (Q2F (15 # 100)) = (5404319552844595 # 36028797018963968)%Q
  ∧ (F2Q (Q2F (15 # 100)) < 15 # 100)%Q
  ∧ F2Q (Q2F (F2Q (Q2F (15 # 100)))) = F2Q (Q2F (15 # 100))
  ∧ F2Q (Z2F (-7)) = (-7)%Q.
Proof. vm_compute. done. Qed.

(** In exact arithmetic the formulas of the specification give other
    totals than the program. The values of the doubles of 0.15
    and of 0.35 add up to less than one half, which rounds to 0; the
    program adds the two doubles to the double one half and bills 1. Three
    times 171.69 and 8.43 are 523.50, which rounds to 524; the program
    arrives below one half and bills 523. *)
Lemma calculateTotals_exact_arithmetic_counterexample :
  ¬ (Totals.grandTotal (calculateTotals Demo.centsCart)
     == specGrandTotal Demo.centsCart)%Q
  ∧ ¬ (Totals.subtotal (calculateTotals Demo.centsCart)
       == Qsum (specTaxable <$> Demo.centsCart))%Q
  ∧ Totals.grandTotal (calculateTotals Demo.centsCart) = 1%Q
  ∧ specGrandTotal Demo.centsCart = 0%Q
  ∧ ¬ (Totals.grandTotal (calculateTotals Demo.halfCart)
       == specGrandTotal Demo.halfCart)%Q
  ∧ Totals.grandTotal (calculateTotals Demo.halfCart) = 523%Q
  ∧ specGrandTotal Demo.halfCart = 524%Q.
Proof.
  split; [vm_compute; discriminate|]. split; [vm_compute; discriminate|].
  split; [vm_compute; reflexivity|]. split; [vm_compute; reflexivity|].
  split; [vm_compute; discriminate|].
  split; vm_compute; reflexivity.
Qed.

(** * The theorems at the data of the examples *)

(** C2 at a form with 5000 counted and 2000 deposited: the day closes with
    a closing balance of 3000. *)
Lemma handleCloseDay_rejects_or_persists_witness :
  let pg := Demo.page "2024-03-05" "5000" "2000" in
  let close := handleCloseDay isoGetTime decimalParseFloat wholeToString pg in
  (bankDepositVal decimalParseFloat pg <= actualCashVal decimalParseFloat pg)%Q
  ∧ ∃ e, Store.ledger (exec close Demo.shop) = [e]
         ∧ LedgerEntry.closingBalance e = (5000 - 2000)%Q
         ∧ LedgerEntry.isClosed e = true.
Proof.
  intros pg close.
  assert (Hle : (bankDepositVal decimalParseFloat pg
                 <= actualCashVal decimalParseFloat pg)%Q)
    by (vm_compute; discriminate).
  split; [exact Hle|].
  destruct (proj2 (handleCloseDay_rejects_or_persists isoGetTime decimalParseFloat
                     wholeToString pg Demo.shop))
    as (e & pg' & _ & Hledger & _ & _ & _ & _ & _ & _ & _ & _ & _ & _ & Hclosing
        & _ & Hclosed).
  - eexists. reflexivity.
  - discriminate.
  - exact Hle.
  - exists e. split; [exact Hledger|]. split; [exact Hclosing|exact Hclosed].
Defined.

(** C3 at a day closed with 3000, followed by a sale, its cancellation and
    the closing of the next day. *)
Lemma ledger_one_row_per_date_closed_row_kept_witness :
  let entry := Demo.day "2024-03-05" 3000 in
  let ops := [SaveBill "k1" Demo.creditBill (Some Demo.asha);
              CancelBill "b1";
              SaveLedgerDay (Demo.day "2024-03-06" 2500)] in
  let s' := run ops (exec (saveLedgerDay entry) Demo.ledgerShop) in
  Forall (λ o, ¬ closes "2024-03-05" o) ops
  ∧ getLedgerEntry isoGetTime "2024-03-05" s' = (Returned entry, s').
Proof.
  intros entry ops s'.
  assert (Hops : Forall (λ o, ¬ closes (LedgerEntry.date entry) o) ops).
  { repeat constructor; cbn; try tauto. discriminate. }
  split; [exact Hops|].
  exact (proj1 (proj2 (proj2 (ledger_one_row_per_date_closed_row_kept isoGetTime
                                wholeToString))
                  entry Demo.ledgerShop ops Hops)).
Defined.

(** The fifth of March in a ledger that holds the first, the fourth and
    the tenth: the opening balance is the 3000 the fourth closed with. *)
Lemma getLedgerEntry_unstored_witness :
  Forall (λ l, LedgerEntry.date l ≠ "2024-03-05") (Store.ledger Demo.ledgerShop)
  ∧ getLedgerEntry isoGetTime "2024-03-05" Demo.ledgerShop
    = (Returned (newLedgerEntry "2024-03-05" 3000), Demo.ledgerShop).
Proof.
  assert (Hnone : Forall (λ l, LedgerEntry.date l ≠ "2024-03-05")
                    (Store.ledger Demo.ledgerShop))
    by (repeat constructor; discriminate).
  split; [exact Hnone|].
  destruct (getLedgerEntry_unstored isoGetTime Demo.ledgerShop "2024-03-05" Hnone)
    as (opening & Hget & Hlatest & _).
  rewrite Hget.
  rewrite (Hlatest ltac:(repeat constructor; eexists; vm_compute; reflexivity)
             (Demo.day "2024-03-04" 3000)); [reflexivity|].
  split; [apply list_elem_of_here|]. split; [vm_compute; reflexivity|].
  intros e' Hin Hlt. cbn in Hin.
  rewrite !elem_of_cons, elem_of_nil in Hin.
  destruct Hin as [->|[->|[->|[]]]].
  - left. reflexivity.
  - right. exists 1709251200000%Z, 1709510400000%Z. vm_compute. done.
  - vm_compute in Hlt. discriminate.
Defined.

(** C6 at the credit sale of two soaps in the shop whose shelf shows -2
    after the cash sale; a payment and the close of a day come between the
    sale and its cancellation. *)
Lemma record_then_cancel_restores_stock_witness :
  let ops := [AddKhataPayment "k2" "c1" 100 "2024-03-05";
              SaveLedgerDay (Demo.day "2024-03-05" 3000)] in
  let recorded := exec (saveBill "k1" Demo.creditBill (Some Demo.asha)) Demo.busyShop in
  let cancelled := exec (cancelBill "b1") (run ops recorded) in
  Forall (λ b, Bill.id b ≠ "b1") (Store.bills Demo.busyShop)
  ∧ Bill.status Demo.creditBill ≠ Status.CANCELLED
  ∧ Forall (λ o, ¬ cancels "b1" o) ops
  ∧ Forall (λ o, ¬ writesProducts o) ops
  ∧ stockOf "p1" (Store.products Demo.busyShop) = Some (-2)%Z
  ∧ stockOf "p1" (Store.products recorded) = Some (-2 - 2)%Z
  ∧ Store.products cancelled = Store.products Demo.busyShop.
Proof.
  intros ops recorded cancelled.
  assert (Hfresh : Forall (λ b, Bill.id b ≠ Bill.id Demo.creditBill)
                     (Store.bills Demo.busyShop))
    by (repeat constructor; discriminate).
  assert (Hstatus : Bill.status Demo.creditBill ≠ Status.CANCELLED) by discriminate.
  assert (Hops : Forall (λ o, ¬ cancels (Bill.id Demo.creditBill) o) ops)
    by (repeat constructor; cbn; tauto).
  assert (Hkeep : Forall (λ o, ¬ writesProducts o) ops)
    by (repeat constructor; cbn; tauto).
  assert (Hbefore : stockOf "p1" (Store.products Demo.busyShop) = Some (-2)%Z)
    by reflexivity.
  split; [exact Hfresh|]. split; [exact Hstatus|]. split; [exact Hops|].
  split; [exact Hkeep|]. split; [exact Hbefore|].
  destruct (record_then_cancel_restores_stock "k1" Demo.creditBill
              (Some Demo.asha) ops Demo.busyShop Hfresh Hstatus Hops)
    as (Hsale & _ & _ & Hsame).
  split; [|exact (Hsame Hkeep)].
  etrans; [exact (Hsale "p1")|]. rewrite Hbefore. reflexivity.
Defined.

(** C7 at the credit sale, cancelled once: the bill stays, CANCELLED. *)
Lemma cancelBill_noop_or_soft_delete_witness :
  let recorded := exec (saveBill "k1" Demo.creditBill (Some Demo.asha)) Demo.shop in
  list_find (λ b, Bill.id b = "b1") (Store.bills recorded) = Some (0, Demo.creditBill)
  ∧ Bill.status Demo.creditBill ≠ Status.CANCELLED
  ∧ Store.bills (exec (cancelBill "b1") recorded)
    = <[0 := Bill.set_status Status.CANCELLED Demo.creditBill]> (Store.bills recorded).
Proof.
  intros recorded.
  assert (Hfind : list_find (λ b, Bill.id b = "b1") (Store.bills recorded)
                  = Some (0, Demo.creditBill)) by (vm_compute; reflexivity).
  assert (Hstatus : Bill.status Demo.creditBill ≠ Status.CANCELLED) by discriminate.
  split; [exact Hfind|]. split; [exact Hstatus|].
  exact (proj1 (proj2 (proj2 (proj2 (cancelBill_noop_or_soft_delete "b1" recorded)))
                  0 Demo.creditBill Hfind Hstatus)).
Defined.

(** C8 at the credit sale followed by a payment of 100: the cancellation
    leaves the payment alone in the khata. *)
Lemma cancel_credit_bill_deletes_debit_only_witness :
  let paid := run [SaveBill "k1" Demo.creditBill (Some Demo.asha);
                   AddKhataPayment "k2" "c1" 100 "2024-03-06T09:00:00.000Z"]
                Demo.shop in
  list_find (λ b, Bill.id b = "b1") (Store.bills paid) = Some (0, Demo.creditBill)
  ∧ Bill.paymentMode Demo.creditBill = PaymentMode.CREDIT
  ∧ Store.khata (exec (cancelBill "b1") paid)
    = filter (λ k, KhataEntry.billId k ≠ Some "b1") (Store.khata paid).
Proof.
  intros paid.
  assert (Hfind : list_find (λ b, Bill.id b = "b1") (Store.bills paid)
                  = Some (0, Demo.creditBill)) by (vm_compute; reflexivity).
  split; [exact Hfind|]. split; [reflexivity|].
  exact (proj1 (proj1 cancel_credit_bill_deletes_debit_only "b1" paid 0
                  Demo.creditBill Hfind ltac:(discriminate) eq_refl)).
Defined.

(** C9 at a line of three packs of rice: the second product is written. *)
Lemma stock_adjustment_unclamped_silent_miss_witness :
  let products := [Demo.soap; Demo.rice] in
  let item := Demo.line Demo.rice 3 0 in
  list_find (λ p, Product.id p = CartItem.id item) products = Some (1, Demo.rice)
  ∧ deductItem products item = <[1 := Product.set_stock (20 - 3) Demo.rice]> products.
Proof.
  intros products item.
  assert (Hfind : list_find (λ p, Product.id p = CartItem.id item) products
                  = Some (1, Demo.rice)) by (vm_compute; reflexivity).
  split; [exact Hfind|].
  exact (proj1 (proj1 stock_adjustment_unclamped_silent_miss products item 1
                  Demo.rice Hfind)).
Defined.


(** * Further properties of the storage functions and of the pages *)

(** ** Replace-by-key or append *)

Section Upsert.
Context {A K : Type} `{EqDecision K} (key : A → K).

Lemma list_find_snoc_miss (P : A → Prop) `{∀ x, Decision (P x)} (l : list A) x :
  ¬ P x → list_find P (l ++ [x]) = list_find P l.
Proof.
  intros Hx. induction l as [|z l IH]; cbn [app list_find].
  - by rewrite decide_False.
  - case_decide; [done|]. by rewrite IH.
Qed.

(** The list a save leaves: [l[index] = x] or [l.push(x)]. *)
Local Abbreviation saved x l :=
  (match list_find (λ a, key a = key x) l with
   | Some (index, _) => <[index := x]> l
   | None => l ++ [x]
   end) (only parsing).

Lemma upsert_find x l :
  ∃ i, list_find (λ a, key a = key x) (saved x l) = Some (i, x).
Proof.
  destruct (list_find (λ a, key a = key x) l) as [[i y]|] eqn:Hfind.
  - exists i. by eapply list_find_insert_same.
  - exists (length l). apply list_find_app_Some. right.
    split; [lia|]. split; [done|]. rewrite Nat.sub_diag. cbn.
    by rewrite decide_True.
Qed.

Lemma upsert_find_other x l k :
  k ≠ key x →
  list_find (λ a, key a = k) (saved x l) = list_find (λ a, key a = k) l.
Proof.
  intros Hk.
  destruct (list_find (λ a, key a = key x) l) as [[i y]|] eqn:Hfind.
  - apply list_find_Some in Hfind as (Hi & Hy & _).
    eapply list_find_insert_miss; [exact Hi|congruence|congruence].
  - apply list_find_snoc_miss. congruence.
Qed.

Lemma upsert_keys x l :
  key <$> saved x l
  = if decide (key x ∈ key <$> l) then key <$> l else (key <$> l) ++ [key x].
Proof.
  destruct (list_find (λ a, key a = key x) l) as [[i y]|] eqn:Hfind.
  - apply list_find_Some in Hfind as (Hi & Hy & _).
    rewrite decide_True.
    + rewrite list_fmap_insert. apply list_insert_id.
      by rewrite list_lookup_fmap, Hi, <- Hy.
    + apply list_elem_of_fmap. exists y. split; [done|].
      by eapply list_elem_of_lookup_2.
  - rewrite decide_False; [by rewrite fmap_app|].
    intros (y & Hy & Hin)%list_elem_of_fmap.
    apply list_find_None in Hfind. rewrite Forall_forall in Hfind.
    by apply (Hfind y).
Qed.

Lemma upsert_NoDup x l : NoDup (key <$> l) → NoDup (key <$> saved x l).
Proof.
  intros Hl. rewrite upsert_keys. case_decide as Hin; [done|].
  apply NoDup_app. split; [done|]. split; [|apply NoDup_singleton].
  intros k Hk Hk'. apply list_elem_of_singleton in Hk'. by subst k.
Qed.

Lemma upsert_idem x l : saved x (saved x l) = saved x l.
Proof.
  destruct (upsert_find x l) as [i Hi]. rewrite Hi.
  apply list_insert_id. by apply list_find_Some in Hi as (? & _).
Qed.

Lemma upsert_kept x l k :
  k ∈ key <$> l → k ∈ key <$> saved x l.
Proof. rewrite upsert_keys. case_decide; set_solver. Qed.
End Upsert.

(** ** What each writer leaves in each collection *)

Lemma cancelBill_cases (billId : string) (s : Store.t) :
  cancelBill billId s = (Returned tt, s)
  ∨ ∃ i b,
      list_find (λ b, Bill.id b = billId) (Store.bills s) = Some (i, b)
      ∧ Bill.status b ≠ Status.CANCELLED
      ∧ cancelBill billId s
        = (Returned tt,
           Store.mk
             (foldl restoreItem (Store.products s) (Bill.items b))
             (<[i := Bill.set_status Status.CANCELLED b]> (Store.bills s))
             (Store.customers s)
             (Store.ledger s)
             (if decide (Bill.paymentMode b = PaymentMode.CREDIT)
              then filter (λ k, KhataEntry.billId k ≠ Some billId) (Store.khata s)
              else Store.khata s)).
Proof.
  destruct (list_find (λ b, Bill.id b = billId) (Store.bills s))
    as [[i b]|] eqn:Hfind.
  - destruct (decide (Bill.status b = Status.CANCELLED)) as [Hst|Hst].
    + left. by eapply cancelBill_cancelled.
    + right. exists i, b. split; [done|]. split; [done|].
      by apply cancelBill_live.
  - left. by apply cancelBill_absent.
Qed.

Lemma foldl_deductItem_ids (products : list Product.t) (items : list CartItem.t) :
  Product.id <$> foldl deductItem products items = Product.id <$> products.
Proof.
  revert products. induction items as [|item items IH]; intros products;
    [reflexivity|].
  cbn [foldl]. by rewrite IH, deductItem_adjustStock, adjustStock_ids.
Qed.

Lemma foldl_restoreItem_ids (products : list Product.t) (items : list CartItem.t) :
  Product.id <$> foldl restoreItem products items = Product.id <$> products.
Proof.
  revert products. induction items as [|item items IH]; intros products;
    [reflexivity|].
  cbn [foldl]. by rewrite IH, restoreItem_adjustStock, adjustStock_ids.
Qed.

Lemma saveBill_customers uuid bill customer s :
  Store.customers (exec (saveBill uuid bill customer) s)
  = match customer with
    | Some c =>
        match list_find (λ x, Customer.id x = Customer.id c) (Store.customers s) with
        | Some (index, _) => <[index := c]> (Store.customers s)
        | None => Store.customers s ++ [c]
        end
    | None => Store.customers s
    end.
Proof. js_unfold. destruct customer; repeat case_decide; reflexivity. Qed.

Lemma step_product_ids (s : Store.t) (o : op) :
  Product.id <$> Store.products (step s o)
  = match o with
    | SaveProduct p =>
        if decide (Product.id p ∈ Product.id <$> Store.products s)
        then Product.id <$> Store.products s
        else (Product.id <$> Store.products s) ++ [Product.id p]
    | DeleteProduct id => filter (λ i, i ≠ id) (Product.id <$> Store.products s)
    | _ => Product.id <$> Store.products s
    end.
Proof.
  destruct o; unfold step, run_op.
  - js_unfold. apply (upsert_keys Product.id).
  - js_unfold. induction (Store.products s) as [|p l IH]; [done|].
    rewrite fmap_cons, !filter_cons. repeat case_decide; try done.
    by rewrite fmap_cons, IH.
  - js_unfold. reflexivity.
  - rewrite saveBill_products. apply foldl_deductItem_ids.
  - destruct (cancelBill_cases billId s) as [Hc|(i & b & _ & _ & Hc)];
      unfold exec; rewrite Hc; [done|]. apply foldl_restoreItem_ids.
  - js_unfold. reflexivity.
  - js_unfold. reflexivity.
  - js_unfold. reflexivity.
Qed.

Lemma step_customer_ids (s : Store.t) (o : op) :
  Customer.id <$> Store.customers (step s o)
  = match o with
    | SaveCustomer c | SaveBill _ _ (Some c) | AddManualKhataDebit _ c _ _ _ =>
        if decide (Customer.id c ∈ Customer.id <$> Store.customers s)
        then Customer.id <$> Store.customers s
        else (Customer.id <$> Store.customers s) ++ [Customer.id c]
    | _ => Customer.id <$> Store.customers s
    end.
Proof.
  destruct o as [| | |? ? [c|]|billId| | |]; unfold step, run_op;
    try (js_unfold; reflexivity).
  - js_unfold. apply (upsert_keys Customer.id).
  - rewrite saveBill_customers. apply (upsert_keys Customer.id).
  - by rewrite saveBill_customers.
  - destruct (cancelBill_cases billId s) as [Hc|(i & b & _ & _ & Hc)];
      unfold exec; by rewrite Hc.
  - js_unfold. apply (upsert_keys Customer.id).
Qed.

(** ** Saving and deleting a product *)

(** X1. [saveProduct] returns normally and writes the products only. The
    product it saved is then the one found under its id, what is found
    under any other id is what was found before, the number of products
    grows by one exactly when the id is new, and saving the same product
    again changes nothing. *)
Theorem saveProduct_upsert (product : Product.t) (s : Store.t) :
  let s' := exec (saveProduct product) s in
  result (saveProduct product) s = Returned tt
  ∧ (∃ i, list_find (λ p, Product.id p = Product.id product) (Store.products s')
          = Some (i, product))
  ∧ (∀ id, id ≠ Product.id product →
           list_find (λ p, Product.id p = id) (Store.products s')
           = list_find (λ p, Product.id p = id) (Store.products s))
  ∧ length (Store.products s')
    = (if decide (Product.id product ∈ Product.id <$> Store.products s)
       then length (Store.products s) else S (length (Store.products s)))
  ∧ exec (saveProduct product) s' = s'
  ∧ Store.bills s' = Store.bills s ∧ Store.customers s' = Store.customers s
  ∧ Store.ledger s' = Store.ledger s ∧ Store.khata s' = Store.khata s.
Proof.
  intros s'. subst s'. js_unfold.
  split; [reflexivity|]. split; [apply (upsert_find Product.id)|].
  split; [intros id Hid; by apply (upsert_find_other Product.id)|].
  split.
  - pose proof (upsert_keys Product.id product (Store.products s)) as Hkeys.
    apply (f_equal length) in Hkeys. rewrite length_fmap in Hkeys.
    rewrite Hkeys. case_decide; rewrite ?length_app, ?length_fmap; cbn; lia.
  - split; [|done]. f_equal. apply (upsert_idem Product.id).
Qed.

Lemma list_find_filter_keep {A} (P Q : A → Prop)
    `{∀ x, Decision (P x)} `{∀ x, Decision (Q x)} (l : list A) :
  (∀ x, P x → Q x) →
  snd <$> list_find P (filter Q l) = snd <$> list_find P l.
Proof.
  intros HPQ. induction l as [|x l IH]; [done|].
  rewrite filter_cons. cbn [list_find].
  destruct (decide (Q x)) as [HQ|HQ].
  - cbn [list_find]. case_decide; [done|].
    destruct (list_find P (filter Q l)) as [[? ?]|],
             (list_find P l) as [[? ?]|]; cbn in *; congruence.
  - rewrite decide_False by (intros HP; by apply HQ, HPQ).
    rewrite IH. by destruct (list_find P l) as [[? ?]|].
Qed.

Lemma filter_all {A} (P : A → Prop) `{∀ x, Decision (P x)} (l : list A) :
  Forall P l → filter P l = l.
Proof.
  induction 1 as [|x l Hx _ IH]; [done|]. by rewrite filter_cons_True, IH.
Qed.

(** X2. After [deleteProduct(id)] no product has that id, and the product
    found under any other id is the one found before. Deleting an id that
    no product has leaves the store as it is, and deleting a product just
    saved under a new id gives back the products there were. *)
Theorem deleteProduct_removes (id : string) (s : Store.t) :
  let s' := exec (deleteProduct id) s in
  list_find (λ p, Product.id p = id) (Store.products s') = None
  ∧ (∀ id', id' ≠ id →
            snd <$> list_find (λ p, Product.id p = id') (Store.products s')
            = snd <$> list_find (λ p, Product.id p = id') (Store.products s))
  ∧ (list_find (λ p, Product.id p = id) (Store.products s) = None → s' = s)
  ∧ (∀ product,
        Product.id product = id →
        list_find (λ p, Product.id p = id) (Store.products s) = None →
        Store.products (exec (deleteProduct id) (exec (saveProduct product) s))
        = Store.products s).
Proof.
  intros s'. subst s'. js_unfold. split; [|split; [|split]].
  - apply list_find_None, Forall_forall.
    intros p Hp%list_elem_of_filter. tauto.
  - intros id' Hne. apply list_find_filter_keep. congruence.
  - intros Hnone. apply list_find_None in Hnone.
    rewrite filter_all by exact Hnone. by destruct s.
  - intros product Hid Hnone. subst id. rewrite Hnone.
    apply list_find_None in Hnone.
    rewrite filter_app, filter_all by exact Hnone.
    by rewrite filter_cons_False, filter_nil, app_nil_r by tauto.
Qed.

(** ** What a session keeps *)

(** X3. In every store a session reaches from an empty one, no two
    products have the same id and no two customers have the same id. *)
Theorem reachable_ids_unique (s : Store.t) :
  reachable s →
  NoDup (Product.id <$> Store.products s)
  ∧ NoDup (Customer.id <$> Store.customers s).
Proof.
  induction 1 as [|s o _ [IHp IHc]]; [split; constructor|].
  rewrite step_product_ids, step_customer_ids. split.
  - destruct o; try exact IHp.
    + case_decide as Hin; [exact IHp|].
      apply NoDup_app. split; [exact IHp|]. split; [|apply NoDup_singleton].
      intros k Hk Hk'. apply list_elem_of_singleton in Hk'. by subst k.
    + by apply NoDup_filter.
  - assert (Hsave : ∀ c : Customer.t,
               NoDup (if decide (Customer.id c ∈ Customer.id <$> Store.customers s)
                      then Customer.id <$> Store.customers s
                      else (Customer.id <$> Store.customers s) ++ [Customer.id c])).
    { intros c. case_decide as Hin; [exact IHc|].
      apply NoDup_app. split; [exact IHc|]. split; [|apply NoDup_singleton].
      intros k Hk Hk'. apply list_elem_of_singleton in Hk'. by subst k. }
    destruct o as [| | |? ? [c|]| | | |]; try exact IHc; apply Hsave.
Qed.

(** X4. No operation removes a customer: a customer id of the store is a
    customer id of the store after any sequence of operations. A product
    id stays as long as no [deleteProduct] is among them. *)
Theorem records_kept (s : Store.t) (ops : list op) :
  (∀ id, id ∈ Customer.id <$> Store.customers s →
         id ∈ Customer.id <$> Store.customers (run ops s))
  ∧ (Forall (λ o, ∀ id, o ≠ DeleteProduct id) ops →
     ∀ id, id ∈ Product.id <$> Store.products s →
           id ∈ Product.id <$> Store.products (run ops s)).
Proof.
  split.
  - revert s. induction ops as [|o ops IH]; intros s id Hid; [done|].
    unfold run. cbn [foldl]. apply IH. rewrite step_customer_ids.
    destruct o as [| | |? ? [c|]| | | |]; try done; case_decide; set_solver.
  - intros Hops. revert s.
    induction Hops as [|o ops Ho _ IH]; intros s id Hid; [done|].
    unfold run. cbn [foldl]. apply IH. rewrite step_product_ids.
    destruct o; try done; [case_decide; set_solver|].
    by destruct (Ho id0).
Qed.

Lemma set_status_cancelled (b : Bill.t) :
  Bill.status b = Status.CANCELLED → Bill.set_status Status.CANCELLED b = b.
Proof. destruct b. cbn. by intros ->. Qed.

Lemma step_bills (s : Store.t) (o : op) :
  Store.bills (step s o)
  = match o with
    | SaveBill _ bill _ => Store.bills s ++ [bill]
    | CancelBill billId =>
        match list_find (λ b, Bill.id b = billId) (Store.bills s) with
        | Some (i, b) => <[i := Bill.set_status Status.CANCELLED b]> (Store.bills s)
        | None => Store.bills s
        end
    | _ => Store.bills s
    end.
Proof.
  destruct o; unfold step, run_op; try (js_unfold; reflexivity).
  - apply saveBill_bills.
  - destruct (list_find (λ b, Bill.id b = billId) (Store.bills s))
      as [[i b]|] eqn:Hfind.
    + destruct (decide (Bill.status b = Status.CANCELLED)) as [Hst|Hst]; unfold exec.
      * rewrite (cancelBill_cancelled billId s i b) by done. cbn [snd].
        rewrite set_status_cancelled by done. symmetry. apply list_insert_id.
        by apply list_find_Some in Hfind as (? & _).
      * by rewrite (cancelBill_live billId s i b).
    + unfold exec. by rewrite cancelBill_absent.
Qed.

(** X5. No operation removes, moves or rewrites a bill: after any sequence
    of operations the bill at an index is the bill that was there, or that
    bill with its status set to CANCELLED; and a bill that was CANCELLED
    is unchanged. *)
Theorem bills_append_only (s : Store.t) (ops : list op) (i : nat) (b : Bill.t) :
  Store.bills s !! i = Some b →
  ∃ b', Store.bills (run ops s) !! i = Some b'
        ∧ (b' = b ∨ b' = Bill.set_status Status.CANCELLED b)
        ∧ (Bill.status b = Status.CANCELLED → b' = b).
Proof.
  revert s b. induction ops as [|o ops IH]; intros s b Hb.
  - exists b. split; [done|]. split; [by left|done].
  - unfold run. cbn [foldl].
    assert (Hstep : ∃ b1, Store.bills (step s o) !! i = Some b1
                          ∧ (b1 = b ∨ b1 = Bill.set_status Status.CANCELLED b)
                          ∧ (Bill.status b = Status.CANCELLED → b1 = b)).
    { rewrite step_bills. destruct o;
        try (exists b; split; [done|]; split; [by left|done]).
      - exists b. split; [by apply lookup_app_l_Some|]. split; [by left|done].
      - destruct (list_find _ (Store.bills s)) as [[j bj]|] eqn:Hfind;
          [|exists b; split; [done|]; split; [by left|done]].
        apply list_find_Some in Hfind as (Hj & _ & _).
        destruct (decide (i = j)) as [->|Hne].
        + assert (bj = b) as -> by congruence.
          exists (Bill.set_status Status.CANCELLED b).
          split; [apply list_lookup_insert_eq; by eapply lookup_lt_Some|].
          split; [by right|]. apply set_status_cancelled.
        + exists b. split; [by rewrite list_lookup_insert_ne|].
          split; [by left|done]. }
    destruct Hstep as (b1 & Hb1 & Hor1 & Hc1).
    destruct (IH (step s o) b1 Hb1) as (b' & Hb' & Hor & Hc).
    exists b'. split; [exact Hb'|]. split.
    + destruct Hor1 as [-> | ->]; [exact Hor|].
      right. destruct Hor as [Hb2|Hb2]; rewrite Hb2; [done|]. by destruct b.
    + intros Hst. rewrite (Hc1 Hst) in *. by apply Hc.
Qed.

(** ** The khata and its balances *)

Lemma Qsum_app (l1 l2 : list Q) : (Qsum (l1 ++ l2) == Qsum l1 + Qsum l2)%Q.
Proof.
  unfold Qsum. induction l1 as [|x l1 IH]; cbn [app foldr]; [ring|].
  rewrite IH. ring.
Qed.

(** What an entry adds to the balance of a customer. *)
Lemma balanceFor_cons (id : string) (k : KhataEntry.t) (khata : list KhataEntry.t) :
  (balanceFor id (k :: khata)
   == (if decide (KhataEntry.customerId k = id)
       then (if decide (KhataEntry.type k = KhataType.DEBIT)
             then KhataEntry.amount k else - KhataEntry.amount k)
       else 0)
      + balanceFor id khata)%Q.
Proof.
  unfold balanceFor, sumAmounts. rewrite !filter_cons.
  destruct (decide (KhataEntry.customerId k = id)) as [Hid|Hid];
    destruct (KhataEntry.type k) eqn:Hty;
    repeat case_decide; try tauto; try (by intuition congruence);
    rewrite ?fmap_cons; cbn [Qsum foldr];
    repeat match goal with
      | |- context [foldr Qplus 0%Q ?l] => change (foldr Qplus 0%Q l) with (Qsum l)
      end; ring.
Qed.

Lemma balanceFor_nil (id : string) : (balanceFor id [] == 0)%Q.
Proof. reflexivity. Qed.

Lemma balanceFor_app (id : string) (l1 l2 : list KhataEntry.t) :
  (balanceFor id (l1 ++ l2) == balanceFor id l1 + balanceFor id l2)%Q.
Proof.
  induction l1 as [|k l1 IH]; cbn [app].
  - rewrite balanceFor_nil. ring.
  - rewrite !balanceFor_cons, IH. ring.
Qed.

Lemma balanceFor_snoc (id : string) (k : KhataEntry.t) (khata : list KhataEntry.t) :
  (balanceFor id (khata ++ [k])
   == balanceFor id khata
      + (if decide (KhataEntry.customerId k = id)
         then (if decide (KhataEntry.type k = KhataType.DEBIT)
               then KhataEntry.amount k else - KhataEntry.amount k)
         else 0))%Q.
Proof.
  rewrite balanceFor_app, balanceFor_cons, balanceFor_nil.
  repeat case_decide; ring.
Qed.

(** The loop of [calculateBalances], from any object [balances]. *)
Lemma balances_loop (balances : gmap string Q) (khata : list KhataEntry.t)
    (id : string) :
  (default 0 (foldl balanceStep balances khata !! id)
   == default 0 (balances !! id) + balanceFor id khata)%Q.
Proof.
  revert balances. induction khata as [|k khata IH]; intros balances.
  - cbn [foldl]. rewrite balanceFor_nil. ring.
  - cbn [foldl]. rewrite IH, balanceFor_cons. unfold balanceStep.
    destruct (decide (KhataEntry.customerId k = id)) as [Hid|Hid].
    + subst id. case_decide; rewrite lookup_insert_eq; cbn [default from_option];
        unfold Datatypes.id; rewrite orZero_eq; ring.
    + case_decide; rewrite lookup_insert_ne by done; ring.
Qed.

Lemma balances_init (custs : list Customer.t) (balances : gmap string Q) (id : string) :
  foldl (λ balances c, <[Customer.id c := 0%Q]> balances) balances custs !! id
  = if decide (id ∈ Customer.id <$> custs) then Some 0%Q else balances !! id.
Proof.
  revert balances. induction custs as [|c custs IH]; intros balances; [done|].
  cbn [foldl]. rewrite IH, fmap_cons.
  destruct (decide (id ∈ Customer.id <$> custs)) as [Hin|Hin].
  - rewrite decide_True; [done|]. by right.
  - destruct (decide (id = Customer.id c)) as [->|Hne].
    + rewrite lookup_insert_eq, decide_True; [done|]. by left.
    + rewrite lookup_insert_ne by done. rewrite decide_False; [done|].
      intros [?|?]%elem_of_cons; done.
Qed.

Lemma balances_loop_keys (balances : gmap string Q) (khata : list KhataEntry.t)
    (id : string) :
  is_Some (foldl balanceStep balances khata !! id)
  ↔ is_Some (balances !! id) ∨ id ∈ KhataEntry.customerId <$> khata.
Proof.
  revert balances. induction khata as [|k khata IH]; intros balances.
  - cbn. rewrite elem_of_nil. tauto.
  - cbn [foldl]. rewrite IH, fmap_cons, elem_of_cons. unfold balanceStep.
    destruct (decide (id = KhataEntry.customerId k)) as [->|Hne].
    + case_decide; rewrite lookup_insert_eq; split; eauto.
    + case_decide; rewrite lookup_insert_ne by done; tauto.
Qed.

(** X6. The balance [calculateBalances] shows for a customer is the sum of
    the DEBIT amounts minus the sum of the CREDIT amounts over the entries
    of that customer, 0 when it shows none; and it shows a balance exactly
    for the listed customers and the customers of the entries. *)
Theorem calculateBalances_balanceFor
    (khata : list KhataEntry.t) (custs : list Customer.t) (id : string) :
  (default 0 (calculateBalances khata custs !! id) == balanceFor id khata)%Q
  ∧ (is_Some (calculateBalances khata custs !! id)
     ↔ id ∈ Customer.id <$> custs ∨ id ∈ KhataEntry.customerId <$> khata).
Proof.
  unfold calculateBalances. split.
  - rewrite balances_loop, balances_init, lookup_empty.
    case_decide; cbn [default from_option]; unfold Datatypes.id; ring.
  - rewrite balances_loop_keys, balances_init, lookup_empty.
    case_decide as Hin; split; intros Hkey; eauto.
    + destruct Hkey as [[? [=]]|?]; eauto.
    + destruct Hkey as [?|?]; [done|by right].
Qed.

(** X7. [addKhataPayment] lowers the balance of its customer by the
    amount, [addManualKhataDebit] raises the balance of its customer by the
    amount, and neither changes the balance of anyone else, the products,
    the bills or the ledger; the debit also saves its customer. A payment
    of the whole balance brings it to 0. *)
Theorem khata_entries_move_one_balance
    (uuid customerId : string) (customer : Customer.t) (amount : Q)
    (date description : string) (s : Store.t) (id : string) :
  let paid := exec (addKhataPayment uuid customerId amount date) s in
  let lent := exec (addManualKhataDebit uuid customer amount date description) s in
  (balanceFor id (Store.khata paid)
   == balanceFor id (Store.khata s) - (if decide (customerId = id) then amount else 0))%Q
  ∧ (balanceFor id (Store.khata lent)
     == balanceFor id (Store.khata s)
        + (if decide (Customer.id customer = id) then amount else 0))%Q
  ∧ ((amount == balanceFor customerId (Store.khata s))%Q →
     (balanceFor customerId (Store.khata paid) == 0)%Q)
  ∧ (∃ i, list_find (λ c, Customer.id c = Customer.id customer) (Store.customers lent)
          = Some (i, customer))
  ∧ Store.products paid = Store.products s ∧ Store.bills paid = Store.bills s
  ∧ Store.ledger paid = Store.ledger s ∧ Store.customers paid = Store.customers s
  ∧ Store.products lent = Store.products s ∧ Store.bills lent = Store.bills s
  ∧ Store.ledger lent = Store.ledger s.
Proof.
  intros paid lent. subst paid lent. js_unfold. js_unfold.
  split; [|split; [|split; [|split]]].
  - rewrite balanceFor_snoc.
    cbn [KhataEntry.customerId KhataEntry.type KhataEntry.amount].
    repeat case_decide; try done; ring.
  - rewrite balanceFor_snoc.
    cbn [KhataEntry.customerId KhataEntry.type KhataEntry.amount].
    repeat case_decide; try done; ring.
  - intros Hall. rewrite balanceFor_snoc.
    cbn [KhataEntry.customerId KhataEntry.type KhataEntry.amount].
    repeat case_decide; try done. rewrite Hall. ring.
  - apply (upsert_find Customer.id).
  - done.
Qed.

(** X8. A credit sale recorded with its customer under an id that no bill
    and no khata entry carries raises the balance of that customer by the
    grand total and no other balance. Cancelling it gives back the khata,
    the products and the ledger there were before the sale: what remains of
    the sale is the bill, CANCELLED, and the saved customer. *)
Theorem credit_sale_then_cancel
    (uuid : string) (bill : Bill.t) (c : Customer.t) (s : Store.t) :
  Bill.paymentMode bill = PaymentMode.CREDIT →
  Bill.status bill ≠ Status.CANCELLED →
  Forall (λ b, Bill.id b ≠ Bill.id bill) (Store.bills s) →
  Forall (λ k, KhataEntry.billId k ≠ Some (Bill.id bill)) (Store.khata s) →
  let recorded := exec (saveBill uuid bill (Some c)) s in
  let cancelled := exec (cancelBill (Bill.id bill)) recorded in
  (∀ id, (balanceFor id (Store.khata recorded)
          == balanceFor id (Store.khata s)
             + (if decide (Customer.id c = id) then Bill.grandTotal bill else 0))%Q)
  ∧ Store.khata cancelled = Store.khata s
  ∧ Store.products cancelled = Store.products s
  ∧ Store.ledger cancelled = Store.ledger s
  ∧ Store.customers cancelled = Store.customers recorded
  ∧ Store.bills cancelled
    = Store.bills s ++ [Bill.set_status Status.CANCELLED bill].
Proof.
  intros Hmode Hstatus Hfresh Hkhata recorded cancelled.
  assert (Hk : Store.khata recorded = Store.khata s ++ [saleDebit uuid bill c]).
  { subst recorded. rewrite saveBill_khata. case_decide; [done|]. tauto. }
  assert (Hc : cancelBill (Bill.id bill) recorded
               = (Returned tt,
                  Store.mk
                    (foldl restoreItem (Store.products recorded) (Bill.items bill))
                    (<[length (Store.bills s) := Bill.set_status Status.CANCELLED bill]>
                       (Store.bills recorded))
                    (Store.customers recorded) (Store.ledger recorded)
                    (filter (λ k, KhataEntry.billId k ≠ Some (Bill.id bill))
                       (Store.khata recorded)))).
  { rewrite (cancelBill_live (Bill.id bill) recorded (length (Store.bills s)) bill).
    - case_decide; done.
    - subst recorded. rewrite saveBill_bills. by apply find_fresh_bill.
    - exact Hstatus. }
  subst cancelled. unfold exec at 1 2 3 4 5. rewrite Hc.
  cbn [snd Store.khata Store.products Store.ledger Store.customers Store.bills].
  split; [|split; [|split; [|split; [|split]]]].
  - intros id. rewrite Hk, balanceFor_snoc.
    cbn [saleDebit KhataEntry.customerId KhataEntry.type KhataEntry.amount].
    repeat case_decide; try done; ring.
  - rewrite Hk, filter_app, filter_all by exact Hkhata.
    rewrite filter_cons_False, filter_nil, app_nil_r; [done|].
    cbn. tauto.
  - subst recorded. rewrite saveBill_products. apply restore_after_deduct.
  - subst recorded. apply saveBill_ledger.
  - done.
  - subst recorded. rewrite saveBill_bills.
    by rewrite insert_app_r_alt, Nat.sub_diag by lia.
Qed.

(** ** The statistics of a day *)

Lemma calculateDailyStats_run (date : string) (s : Store.t) :
  calculateDailyStats date s
  = (Returned
       (foldl dailyStatsStep (DailyStats.mk 0 0 0)
          (filter (λ b, String.prefix date (Bill.date b) = true
                        ∧ Bill.status b ≠ Status.CANCELLED) (Store.bills s))),
     s).
Proof. js_unfold. reflexivity. Qed.

(** X9. Recording a bill that is not CANCELLED and whose date starts with
    the day adds the bill to the statistics of that day: the gross sales
    grow by its grand total. A bill of another day leaves the statistics of
    the day as they are, and so does a sale followed by its cancellation. *)
Theorem dailyStats_sale_and_cancel
    (date uuid : string) (bill : Bill.t) (customer : option Customer.t)
    (s : Store.t) :
  let before := result (calculateDailyStats date) s in
  let recorded := exec (saveBill uuid bill customer) s in
  let cancelled := exec (cancelBill (Bill.id bill)) recorded in
  (String.prefix date (Bill.date bill) = true →
   Bill.status bill ≠ Status.CANCELLED →
   ∃ stats, before = Returned stats
            ∧ result (calculateDailyStats date) recorded
              = Returned (dailyStatsStep stats bill)
            ∧ DailyStats.grossSales (dailyStatsStep stats bill)
              = (DailyStats.grossSales stats + Bill.grandTotal bill)%Q)
  ∧ (String.prefix date (Bill.date bill) = false →
     result (calculateDailyStats date) recorded = before)
  ∧ (Forall (λ b, Bill.id b ≠ Bill.id bill) (Store.bills s) →
     result (calculateDailyStats date) cancelled = before).
Proof.
  intros before recorded cancelled. subst before. unfold result.
  rewrite !calculateDailyStats_run. cbn [fst].
  assert (Hbills : Store.bills recorded = Store.bills s ++ [bill])
    by apply saveBill_bills.
  split; [|split].
  - intros Hday Hlive. eexists. split; [reflexivity|].
    rewrite Hbills, filter_app, filter_cons_True, filter_nil by done.
    rewrite foldl_app. cbn [foldl]. split; [reflexivity|].
    unfold dailyStatsStep. by destruct (Bill.paymentMode bill).
  - intros Hday. rewrite Hbills, filter_app, filter_cons_False, filter_nil.
    + by rewrite app_nil_r.
    + rewrite Hday. intros [[=] _].
  - intros Hfresh. f_equal. f_equal.
    assert (Hfind : list_find (λ b, Bill.id b = Bill.id bill) (Store.bills recorded)
                    = Some (length (Store.bills s), bill))
      by (rewrite Hbills; by apply find_fresh_bill).
    assert (Hcancelled : Store.bills cancelled
                         = Store.bills s ++ [Bill.set_status Status.CANCELLED bill]).
    { subst cancelled.
      change (exec (cancelBill (Bill.id bill)) recorded)
        with (step recorded (CancelBill (Bill.id bill))).
      rewrite step_bills, Hfind, Hbills.
      by rewrite insert_app_r_alt, Nat.sub_diag by lia. }
    rewrite Hcancelled, filter_app, filter_cons_False, filter_nil.
    + by rewrite app_nil_r.
    + cbn. tauto.
Qed.

Lemma Qsum_perm (l1 l2 : list Q) : l1 ≡ₚ l2 → (Qsum l1 == Qsum l2)%Q.
Proof.
  unfold Qsum. induction 1 as [|x l1 l2 _ IH|x y l|l1 l2 l3 _ IH1 _ IH2];
    cbn [foldr].
  - reflexivity.
  - by rewrite IH.
  - ring.
  - by rewrite IH1.
Qed.

(** The sum a [reduce] or a [forEach] accumulates, from any start. *)
Lemma foldl_grandTotal (bills : list Bill.t) (a : Q) :
  (foldl (λ sum b, (sum + Bill.grandTotal b)%Q) a bills
   == a + Qsum (Bill.grandTotal <$> bills))%Q.
Proof.
  revert a. induction bills as [|b bills IH]; intros a; cbn [foldl].
  - unfold Qsum. cbn. ring.
  - rewrite IH, fmap_cons. unfold Qsum. cbn [foldr]. ring.
Qed.

Lemma foldl_dailyStats_gross (bills : list Bill.t) (acc : DailyStats.t) :
  (DailyStats.grossSales (foldl dailyStatsStep acc bills)
   == DailyStats.grossSales acc + Qsum (Bill.grandTotal <$> bills))%Q.
Proof.
  revert acc. induction bills as [|b bills IH]; intros acc; cbn [foldl].
  - unfold Qsum. cbn. ring.
  - rewrite IH, fmap_cons. unfold Qsum. cbn [foldr].
    unfold dailyStatsStep.
    destruct (Bill.paymentMode b); cbn [DailyStats.grossSales]; ring.
Qed.

(** A bill whose amounts make sense for the cash count: a grand total that
    is not negative and, when the payment is mixed, a UPI part between 0
    and the grand total. *)
Lemma foldl_dailyStats_bound (bills : list Bill.t) (acc : DailyStats.t) :
  Forall (λ b, (0 <= Bill.grandTotal b)%Q
               ∧ (Bill.paymentMode b = PaymentMode.MIXED →
                  (0 <= orZero (default 0 (Bill.upiAmount b))
                   <= Bill.grandTotal b)%Q)) bills →
  (DailyStats.onlineSales acc + DailyStats.creditSales acc
   <= DailyStats.grossSales acc)%Q →
  let stats := foldl dailyStatsStep acc bills in
  (DailyStats.onlineSales stats + DailyStats.creditSales stats
   <= DailyStats.grossSales stats)%Q.
Proof.
  intros Hbills. revert acc.
  induction Hbills as [|b bills [Hb Hmixed] _ IH]; intros acc Hacc; [done|].
  cbn [foldl]. apply IH. unfold dailyStatsStep.
  destruct (Bill.paymentMode b);
    cbn [DailyStats.grossSales DailyStats.onlineSales DailyStats.creditSales];
    try lra.
  specialize (Hmixed eq_refl). lra.
Qed.

(** X10. [calculateTodayLiveCash] writes nothing. Its cash sales are what
    is left of the gross sales of the day after the online and the credit
    sales; they are not negative when every bill has a grand total that is
    not negative and, if mixed, a UPI part between 0 and the grand total.
    Its credit received is the sum of the CREDIT entries of the day, which a
    payment recorded on that day raises by its amount while the cash sales
    stay. *)
Theorem liveCash_of_today (todayStr today : string) (s : Store.t) :
  ∃ stats live,
    calculateDailyStats todayStr s = (Returned stats, s)
    ∧ calculateTodayLiveCash todayStr today s = (Returned live, s)
    ∧ (LiveCash.cashSales live + DailyStats.onlineSales stats
       + DailyStats.creditSales stats == DailyStats.grossSales stats)%Q
    ∧ (Forall (λ b, (0 <= Bill.grandTotal b)%Q
                    ∧ (Bill.paymentMode b = PaymentMode.MIXED →
                       (0 <= orZero (default 0 (Bill.upiAmount b))
                        <= Bill.grandTotal b)%Q)) (Store.bills s) →
       (0 <= LiveCash.cashSales live)%Q)
    ∧ (LiveCash.creditReceived live
       == Qsum (KhataEntry.amount <$>
                  filter (λ k, String.prefix today (KhataEntry.date k) = true
                               ∧ KhataEntry.type k = KhataType.CREDIT)
                    (Store.khata s)))%Q
    ∧ (∀ uuid customerId amount date,
          String.prefix today date = true →
          result (calculateTodayLiveCash todayStr today)
            (exec (addKhataPayment uuid customerId amount date) s)
          = Returned (LiveCash.mk (LiveCash.cashSales live)
                        (LiveCash.creditReceived live + amount)%Q)).
Proof.
  eexists _, _. split; [apply calculateDailyStats_run|].
  split.
  { unfold calculateTodayLiveCash, calculateTodayLiveStats, mbind, js_bind, bind.
    rewrite calculateDailyStats_run. reflexivity. }
  cbn [LiveCash.cashSales LiveCash.creditReceived].
  split; [ring|]. split; [|split].
  - intros Hbills.
    pose proof (foldl_dailyStats_bound
                  (filter (λ b, String.prefix todayStr (Bill.date b) = true
                                ∧ Bill.status b ≠ Status.CANCELLED) (Store.bills s))
                  (DailyStats.mk 0 0 0)) as Hbound.
    cbn zeta in Hbound. cbn [DailyStats.grossSales DailyStats.onlineSales
                               DailyStats.creditSales] in Hbound.
    assert (Hle : (0 + 0 <= 0)%Q) by lra.
    assert (Hday : Forall (λ b, (0 <= Bill.grandTotal b)%Q
                            ∧ (Bill.paymentMode b = PaymentMode.MIXED →
                               (0 <= orZero (default 0 (Bill.upiAmount b))
                                <= Bill.grandTotal b)%Q))
                     (filter (λ b, String.prefix todayStr (Bill.date b) = true
                                   ∧ Bill.status b ≠ Status.CANCELLED)
                        (Store.bills s))).
    { rewrite Forall_forall in Hbills. apply Forall_forall.
      intros b Hb%list_elem_of_filter. apply Hbills. tauto. }
    specialize (Hbound Hday Hle). lra.
  - clear. induction (filter _ (Store.khata s)) as [|k l IH] using rev_ind.
    + reflexivity.
    + rewrite foldl_app, fmap_app, Qsum_app. cbn [foldl]. rewrite IH.
      unfold Qsum. cbn. ring.
  - intros uuid customerId amount date Hday.
    unfold result, calculateTodayLiveCash, calculateTodayLiveStats,
      mbind, js_bind, bind.
    rewrite calculateDailyStats_run. js_unfold.
    rewrite filter_app, filter_cons_True, filter_nil by done.
    by rewrite foldl_app.
Qed.

(** X11. The sales page of a date lists the bills whose date starts with
    it, each once, latest timestamp first, and writes nothing. Its total
    sales are the gross sales [calculateDailyStats] gives for that date,
    and its count is the number of those bills that are not CANCELLED. *)
Theorem todaySales_agrees_with_stats (date : string) (s : Store.t) :
  ∃ bills stats,
    TodaySales.fetchData date s = (Returned bills, s)
    ∧ calculateDailyStats date s = (Returned stats, s)
    ∧ bills ≡ₚ filter (λ b, String.prefix date (Bill.date b) = true) (Store.bills s)
    ∧ StronglySorted (λ a b, (Bill.timestamp b ≤ Bill.timestamp a)%Z) bills
    ∧ (TodaySales.totalSales bills == DailyStats.grossSales stats)%Q
    ∧ TodaySales.totalCount bills
      = length (filter (λ b, String.prefix date (Bill.date b) = true
                             ∧ Bill.status b ≠ Status.CANCELLED) (Store.bills s)).
Proof.
  eexists _, _. split; [reflexivity|]. split; [apply calculateDailyStats_run|].
  set (onDay := filter (λ b, String.prefix date (Bill.date b) = true) (Store.bills s)).
  set (sorted := Array_sort _ onDay).
  assert (Hperm : sorted ≡ₚ onDay) by apply Array_sort_perm.
  assert (Hlive : filter (λ b, Bill.status b ≠ Status.CANCELLED) sorted
                  ≡ₚ filter (λ b, String.prefix date (Bill.date b) = true
                                  ∧ Bill.status b ≠ Status.CANCELLED) (Store.bills s)).
  { rewrite Hperm. subst onDay. rewrite list_filter_filter.
    erewrite list_filter_iff; [reflexivity|]. intros b. tauto. }
  split; [exact Hperm|]. split; [|split].
  - apply (Array_sort_sorted _ Bill.timestamp (λ _, True)); [done|].
    by apply Forall_true.
  - unfold TodaySales.totalSales, TodaySales.activeBills.
    rewrite foldl_grandTotal, foldl_dailyStats_gross.
    cbn [DailyStats.grossSales]. apply Qplus_comp; [reflexivity|].
    apply Qsum_perm. by rewrite Hlive.
  - unfold TodaySales.totalCount, TodaySales.activeBills. by rewrite Hlive.
Qed.

(** ** The cart of the billing page *)

Lemma addToCart_present (product : Product.t) (cart : list CartItem.t) i item :
  list_find (λ item, CartItem.id item = Product.id product) cart = Some (i, item) →
  addToCart product cart
  = (λ item, if decide (CartItem.id item = Product.id product)
             then CartItem.mk (CartItem.product item) (CartItem.qty item + 1)
                    (CartItem.discount item)
             else item) <$> cart.
Proof. intros Hfind. unfold addToCart. by rewrite Hfind. Qed.

Lemma cart_map_ids (f : CartItem.t → CartItem.t) (cart : list CartItem.t) :
  (∀ item, CartItem.id (f item) = CartItem.id item) →
  CartItem.id <$> (f <$> cart) = CartItem.id <$> cart.
Proof.
  intros Hf. rewrite <- list_fmap_compose. apply list_fmap_ext.
  intros i item _. apply Hf.
Qed.

Lemma addToCart_ids (product : Product.t) (cart : list CartItem.t) :
  CartItem.id <$> addToCart product cart
  = if decide (Product.id product ∈ CartItem.id <$> cart)
    then CartItem.id <$> cart
    else (CartItem.id <$> cart) ++ [Product.id product].
Proof.
  unfold addToCart.
  destruct (list_find _ cart) as [[i item]|] eqn:Hfind.
  - apply list_find_Some in Hfind as (Hi & Hid & _).
    rewrite decide_True.
    + apply cart_map_ids. intros x. by case_decide.
    + apply list_elem_of_fmap. exists item. split; [done|].
      by eapply list_elem_of_lookup_2.
  - rewrite decide_False; [by rewrite fmap_app|].
    intros (item & Hid & Hin)%list_elem_of_fmap.
    apply list_find_None in Hfind. rewrite Forall_forall in Hfind.
    by apply (Hfind item).
Qed.

Lemma updateQty_ids (id : string) (delta : Z) (cart : list CartItem.t) :
  CartItem.id <$> updateQty id delta cart = CartItem.id <$> cart.
Proof. apply cart_map_ids. intros item. cbn zeta. by repeat case_decide. Qed.

(** X12. Whatever the cashier adds, changes and removes, starting from an
    empty cart, no two lines of the cart have the same product id and every
    line has a quantity of at least 1. *)
Theorem cart_lines_unique_and_positive (actions : list cartAction) :
  let cart := foldl cartStep [] actions in
  NoDup (CartItem.id <$> cart)
  ∧ Forall (λ item, (1 ≤ CartItem.qty item)%Z) cart.
Proof.
  intros cart. subst cart.
  assert (Hstep : ∀ cart a,
             NoDup (CartItem.id <$> cart)
             ∧ Forall (λ item, (1 ≤ CartItem.qty item)%Z) cart →
             NoDup (CartItem.id <$> cartStep cart a)
             ∧ Forall (λ item, (1 ≤ CartItem.qty item)%Z) (cartStep cart a)).
  { intros cart a [Hids Hqty]. destruct a as [product|id delta|id]; cbn [cartStep].
    - split.
      + rewrite addToCart_ids. case_decide as Hin; [done|].
        apply NoDup_app. split; [done|]. split; [|apply NoDup_singleton].
        intros k Hk Hk'. apply list_elem_of_singleton in Hk'. by subst k.
      + unfold addToCart. destruct (list_find _ cart) as [[i item]|].
        * apply Forall_fmap. eapply Forall_impl; [exact Hqty|].
          intros x Hx. unfold compose. cbn beta in *.
          case_decide; cbn [CartItem.qty]; lia.
        * apply Forall_app. split; [done|]. repeat constructor. cbn. lia.
    - split; [by rewrite updateQty_ids|].
      unfold updateQty. apply Forall_fmap. eapply Forall_impl; [exact Hqty|].
      intros x Hx. unfold compose. cbn beta zeta in *.
      repeat case_decide; cbn [CartItem.qty]; lia.
    - unfold removeItem. split.
      + eapply sublist_NoDup; [exact Hids|]. apply fmap_sublist, sublist_filter.
      + rewrite Forall_forall in Hqty. apply Forall_forall.
        intros x Hx%list_elem_of_filter. apply Hqty. tauto. }
  assert (Hrun : ∀ cart,
             NoDup (CartItem.id <$> cart)
             ∧ Forall (λ item, (1 ≤ CartItem.qty item)%Z) cart →
             NoDup (CartItem.id <$> foldl cartStep cart actions)
             ∧ Forall (λ item, (1 ≤ CartItem.qty item)%Z)
                 (foldl cartStep cart actions)).
  { induction actions as [|a actions IH]; intros cart Hcart; [done|].
    cbn [foldl]. by apply IH, Hstep. }
  apply Hrun. split; constructor.
Qed.

(** X13. [updateQty] changes quantities only: the products, the discounts
    and the order of the lines stay, the line of the id gets
    [max(1, qty + delta)] unless that exceeds the stock on the line, and a
    cart whose quantities are within the stock stays so. [addToCart] makes
    no such check: the line of a product already in the cart gets
    [qty + 1], whatever the stock. *)
Theorem cart_quantities_and_stock
    (id : string) (delta : Z) (product : Product.t) (cart : list CartItem.t) :
  CartItem.product <$> updateQty id delta cart = CartItem.product <$> cart
  ∧ CartItem.discount <$> updateQty id delta cart = CartItem.discount <$> cart
  ∧ (∀ i item, cart !! i = Some item →
       ∃ item', updateQty id delta cart !! i = Some item'
         ∧ CartItem.qty item'
           = (if decide (CartItem.id item = id
                         ∧ Z.max 1 (CartItem.qty item + delta)
                           ≤ Product.stock (CartItem.product item))%Z
              then Z.max 1 (CartItem.qty item + delta)
              else CartItem.qty item))
  ∧ (Forall (λ item, (CartItem.qty item ≤ Product.stock (CartItem.product item))%Z)
       cart →
     Forall (λ item, (CartItem.qty item ≤ Product.stock (CartItem.product item))%Z)
       (updateQty id delta cart))
  ∧ (∀ i item, cart !! i = Some item →
       CartItem.id item = Product.id product →
       addToCart product cart !! i
       = Some (CartItem.mk (CartItem.product item) (CartItem.qty item + 1)
                 (CartItem.discount item))).
Proof.
  split; [|split; [|split; [|split]]].
  - unfold updateQty. rewrite <- list_fmap_compose. apply list_fmap_ext.
    intros i item _. cbn. by repeat case_decide.
  - unfold updateQty. rewrite <- list_fmap_compose. apply list_fmap_ext.
    intros i item _. cbn. by repeat case_decide.
  - intros i item Hi. unfold updateQty. rewrite list_lookup_fmap, Hi.
    cbn [fmap option_fmap option_map]. eexists. split; [reflexivity|].
    cbn zeta. repeat case_decide; cbn [CartItem.qty]; try done; intuition lia.
  - intros Hcart. unfold updateQty. apply Forall_fmap.
    eapply Forall_impl; [exact Hcart|]. intros item Hitem.
    unfold compose. cbn beta zeta in *.
    repeat case_decide; cbn [CartItem.qty CartItem.product]; lia.
  - intros i item Hi Hid.
    assert (Hin : is_Some (list_find (λ item, CartItem.id item = Product.id product)
                            cart)).
    { eapply list_find_elem_of; [|exact Hid]. by eapply list_elem_of_lookup_2. }
    destruct Hin as [[j x] Hfind].
    rewrite (addToCart_present _ _ _ _ Hfind), list_lookup_fmap, Hi. cbn.
    by rewrite decide_True.
Qed.

(** ** From checkout to the stored bill *)

Section CheckoutProperties.
Context (parseFloat : string → option Q).

Lemma handleCheckout_confirmed (pg : BillingPage.t) :
  fst (handleCheckout parseFloat pg) = None →
  snd (handleCheckout parseFloat pg)
  = BillingPage.mk (BillingPage.cart pg) (BillingPage.paymentMode pg)
      (BillingPage.selectedCustomer pg) (BillingPage.cashAmount pg) true
  ∧ BillingPage.cart pg ≠ []
  ∧ ¬ (BillingPage.paymentMode pg = PaymentMode.CREDIT
       ∧ BillingPage.selectedCustomer pg = None)
  ∧ (BillingPage.paymentMode pg = PaymentMode.MIXED →
     (cashOf parseFloat (BillingPage.cashAmount pg)
      <= Totals.grandTotal (calculateTotals (BillingPage.cart pg)))%Q).
Proof.
  unfold handleCheckout.
  destruct (decide (length (BillingPage.cart pg) = 0)) as [Hempty|Hcart];
    [discriminate|].
  destruct (decide (BillingPage.paymentMode pg = PaymentMode.CREDIT
                    ∧ BillingPage.selectedCustomer pg = None)) as [Hno|Hcust];
    [discriminate|].
  cbn zeta. case_decide as Hmixed.
  - destruct (Qlt_le_dec _ _) as [Hlt|Hle]; [discriminate|]. intros _.
    split; [done|]. split; [by destruct (BillingPage.cart pg)|]. by split.
  - intros _. split; [done|]. split; [by destruct (BillingPage.cart pg)|].
    split; [done|]. tauto.
Qed.

(** X14. When [handleCheckout] raises no alert, [finalizeBill] on the
    confirmed page returns normally, resets the page and appends one bill
    with the lines of the cart, which is not empty. The status of the bill
    is CREDIT exactly when its payment mode is; a credit bill has its
    customer and its DEBIT entry in the khata, any other bill leaves the
    khata alone; and a mixed bill carries a cash and a UPI amount that add
    up to the grand total, the UPI amount not negative. *)
Theorem checkout_then_finalize
    (id date : string) (timestamp : Z) (uuid : string)
    (pg : BillingPage.t) (s : Store.t) :
  fst (handleCheckout parseFloat pg) = None →
  let confirmed := snd (handleCheckout parseFloat pg) in
  let bill := billOf parseFloat id date timestamp confirmed in
  let s' := exec (finalizeBill parseFloat id date timestamp uuid confirmed) s in
  BillingPage.showConfirmation confirmed = true
  ∧ result (finalizeBill parseFloat id date timestamp uuid confirmed) s
    = Returned ("Bill Generated Successfully!",
                BillingPage.mk [] PaymentMode.CASH None "" false)
  ∧ Store.bills s' = Store.bills s ++ [bill]
  ∧ Bill.items bill = BillingPage.cart pg ∧ BillingPage.cart pg ≠ []
  ∧ Bill.grandTotal bill = Totals.grandTotal (calculateTotals (BillingPage.cart pg))
  ∧ (Bill.status bill = Status.CREDIT ↔ Bill.paymentMode bill = PaymentMode.CREDIT)
  ∧ (Bill.paymentMode bill = PaymentMode.CREDIT →
     ∃ c, BillingPage.selectedCustomer pg = Some c
          ∧ Bill.customerId bill = Some (Customer.id c)
          ∧ Store.khata s' = Store.khata s ++ [saleDebit uuid bill c])
  ∧ (Bill.paymentMode bill ≠ PaymentMode.CREDIT → Store.khata s' = Store.khata s)
  ∧ (Bill.paymentMode bill = PaymentMode.MIXED →
     ∃ cash upi, Bill.cashAmount bill = Some cash ∧ Bill.upiAmount bill = Some upi
                 ∧ (cash + upi == Bill.grandTotal bill)%Q ∧ (0 <= upi)%Q)
  ∧ (Bill.paymentMode bill ≠ PaymentMode.MIXED →
     Bill.cashAmount bill = None ∧ Bill.upiAmount bill = None).
Proof.
  intros Hnone confirmed bill s'.
  destruct (handleCheckout_confirmed pg Hnone) as (Hconf & Hcart & Hcust & Hle).
  subst bill s' confirmed. rewrite Hconf. clear Hconf Hnone.
  set (confirm := BillingPage.mk (BillingPage.cart pg) (BillingPage.paymentMode pg)
                    (BillingPage.selectedCustomer pg) (BillingPage.cashAmount pg) true).
  unfold finalizeBill, exec, result, mbind, js_bind, bind, mret, js_ret, ret.
  pose proof (saveBill_result uuid (billOf parseFloat id date timestamp confirm)
                (BillingPage.selectedCustomer confirm) s) as Hres.
  pose proof (saveBill_bills uuid (billOf parseFloat id date timestamp confirm)
                (BillingPage.selectedCustomer confirm) s) as Hbills.
  pose proof (saveBill_khata uuid (billOf parseFloat id date timestamp confirm)
                (BillingPage.selectedCustomer confirm) s) as Hkhata.
  unfold exec, result in Hres, Hbills, Hkhata.
  destruct (saveBill uuid _ _ s) as [r s1]. cbn [fst snd] in *.
  cbn [billOf Bill.paymentMode Bill.status Bill.items Bill.grandTotal
         Bill.customerId Bill.cashAmount Bill.upiAmount
         BillingPage.cart BillingPage.paymentMode BillingPage.selectedCustomer
         BillingPage.cashAmount BillingPage.showConfirmation confirm] in *.
  assert (Hr : r = Returned tt).
  { rewrite Hres. case_decide as Hcredit; [|done].
    destruct (BillingPage.selectedCustomer pg) as [c|] eqn:Hsel; [done|].
    exfalso. apply Hcust. split; [|done].
    destruct Hcredit as [Hm|Hs]; [done|]. by case_decide. }
  clear Hres. subst r. cbn [fst snd].
  split; [done|]. split; [done|]. split; [exact Hbills|].
  split; [done|]. split; [done|].
  split; [done|].
  assert (Hk : Store.khata s1
               = match BillingPage.selectedCustomer pg with
                 | Some c =>
                     if decide (BillingPage.paymentMode pg = PaymentMode.CREDIT)
                     then Store.khata s
                          ++ [saleDebit uuid (billOf parseFloat id date timestamp confirm) c]
                     else Store.khata s
                 | None => Store.khata s
                 end).
  { rewrite Hkhata. destruct (BillingPage.selectedCustomer pg) as [c|]; [|done].
    destruct (decide (BillingPage.paymentMode pg = PaymentMode.CREDIT)) as [Hm|Hm].
    - by rewrite decide_True by (by left).
    - rewrite decide_False; [done|]. intros [?|?]; congruence. }
  clear Hkhata.
  destruct (decide (BillingPage.paymentMode pg = PaymentMode.CREDIT)) as [Hm|Hm].
  - split; [done|]. split; [|split; [done|]].
    + intros _. destruct (BillingPage.selectedCustomer pg) as [c|] eqn:Hsel; [|tauto].
      exists c. by repeat split.
    + rewrite !decide_False by congruence. split; [congruence|done].
  - split; [split; intros; congruence|]. split; [done|].
    split; [intros _; by destruct (BillingPage.selectedCustomer pg)|].
    split.
    + intros Hmixed. rewrite !decide_True by done.
      eexists _, _. split; [reflexivity|]. split; [reflexivity|].
      specialize (Hle Hmixed). split; [ring|lra].
    + intros Hmixed. by rewrite !decide_False.
Qed.
End CheckoutProperties.

(** ** From one day's close to the next day's opening *)

Lemma str_lt_irrefl (a : string) : ¬ str_lt a a.
Proof.
  unfold str_lt, String.ltb. pose proof (String.compare_antisym a a) as Hanti.
  destruct (String.compare a a); cbn in Hanti; congruence.
Qed.

Section LedgerChain.
Context (getTime : string → option Z) (parseFloat : string → option Q)
  (numToString : Q → string).

Lemma getLedgerEntry_opening (s : Store.t) (D : string) (e : LedgerEntry.t) :
  Forall (λ l, LedgerEntry.date l ≠ D) (Store.ledger s) →
  Forall (λ l, is_Some (getTime (LedgerEntry.date l))) (Store.ledger s) →
  latestBefore getTime (Store.ledger s) D e →
  getLedgerEntry getTime D s
  = (Returned (newLedgerEntry D (LedgerEntry.closingBalance e)), s).
Proof.
  intros Hnone Hvalid (Hin & Hlte & Hmax).
  assert (Hfind0 : list_find (λ l, LedgerEntry.date l = D) (Store.ledger s) = None)
    by (by apply list_find_None).
  unfold getLedgerEntry. js_unfold. rewrite Hfind0.
  set (sorted := Array_sort (byDateDesc getTime) (Store.ledger s)).
  assert (Hperm : sorted ≡ₚ Store.ledger s) by apply Array_sort_perm.
  destruct (list_find (λ l, str_lt (LedgerEntry.date l) D) sorted)
    as [[j x]|] eqn:Hfind.
  - pose proof Hfind as (Hj & Hlt & _)%list_find_Some.
    assert (Hx : x ∈ Store.ledger s).
    { rewrite <- Hperm. by eapply list_elem_of_lookup_2. }
    destruct (Hmax x Hx Hlt) as [->|(tx & te & Htx & Hte & Hearlier)];
      [reflexivity|].
    assert (Hle : (timeOf getTime e ≤ timeOf getTime x)%Z).
    { eapply (list_find_sorted_desc (timeOf getTime)); [|exact Hfind| |exact Hlte].
      - eapply Array_sort_sorted; [apply byDateDesc_timeOf|exact Hvalid].
      - by rewrite Hperm. }
    unfold timeOf in Hle. rewrite Htx, Hte in Hle. cbn in Hle. lia.
  - exfalso. apply list_find_None in Hfind. rewrite Forall_forall in Hfind.
    eapply Hfind; [|exact Hlte]. by rewrite Hperm.
Qed.

Lemma handleCloseDay_closes (pg : LedgerPage.t) (s : Store.t) :
  is_Some (LedgerPage.todayLedger pg) →
  Inputs.actualCash (LedgerPage.inputs pg) ≠ "" →
  (bankDepositVal parseFloat pg <= actualCashVal parseFloat pg)%Q →
  exec (handleCloseDay getTime parseFloat numToString pg) s
  = exec (saveLedgerDay (closingEntry parseFloat pg)) s.
Proof.
  intros [today Htoday] Hentered Hle.
  set (e := closingEntry parseFloat pg).
  set (saved := exec (saveLedgerDay e) s).
  assert (Hget : getLedgerEntry getTime (LedgerPage.selectedDate pg) saved
                 = (Returned e, saved)).
  { assert (Hrows : filter (λ l, LedgerEntry.date l = LedgerEntry.date e)
                      (Store.ledger saved) = [e]).
    { subst saved.
      change (exec (saveLedgerDay e) s) with (step s (SaveLedgerDay e)).
      rewrite step_ledger. apply filter_date_saved. }
    apply list_find_filter_head in Hrows as [i Hfind].
    by eapply getLedgerEntry_stored. }
  unfold exec at 1. unfold handleCloseDay. rewrite Htoday.
  case_decide; [done|].
  destruct (Qlt_le_dec _ _) as [Hlt|_]; [by apply Qle_not_lt in Hle|].
  fold e. unfold mbind, js_bind, bind at 1.
  change (saveLedgerDay e s) with (Returned tt, saved).
  unfold bind.
  erewrite (fetchData_closed getTime numToString); [reflexivity|exact Hget|reflexivity].
Qed.

(** X15. A day is closed from the ledger page with actual cash [A] and
    bank deposit [D <= A], and [D2] is a later date without a stored row.
    When the stored dates are valid dates and every other stored row before
    [D2] is of an earlier day than the one just closed, the row
    [getLedgerEntry] gives for [D2] opens with [A - D]. *)
Theorem close_then_next_day_opens (pg : LedgerPage.t) (s : Store.t) (D2 : string) :
  is_Some (LedgerPage.todayLedger pg) →
  Inputs.actualCash (LedgerPage.inputs pg) ≠ "" →
  (bankDepositVal parseFloat pg <= actualCashVal parseFloat pg)%Q →
  str_lt (LedgerPage.selectedDate pg) D2 →
  is_Some (getTime (LedgerPage.selectedDate pg)) →
  Forall (λ l, is_Some (getTime (LedgerEntry.date l))) (Store.ledger s) →
  Forall (λ l, LedgerEntry.date l ≠ D2) (Store.ledger s) →
  Forall (λ l, str_lt (LedgerEntry.date l) D2 →
               LedgerEntry.date l = LedgerPage.selectedDate pg
               ∨ earlier getTime l (closingEntry parseFloat pg)) (Store.ledger s) →
  let s' := exec (handleCloseDay getTime parseFloat numToString pg) s in
  getLedgerEntry getTime D2 s'
  = (Returned (newLedgerEntry D2
                 (actualCashVal parseFloat pg - bankDepositVal parseFloat pg)), s').
Proof.
  intros Htoday Hentered Hle Hlater Hvalid1 Hvalid Hnone Hbefore s'.
  subst s'. rewrite handleCloseDay_closes by done.
  set (e := closingEntry parseFloat pg).
  set (saved := exec (saveLedgerDay e) s).
  assert (Hledger : Store.ledger saved
                    = filter (λ l, LedgerEntry.date l ≠ LedgerEntry.date e)
                        (Store.ledger s) ++ [e]).
  { subst saved.
    change (exec (saveLedgerDay e) s) with (step s (SaveLedgerDay e)).
    by rewrite step_ledger. }
  assert (Hold : ∀ l, l ∈ filter (λ l, LedgerEntry.date l ≠ LedgerEntry.date e)
                            (Store.ledger s) →
                      l ∈ Store.ledger s ∧ LedgerEntry.date l ≠ LedgerEntry.date e).
  { intros l Hl%list_elem_of_filter. tauto. }
  rewrite Forall_forall in Hvalid, Hnone, Hbefore.
  change (actualCashVal parseFloat pg - bankDepositVal parseFloat pg)%Q
    with (LedgerEntry.closingBalance e).
  apply getLedgerEntry_opening.
  - rewrite Hledger. apply Forall_app. split.
    + apply Forall_forall. intros l Hl. apply Hnone. by apply Hold.
    + repeat constructor. cbn. intros <-.
      by apply str_lt_irrefl in Hlater.
  - rewrite Hledger. apply Forall_app. split.
    + apply Forall_forall. intros l Hl. apply Hvalid. by apply Hold.
    + by repeat constructor.
  - rewrite Hledger. split; [set_solver|]. split; [exact Hlater|].
    intros l Hl Hlt. apply elem_of_app in Hl as [Hl|Hl].
    + apply Hold in Hl as [Hin Hne]. right.
      destruct (Hbefore l Hin Hlt) as [Heq|Hearlier]; [done|exact Hearlier].
    + left. by apply list_elem_of_singleton in Hl.
Qed.

(** X16. A later [saveLedgerDay] of the same date overrides the earlier
    one: the store is the one the later save alone leaves. Saving the same
    row twice is saving it once. *)
Theorem saveLedgerDay_overrides (e1 e2 : LedgerEntry.t) (s : Store.t) :
  LedgerEntry.date e1 = LedgerEntry.date e2 →
  exec (saveLedgerDay e2) (exec (saveLedgerDay e1) s) = exec (saveLedgerDay e2) s.
Proof.
  intros Hdate. js_unfold. f_equal.
  rewrite filter_app, list_filter_filter, Hdate.
  rewrite filter_cons_False, filter_nil, app_nil_r by tauto.
  f_equal. apply list_filter_iff. intros l. tauto.
Qed.
End LedgerChain.

(** ** The ledger page in auto mode *)

Lemma handleInputChange_accepted (field : inputField) (value : string)
    (pg : LedgerPage.t) :
  (length (secondPart value) ≤ 2)%nat →
  handleInputChange field value pg
  = LedgerPage.mk (LedgerPage.selectedDate pg) (LedgerPage.todayLedger pg)
      (LedgerPage.isAutoMode pg) (LedgerPage.autoData pg)
      (setInput field value (LedgerPage.inputs pg)).
Proof.
  intros Hlen. unfold handleInputChange.
  case_decide as Hlong; [|reflexivity]. destruct Hlong as [_ Hlong]. lia.
Qed.

Lemma edits_keep_page (edits : list (inputField * string)) (pg : LedgerPage.t) :
  let edited := foldl (λ p e, handleInputChange (fst e) (snd e) p) pg edits in
  LedgerPage.selectedDate edited = LedgerPage.selectedDate pg
  ∧ LedgerPage.todayLedger edited = LedgerPage.todayLedger pg
  ∧ LedgerPage.isAutoMode edited = LedgerPage.isAutoMode pg
  ∧ LedgerPage.autoData edited = LedgerPage.autoData pg.
Proof.
  revert pg. induction edits as [|[field value] edits IH]; intros pg; [done|].
  cbn [foldl fst snd]. cbn zeta in IH.
  destruct (IH (handleInputChange field value pg)) as (-> & -> & -> & ->).
  unfold handleInputChange. by case_decide.
Qed.

Section AutoMode.
Context (getTime : string → option Z) (parseFloat : string → option Q)
  (numToString : Q → string).

Lemma getLedgerEntry_run (date : string) (s : Store.t) (base : LedgerEntry.t) :
  result (getLedgerEntry getTime date) s = Returned base →
  getLedgerEntry getTime date s = (Returned base, s).
Proof.
  intros Hres. pose proof (getLedgerEntry_store getTime date s) as Hs.
  unfold result, exec in *.
  destruct (getLedgerEntry getTime date s) as [r s']. cbn in *. congruence.
Qed.

Lemma fetchData_open (date : string) (pg : LedgerPage.t) (s : Store.t)
    (base : LedgerEntry.t) (stats : DailyStats.t) :
  getLedgerEntry getTime date s = (Returned base, s) →
  LedgerEntry.isClosed base = false →
  calculateDailyStats date s = (Returned stats, s) →
  fetchData getTime numToString date pg s
  = (Returned
       (LedgerPage.mk (LedgerPage.selectedDate pg) (Some base) true
          (AutoData.mk (LedgerEntry.openingBalance base) (DailyStats.grossSales stats)
             (DailyStats.onlineSales stats) (DailyStats.creditSales stats))
          (Inputs.mk
             (formatInput numToString (LedgerEntry.openingBalance base))
             (formatInput numToString (DailyStats.grossSales stats))
             (formatInput numToString (DailyStats.onlineSales stats))
             (formatInput numToString (DailyStats.creditSales stats))
             (formatInput numToString (orZero (LedgerEntry.expenses base)))
             (if Qeq_bool (LedgerEntry.actualCash base) 0 then ""
              else formatInput numToString (LedgerEntry.actualCash base))
             (if Qeq_bool (LedgerEntry.depositedToBank base) 0 then ""
              else formatInput numToString (LedgerEntry.depositedToBank base))
             (default "" (LedgerEntry.notes base)))), s).
Proof.
  intros Hget Hopen Hstats. unfold fetchData, mbind, js_bind, bind.
  rewrite Hget, Hopen. cbn [negb]. rewrite Hstats. reflexivity.
Qed.

(** X17. An open day is loaded on the ledger page, the refresh effect
    runs, the cashier types the counted cash and the bank deposit (at most
    two decimals, deposit not above the cash) and closes the day. When
    [parseFloat] reads back what [toString] printed for the five computed
    figures, the store then holds exactly one row of that date: closed, in
    auto mode, with the opening balance of [getLedgerEntry], the sales of
    [calculateDailyStats], the expected cash computed from them, and the
    typed cash less the typed deposit as closing balance. *)
Theorem auto_close_stores_the_day (pg0 : LedgerPage.t) (s : Store.t)
    (base : LedgerEntry.t) (stats : DailyStats.t) (actual deposit : string) :
  let date := LedgerPage.selectedDate pg0 in
  let expected :=
    ((LedgerEntry.openingBalance base + DailyStats.grossSales stats)
     - (DailyStats.onlineSales stats + DailyStats.creditSales stats
        + orZero (LedgerEntry.expenses base)))%Q in
  result (getLedgerEntry getTime date) s = Returned base →
  LedgerEntry.isClosed base = false →
  result (calculateDailyStats date) s = Returned stats →
  Forall (λ x, (parseNum parseFloat (formatInput numToString x) == x)%Q)
    [LedgerEntry.openingBalance base; DailyStats.grossSales stats;
     DailyStats.onlineSales stats; DailyStats.creditSales stats;
     orZero (LedgerEntry.expenses base)] →
  (length (secondPart actual) ≤ 2)%nat →
  (length (secondPart deposit) ≤ 2)%nat →
  actual ≠ "" →
  (parseNum parseFloat deposit <= parseNum parseFloat actual)%Q →
  ∃ pg1,
    result (fetchData getTime numToString date pg0) s = Returned pg1
    ∧ result (autoRefresh numToString pg1) s = Returned pg1
    ∧ let pg2 := handleInputChange F_bankDeposit deposit
                   (handleInputChange F_actualCash actual pg1) in
      ∃ row,
        filter (λ l, LedgerEntry.date l = date)
          (Store.ledger (exec (handleCloseDay getTime parseFloat numToString pg2) s))
        = [row]
        ∧ LedgerEntry.isClosed row = true
        ∧ LedgerEntry.isAutoMode row = true
        ∧ (LedgerEntry.openingBalance row == LedgerEntry.openingBalance base)%Q
        ∧ (LedgerEntry.grossSales row == DailyStats.grossSales stats)%Q
        ∧ (LedgerEntry.onlineSales row == DailyStats.onlineSales stats)%Q
        ∧ (LedgerEntry.creditSales row == DailyStats.creditSales stats)%Q
        ∧ (LedgerEntry.expenses row == orZero (LedgerEntry.expenses base))%Q
        ∧ (LedgerEntry.expectedCash row == expected)%Q
        ∧ LedgerEntry.actualCash row = parseNum parseFloat actual
        ∧ LedgerEntry.depositedToBank row = parseNum parseFloat deposit
        ∧ LedgerEntry.closingBalance row
          = (parseNum parseFloat actual - parseNum parseFloat deposit)%Q
        ∧ (LedgerEntry.difference row == parseNum parseFloat actual - expected)%Q.
Proof.
  intros date expected Hbase Hopen Hstats Hround Hactual Hdeposit Hentered Hle.
  apply getLedgerEntry_run in Hbase.
  assert (Hstats' : calculateDailyStats date s = (Returned stats, s)).
  { unfold result in Hstats. rewrite calculateDailyStats_run in Hstats |- *.
    cbn [fst] in Hstats. by rewrite Hstats. }
  pose proof (fetchData_open date pg0 s base stats Hbase Hopen Hstats') as Hfetch.
  eexists. split; [unfold result; rewrite Hfetch; reflexivity|].
  split.
  { unfold result, autoRefresh, mbind, js_bind, bind.
    cbn [LedgerPage.todayLedger LedgerPage.isAutoMode LedgerPage.selectedDate
         LedgerPage.autoData LedgerPage.inputs andb].
    rewrite Hopen. cbn [negb]. fold date. rewrite Hstats'. reflexivity. }
  rewrite !handleInputChange_accepted by done.
  cbn [LedgerPage.selectedDate LedgerPage.todayLedger LedgerPage.isAutoMode
       LedgerPage.autoData LedgerPage.inputs setInput
       Inputs.openingBalance Inputs.grossSales Inputs.onlineSales
       Inputs.creditSales Inputs.expenses Inputs.actualCash Inputs.bankDeposit
       Inputs.notes].
  match goal with
  | |- context [handleCloseDay _ _ _ ?p] => set (pg2 := p)
  end.
  rewrite handleCloseDay_closes; [|by eexists|exact Hentered|exact Hle].
  exists (closingEntry parseFloat pg2). split.
  { change (exec (saveLedgerDay (closingEntry parseFloat pg2)) s)
      with (step s (SaveLedgerDay (closingEntry parseFloat pg2))).
    rewrite step_ledger.
    exact (filter_date_saved (closingEntry parseFloat pg2) (Store.ledger s)). }
  apply Forall_cons in Hround as [Ho Hround].
  apply Forall_cons in Hround as [Hg Hround].
  apply Forall_cons in Hround as [Hn Hround].
  apply Forall_cons in Hround as [Hc Hround].
  apply Forall_cons in Hround as [He _].
  cbn [closingEntry LedgerEntry.isClosed LedgerEntry.isAutoMode
       LedgerEntry.openingBalance LedgerEntry.grossSales LedgerEntry.onlineSales
       LedgerEntry.creditSales LedgerEntry.expenses LedgerEntry.expectedCash
       LedgerEntry.actualCash LedgerEntry.depositedToBank
       LedgerEntry.closingBalance LedgerEntry.difference].
  unfold difference, expectedCash, totalDeductions, adjustedClosingCash,
    actualCashVal, bankDepositVal, currentOpening, currentGross, currentOnline,
    currentCredit, currentExpenses.
  subst pg2.
  cbn [LedgerPage.inputs LedgerPage.isAutoMode Inputs.openingBalance
       Inputs.grossSales Inputs.onlineSales Inputs.creditSales Inputs.expenses
       Inputs.actualCash Inputs.bankDeposit].
  repeat split; try reflexivity; try assumption.
  - subst expected. by rewrite Ho, Hg, Hn, Hc, He.
  - subst expected. by rewrite Ho, Hg, Hn, Hc, He.
Qed.

(** X18. The cashier leaves auto mode, edits the form in any way, and
    returns to auto mode on an open day, after which the refresh effect
    runs. The edits of the four computed fields are gone: the opening
    balance shows the one the page was loaded with and the three sales
    fields show [calculateDailyStats] of the selected date. The expenses,
    the cash, the deposit and the notes are as edited. *)
Theorem back_to_auto_restores_computed_fields
    (edits : list (inputField * string)) (pg : LedgerPage.t) (s : Store.t)
    (today : LedgerEntry.t) (stats : DailyStats.t) :
  LedgerPage.todayLedger pg = Some today →
  LedgerEntry.isClosed today = false →
  result (calculateDailyStats (LedgerPage.selectedDate pg)) s = Returned stats →
  let edited :=
    foldl (λ p e, handleInputChange (fst e) (snd e) p)
      (handleModeSwitch numToString false pg) edits in
  ∃ pg',
    result (autoRefresh numToString (handleModeSwitch numToString true edited)) s
    = Returned pg'
    ∧ LedgerPage.isAutoMode pg' = true
    ∧ Inputs.openingBalance (LedgerPage.inputs pg')
      = formatInput numToString (AutoData.openingBalance (LedgerPage.autoData pg))
    ∧ Inputs.grossSales (LedgerPage.inputs pg')
      = formatInput numToString (DailyStats.grossSales stats)
    ∧ Inputs.onlineSales (LedgerPage.inputs pg')
      = formatInput numToString (DailyStats.onlineSales stats)
    ∧ Inputs.creditSales (LedgerPage.inputs pg')
      = formatInput numToString (DailyStats.creditSales stats)
    ∧ Inputs.expenses (LedgerPage.inputs pg')
      = Inputs.expenses (LedgerPage.inputs edited)
    ∧ Inputs.actualCash (LedgerPage.inputs pg')
      = Inputs.actualCash (LedgerPage.inputs edited)
    ∧ Inputs.bankDeposit (LedgerPage.inputs pg')
      = Inputs.bankDeposit (LedgerPage.inputs edited)
    ∧ Inputs.notes (LedgerPage.inputs pg')
      = Inputs.notes (LedgerPage.inputs edited).
Proof.
  intros Htoday Hopen Hstats edited.
  destruct (edits_keep_page edits (handleModeSwitch numToString false pg))
    as (Hdate & Hledger & _ & Hdata).
  fold edited in Hdate, Hledger, Hdata.
  cbn [handleModeSwitch LedgerPage.selectedDate LedgerPage.todayLedger
       LedgerPage.autoData] in Hdate, Hledger, Hdata.
  assert (Hstats' : calculateDailyStats (LedgerPage.selectedDate pg) s
                    = (Returned stats, s)).
  { unfold result in Hstats. rewrite calculateDailyStats_run in Hstats |- *.
    cbn [fst] in Hstats. by rewrite Hstats. }
  eexists. split.
  { unfold result, autoRefresh, handleModeSwitch, mbind, js_bind, bind.
    cbn [LedgerPage.todayLedger LedgerPage.isAutoMode LedgerPage.selectedDate
         LedgerPage.autoData LedgerPage.inputs andb].
    rewrite Hledger, Htoday, Hopen, Hdate. cbn [negb]. rewrite Hstats'.
    reflexivity. }
  cbn [LedgerPage.isAutoMode LedgerPage.inputs Inputs.openingBalance
       Inputs.grossSales Inputs.onlineSales Inputs.creditSales Inputs.expenses
       Inputs.actualCash Inputs.bankDeposit Inputs.notes].
  rewrite Hdata. done.
Qed.

End AutoMode.

(** ** The cash page and the dashboard *)

Lemma getLedgerEntry_returns (getTime : string → option Z) (date : string)
    (s : Store.t) :
  ∃ base, getLedgerEntry getTime date s = (Returned base, s).
Proof.
  unfold getLedgerEntry. js_unfold.
  destruct (list_find _ (Store.ledger s)) as [[i e]|]; eexists; reflexivity.
Qed.

Section CashPage.
Context (getTime : string → option Z) (localeCompare : string → string → Z).

(** X19. The cash page writes nothing. Its history holds the closed rows
    of the ledger and its deposit history the rows with a deposit, each
    once. For a date that is not today it shows the stored row of that
    date, if any. For today it shows the row of [getTodayLedger]: a closed
    row as stored, an open one with the statistics of the day and, as
    expected cash, the opening balance plus the cash sales of
    [calculateTodayLiveCash] less the expenses and the deposit. *)
Theorem cash_page_shows_live_cash
    (selectedDate today today1 today2 : string) (s : Store.t) :
  ∃ view,
    cashFetchData getTime localeCompare selectedDate today today1 today2 s
    = (Returned view, s)
    ∧ CashView.historyList view
      ≡ₚ filter (λ l, LedgerEntry.isClosed l = true) (Store.ledger s)
    ∧ CashView.depositHistory view
      ≡ₚ filter (λ l, (0 < LedgerEntry.depositedToBank l)%Q) (Store.ledger s)
    ∧ (selectedDate ≠ today →
       CashView.data view
       = snd <$> list_find (λ l, LedgerEntry.date l = selectedDate) (Store.ledger s))
    ∧ (selectedDate = today →
       ∃ base,
         result (getTodayLedger getTime today1) s = Returned base
         ∧ (LedgerEntry.isClosed base = true → CashView.data view = Some base)
         ∧ (LedgerEntry.isClosed base = false →
            ∀ today3 live,
              result (calculateTodayLiveCash today2 today3) s = Returned live →
              ∃ e stats,
                CashView.data view = Some e
                ∧ result (calculateTodayLiveStats today2) s = Returned stats
                ∧ LedgerEntry.grossSales e = DailyStats.grossSales stats
                ∧ LedgerEntry.onlineSales e = DailyStats.onlineSales stats
                ∧ LedgerEntry.creditSales e = DailyStats.creditSales stats
                ∧ LedgerEntry.openingBalance e = LedgerEntry.openingBalance base
                ∧ LedgerEntry.isClosed e = false
                ∧ (LedgerEntry.expectedCash e
                   == LedgerEntry.openingBalance base + LiveCash.cashSales live
                      - orZero (LedgerEntry.expenses base)
                      - orZero (LedgerEntry.depositedToBank base))%Q)).
Proof.
  destruct (getLedgerEntry_returns getTime today1 s) as [base Hbase].
  unfold cashFetchData, getTodayLedger, calculateTodayLiveStats,
    getLedger, get_LEDGER, mbind, js_bind, bind.
  destruct (decide (selectedDate = today)) as [Htoday|Hother].
  - rewrite Hbase.
    destruct (LedgerEntry.isClosed base) eqn:Hclosed; cbn [negb].
    + eexists. split; [reflexivity|].
      cbn [CashView.historyList CashView.depositHistory CashView.data].
      split; [by rewrite Array_sort_perm|]. split; [by rewrite Array_sort_perm|].
      split; [done|]. intros _. exists base.
      unfold result at 1. rewrite Hbase. split; [done|]. split; [done|].
      intros Hopen. congruence.
    + rewrite calculateDailyStats_run.
      eexists. split; [reflexivity|].
      cbn [CashView.historyList CashView.depositHistory CashView.data].
      split; [by rewrite Array_sort_perm|]. split; [by rewrite Array_sort_perm|].
      split; [done|]. intros _. exists base.
      unfold result at 1. rewrite Hbase. split; [done|]. split; [congruence|].
      intros _ today3 live Hlive. eexists _, _. split; [reflexivity|].
      unfold result. rewrite calculateDailyStats_run. cbn [fst].
      split; [reflexivity|].
      cbn [LedgerEntry.grossSales LedgerEntry.onlineSales LedgerEntry.creditSales
           LedgerEntry.openingBalance LedgerEntry.isClosed LedgerEntry.expectedCash].
      repeat (split; [done|]).
      unfold result, calculateTodayLiveCash, calculateTodayLiveStats,
        mbind, js_bind, bind in Hlive.
      rewrite calculateDailyStats_run in Hlive. cbn in Hlive.
      injection Hlive as <-. cbn [LiveCash.cashSales]. ring.
  - eexists. split; [reflexivity|].
    cbn [CashView.historyList CashView.depositHistory CashView.data].
    split; [by rewrite Array_sort_perm|]. split; [by rewrite Array_sort_perm|].
    split; [done|]. done.
Qed.

End CashPage.

(** The sums the loop of the dashboard accumulates, from any start. *)
Lemma foldl_billStep (bills : list Bill.t) (acc : Q * Q) :
  let unpaid b :=
    (Bill.grandTotal b - orZero (default 0 (Bill.cashAmount b))
     - orZero (default 0 (Bill.upiAmount b)))%Q in
  (fst (foldl Dashboard.billStep acc bills)
   == fst acc + Qsum (Bill.grandTotal <$> bills))%Q
  ∧ (snd (foldl Dashboard.billStep acc bills)
     == snd acc
        + Qsum (Bill.grandTotal <$>
                  filter (λ b, Bill.paymentMode b = PaymentMode.CREDIT) bills)
        + Qsum (unpaid <$>
                  filter (λ b, Bill.paymentMode b = PaymentMode.MIXED) bills))%Q.
Proof.
  intros unpaid. revert acc.
  induction bills as [|b bills IH]; intros acc; cbn [foldl].
  - unfold Qsum. cbn. split; ring.
  - destruct (IH (Dashboard.billStep acc b)) as [-> ->].
    rewrite fmap_cons, !filter_cons. unfold Dashboard.billStep.
    cbn [fst snd]. unfold Qsum.
    destruct (Bill.paymentMode b) eqn:Hmode;
      repeat case_decide; try done; rewrite ?fmap_cons; cbn [foldr];
      subst unpaid; cbn beta; split; ring.
Qed.

Lemma foldl_dailyStats_credit (bills : list Bill.t) (acc : DailyStats.t) :
  (DailyStats.creditSales (foldl dailyStatsStep acc bills)
   == DailyStats.creditSales acc
      + Qsum (Bill.grandTotal <$>
                filter (λ b, Bill.paymentMode b = PaymentMode.CREDIT) bills))%Q.
Proof.
  revert acc. induction bills as [|b bills IH]; intros acc; cbn [foldl].
  - unfold Qsum. cbn. ring.
  - rewrite IH, filter_cons. unfold dailyStatsStep, Qsum.
    destruct (Bill.paymentMode b) eqn:Hmode;
      case_decide; try done; rewrite ?fmap_cons;
      cbn [foldr DailyStats.creditSales]; ring.
Qed.

(** X20. The dashboard writes nothing. With one date on the clock, its
    sales of today are the gross sales of [calculateDailyStats]; its cash
    of today is the gross sales less the online and the credit sales, plus
    the khata payments received today; its credit given is the credit
    sales of [calculateDailyStats] plus, for every MIXED bill of the day,
    the part of the grand total that neither the cash nor the UPI amount
    covers; its low-stock count is the number of products with a stock
    below 10. *)
Theorem dashboard_against_daily_stats (today : string) (s : Store.t) :
  let todayBills :=
    filter (λ b, String.prefix today (Bill.date b) = true
                 ∧ Bill.status b ≠ Status.CANCELLED) (Store.bills s) in
  let unpaid b :=
    (Bill.grandTotal b - orZero (default 0 (Bill.cashAmount b))
     - orZero (default 0 (Bill.upiAmount b)))%Q in
  let received :=
    Qsum (KhataEntry.amount <$>
            filter (λ k, String.prefix today (KhataEntry.date k) = true
                         ∧ KhataEntry.type k = KhataType.CREDIT) (Store.khata s)) in
  ∃ d stats,
    Dashboard.loadStats today today today s = (Returned d, s)
    ∧ calculateDailyStats today s = (Returned stats, s)
    ∧ (Dashboard.todaySales d == DailyStats.grossSales stats)%Q
    ∧ (Dashboard.todayCash d
       == DailyStats.grossSales stats - DailyStats.onlineSales stats
          - DailyStats.creditSales stats + received)%Q
    ∧ (Dashboard.todayCreditGiven d
       == DailyStats.creditSales stats
          + Qsum (unpaid <$>
                    filter (λ b, Bill.paymentMode b = PaymentMode.MIXED)
                      todayBills))%Q
    ∧ Dashboard.lowStockCount d
      = length (filter (λ p, (Product.stock p < 10)%Z) (Store.products s)).
Proof.
  intros todayBills unpaid received.
  pose proof (foldl_billStep todayBills (0%Q, 0%Q)) as [Htotal Hgiven].
  destruct (foldl Dashboard.billStep (0%Q, 0%Q) todayBills) as [total given]
    eqn:Hloop.
  cbn [fst snd] in Htotal, Hgiven.
  eexists _, _. split; [|split; [apply calculateDailyStats_run|]].
  { unfold Dashboard.loadStats, calculateTodayLiveCash, calculateTodayLiveStats,
      mbind, js_bind, bind.
    rewrite calculateDailyStats_run. js_unfold. fold todayBills.
    rewrite Hloop. reflexivity. }
  fold todayBills.
  cbn [Dashboard.todaySales Dashboard.todayCash Dashboard.todayCreditGiven
       Dashboard.lowStockCount LiveCash.cashSales LiveCash.creditReceived].
  split; [|split; [|split; [|reflexivity]]].
  - rewrite Htotal, foldl_dailyStats_gross. cbn [DailyStats.grossSales]. ring.
  - assert (Hrec : (foldl (λ sum k, sum + KhataEntry.amount k) 0
                      (filter (λ k, String.prefix today (KhataEntry.date k) = true
                                    ∧ KhataEntry.type k = KhataType.CREDIT)
                         (Store.khata s)) == received)%Q).
    { subst received. clear.
      induction (filter _ (Store.khata s)) as [|k l IH] using rev_ind.
      - reflexivity.
      - rewrite foldl_app, fmap_app, Qsum_app. cbn [foldl]. rewrite IH.
        unfold Qsum. cbn. ring. }
    rewrite Hrec. ring.
  - rewrite Hgiven, foldl_dailyStats_credit. cbn [DailyStats.creditSales].
    fold unpaid. ring.
Qed.

(** ** The import of a purchase list *)

Lemma find_by_key_NoDup {A K} `{EqDecision K} (key : A → K) (l : list A) i e :
  NoDup (key <$> l) → l !! i = Some e →
  list_find (λ a, key a = key e) l = Some (i, e).
Proof.
  intros Hnodup Hi. apply list_find_Some. split; [exact Hi|]. split; [done|].
  intros j y Hj Hlt Hkey.
  assert (j = i); [|lia].
  eapply NoDup_lookup; [exact Hnodup| |].
  - by rewrite list_lookup_fmap, Hj.
  - by rewrite list_lookup_fmap, Hi, Hkey.
Qed.

Lemma totalStockOf_insert (products : list Product.t) i e x :
  products !! i = Some e →
  totalStockOf (<[i := x]> products)
  = (totalStockOf products - Product.stock e + Product.stock x)%Z.
Proof.
  unfold totalStockOf. revert i.
  induction products as [|p products IH]; intros i Hi; [done|].
  destruct i as [|i]; cbn in Hi.
  - injection Hi as ->.
    change (<[0%nat := x]> (e :: products)) with (x :: products).
    rewrite !fmap_cons. cbn [foldr]. lia.
  - change (<[S i := x]> (p :: products)) with (p :: <[i := x]> products).
    rewrite !fmap_cons. cbn [foldr]. rewrite (IH i Hi). lia.
Qed.

Lemma totalStockOf_snoc (products : list Product.t) x :
  totalStockOf (products ++ [x]) = (totalStockOf products + Product.stock x)%Z.
Proof.
  unfold totalStockOf. induction products as [|p products IH]; cbn in *; lia.
Qed.

Lemma elem_of_insert_other {A} (l : list A) i x e e' :
  l !! i = Some e → e' ∈ l → e' ≠ e → e' ∈ <[i := x]> l.
Proof.
  intros Hi [j Hj]%list_elem_of_lookup Hne.
  apply list_elem_of_lookup. exists j.
  rewrite list_lookup_insert_ne; [done|]. intros ->. congruence.
Qed.

Lemma saveProduct_run (product : Product.t) (s : Store.t) :
  saveProduct product s
  = (Returned tt,
     Store.mk
       match list_find (λ p, Product.id p = Product.id product) (Store.products s) with
       | Some (index, _) => <[index := product]> (Store.products s)
       | None => Store.products s ++ [product]
       end
       (Store.bills s) (Store.customers s) (Store.ledger s) (Store.khata s)).
Proof. js_unfold. reflexivity. Qed.

Section ImportProperties.
Context (toLowerCase : string → string) (freshId : ImportItem.t → string)
  (fallbackCode : ImportItem.t → string).

(** The quantities of the lines of a list, together. *)
Local Abbreviation listed items :=
  (foldr Z.add 0%Z ((λ item, default 0%Z (ImportItem.qty item)) <$> items))
  (only parsing).

Lemma importLoop_adds (products : list Product.t) (items : list ImportItem.t) :
  ∀ (s : Store.t) (count : nat) (total : Z),
    NoDup (Product.id <$> Store.products s) →
    NoDup ((λ item, toLowerCase (ImportItem.name item)) <$> items) →
    NoDup (freshId <$> items) →
    Forall (λ item, freshId item ∉ Product.id <$> Store.products s) items →
    Forall (λ item, ∀ e, e ∈ products →
                         toLowerCase (Product.name e)
                         = toLowerCase (ImportItem.name item) →
                         e ∈ Store.products s) items →
    ∃ s',
      importLoop toLowerCase freshId fallbackCode products items count total s
      = (Returned ((count + length items)%nat, (total + listed items)%Z), s')
      ∧ totalStockOf (Store.products s')
        = (totalStockOf (Store.products s) + listed items)%Z
      ∧ NoDup (Product.id <$> Store.products s')
      ∧ Store.bills s' = Store.bills s
      ∧ Store.customers s' = Store.customers s
      ∧ Store.ledger s' = Store.ledger s
      ∧ Store.khata s' = Store.khata s.
Proof.
  induction items as [|item items IH];
    intros s count total Hids Hnames Hfresh Hnew Hkept.
  - exists s. cbn. rewrite Nat.add_0_r, Z.add_0_r. by rewrite Z.add_0_r.
  - cbn [importLoop]. unfold mbind, js_bind, bind.
    rewrite saveProduct_run.
    rewrite fmap_cons in Hnames, Hfresh.
    apply NoDup_cons in Hnames as [Hname Hnames].
    apply NoDup_cons in Hfresh as [Hfid Hfresh].
    apply Forall_cons in Hnew as [Hnew1 Hnew].
    apply Forall_cons in Hkept as [Hkept1 Hkept].
    rewrite Forall_forall in Hnew, Hkept.
    set (x := importProduct toLowerCase freshId fallbackCode products item).
    assert (Hstep :
      ∃ ps,
        match list_find (λ p, Product.id p = Product.id x) (Store.products s) with
        | Some (index, _) => <[index := x]> (Store.products s)
        | None => Store.products s ++ [x]
        end = ps
        ∧ totalStockOf ps
          = (totalStockOf (Store.products s)
             + default 0 (ImportItem.qty item))%Z
        ∧ NoDup (Product.id <$> ps)
        ∧ (∀ item', item' ∈ items → freshId item' ∉ Product.id <$> ps)
        ∧ (∀ item' e, item' ∈ items → e ∈ products →
                      toLowerCase (Product.name e)
                      = toLowerCase (ImportItem.name item') →
                      e ∈ ps)).
    { eexists. split; [reflexivity|]. subst x. unfold importProduct.
      destruct (list_find _ products) as [[k e0]|] eqn:Hfind.
      - apply list_find_Some in Hfind as (Hk & Hlow & _).
        assert (Hin0 : e0 ∈ products) by (by eapply list_elem_of_lookup_2).
        pose proof (Hkept1 e0 Hin0 Hlow) as [i Hi]%list_elem_of_lookup.
        cbn [Product.id].
        rewrite (find_by_key_NoDup Product.id _ i e0 Hids Hi).
        match goal with
        | |- context [<[i := ?y]> (Store.products s)] => set (x := y)
        end.
        assert (Hsame : Product.id <$> <[i := x]> (Store.products s)
                        = Product.id <$> Store.products s).
        { rewrite list_fmap_insert. apply list_insert_id.
          by rewrite list_lookup_fmap, Hi. }
        split; [|split; [|split]].
        + rewrite (totalStockOf_insert _ i e0 _ Hi). cbn [Product.stock x]. lia.
        + by rewrite Hsame.
        + intros item' Hin'. rewrite Hsame. by apply Hnew.
        + intros item' e Hin' He Hlow'.
          eapply elem_of_insert_other; [exact Hi|by eapply Hkept|].
          intros ->. apply Hname. rewrite <- Hlow, Hlow'.
          apply list_elem_of_fmap. by exists item'.
      - cbn [Product.id].
        assert (Hnone : list_find (λ p, Product.id p = freshId item)
                          (Store.products s) = None).
        { apply list_find_None, Forall_forall. intros p Hp Heq.
          apply Hnew1. rewrite <- Heq. apply list_elem_of_fmap. by exists p. }
        rewrite Hnone. split; [|split; [|split]].
        + rewrite totalStockOf_snoc. cbn [Product.stock]. lia.
        + rewrite fmap_app. apply NoDup_app. split; [done|]. split.
          * intros y Hy. cbn. rewrite list_elem_of_singleton. intros ->.
            by apply Hnew1.
          * cbn. apply NoDup_singleton.
        + intros item' Hin'. rewrite fmap_app. cbn [fmap list_fmap Product.id].
          rewrite elem_of_app, list_elem_of_singleton.
          intros [Hold|Heq]; [by eapply Hnew|].
          apply Hfid. rewrite <- Heq. apply list_elem_of_fmap. by exists item'.
        + intros item' e Hin' He Hlow'. apply elem_of_app. left.
          by eapply Hkept. }
    destruct Hstep as (ps & -> & Htotal & Hids' & Hnew' & Hkept').
    edestruct (IH (Store.mk ps (Store.bills s) (Store.customers s)
                     (Store.ledger s) (Store.khata s)) (S count)
                 (total + default 0 (ImportItem.qty item))%Z)
      as (s' & Hrun & Hsum & Hnodup & Hb & Hc & Hl & Hk);
      [exact Hids'|exact Hnames|exact Hfresh
      |apply Forall_forall; exact Hnew'
      |apply Forall_forall; intros item' Hin' e; by apply Hkept'|].
    exists s'. rewrite Hrun. cbn [Store.products Store.bills Store.customers
                                    Store.ledger Store.khata] in *.
    rewrite fmap_cons. cbn [foldr length].
    split; [do 3 f_equal; lia|]. split; [lia|]. done.
Qed.

(** X21. The inventory page shows the stored products, whose ids are
    distinct, and imports a list whose lines have names that differ
    beyond letter case and get fresh ids that are distinct and unused.
    Then the import counts every line, reports the sum of the quantities,
    and raises the stock of the shop by exactly that sum. The product ids
    stay distinct, and bills, customers, ledger and khata are not
    written. *)
Theorem import_adds_the_listed_stock
    (previewData : list ImportItem.t) (s : Store.t) :
  NoDup (Product.id <$> Store.products s) →
  NoDup ((λ item, toLowerCase (ImportItem.name item)) <$> previewData) →
  NoDup (freshId <$> previewData) →
  Forall (λ item, freshId item ∉ Product.id <$> Store.products s) previewData →
  let import :=
    finalizeImport toLowerCase freshId fallbackCode (Store.products s) previewData in
  let s' := exec import s in
  ∃ stats,
    result import s = Returned (stats, Store.products s')
    ∧ ImportStats.added stats = length previewData
    ∧ ImportStats.totalStock stats
      = foldr Z.add 0%Z ((λ item, default 0%Z (ImportItem.qty item)) <$> previewData)
    ∧ totalStockOf (Store.products s')
      = (totalStockOf (Store.products s) + ImportStats.totalStock stats)%Z
    ∧ NoDup (Product.id <$> Store.products s')
    ∧ Store.bills s' = Store.bills s
    ∧ Store.customers s' = Store.customers s
    ∧ Store.ledger s' = Store.ledger s
    ∧ Store.khata s' = Store.khata s.
Proof.
  intros Hids Hnames Hfresh Hnew import s'.
  destruct (importLoop_adds (Store.products s) previewData s 0 0%Z)
    as (s1 & Hrun & Hsum & Hnodup & Hb & Hc & Hl & Hk); try done.
  { apply Forall_forall. by intros item _ e He _. }
  assert (Himport : import s
                    = (Returned (ImportStats.mk (length previewData)
                                   (foldr Z.add 0%Z
                                      ((λ item, default 0%Z (ImportItem.qty item))
                                         <$> previewData)),
                                 Store.products s1), s1)).
  { subst import. unfold finalizeImport, mbind, js_bind, bind.
    rewrite Hrun. reflexivity. }
  subst s'. unfold exec, result. rewrite Himport. cbn [fst snd].
  eexists. split; [reflexivity|].
  cbn [ImportStats.added ImportStats.totalStock]. done.
Qed.

(** X22. Two lines of one list whose names agree beyond letter case with
    the same stored product both start from the stock the page showed
    before the import: the statistics count the quantities of both lines,
    and the stock of the shop rises by the quantity of the second line
    alone. *)
Theorem import_repeated_name_keeps_last
    (item1 item2 : ImportItem.t) (s : Store.t) (i : nat) (existing : Product.t) :
  NoDup (Product.id <$> Store.products s) →
  list_find (λ p, toLowerCase (Product.name p)
                  = toLowerCase (ImportItem.name item1)) (Store.products s)
  = Some (i, existing) →
  toLowerCase (ImportItem.name item2) = toLowerCase (ImportItem.name item1) →
  let import :=
    finalizeImport toLowerCase freshId fallbackCode (Store.products s)
      [item1; item2] in
  let s' := exec import s in
  let qty1 := default 0%Z (ImportItem.qty item1) in
  let qty2 := default 0%Z (ImportItem.qty item2) in
  ∃ stats p,
    result import s = Returned (stats, Store.products s')
    ∧ ImportStats.added stats = 2%nat
    ∧ ImportStats.totalStock stats = (qty1 + qty2)%Z
    ∧ Store.products s' !! i = Some p
    ∧ Product.id p = Product.id existing
    ∧ Product.stock p = (Product.stock existing + qty2)%Z
    ∧ totalStockOf (Store.products s')
      = (totalStockOf (Store.products s) + qty2)%Z.
Proof.
  intros Hids Hfind Hname import s' qty1 qty2.
  pose proof Hfind as (Hi & _ & _)%list_find_Some.
  pose proof (find_by_key_NoDup Product.id _ i existing Hids Hi) as Hbyid.
  set (x1 := importProduct toLowerCase freshId fallbackCode (Store.products s) item1).
  set (x2 := importProduct toLowerCase freshId fallbackCode (Store.products s) item2).
  assert (Hx1 : Product.id x1 = Product.id existing).
  { subst x1. unfold importProduct. by rewrite Hfind. }
  assert (Hx2 : Product.id x2 = Product.id existing
                ∧ Product.stock x2 = (Product.stock existing + qty2)%Z).
  { subst x2. unfold importProduct. rewrite Hname, Hfind. done. }
  destruct Hx2 as [Hx2 Hstock2].
  assert (Hbyid1 : list_find (λ p, Product.id p = Product.id x2)
                     (<[i := x1]> (Store.products s)) = Some (i, x1)).
  { rewrite Hx2, <- Hx1. apply find_by_key_NoDup.
    - rewrite list_fmap_insert, list_insert_id; [done|].
      by rewrite list_lookup_fmap, Hi, Hx1.
    - apply list_lookup_insert_eq. by eapply lookup_lt_Some. }
  assert (Himport :
    import s
    = (Returned (ImportStats.mk 2 (0 + qty1 + qty2)%Z,
                 <[i := x2]> (Store.products s)),
       Store.mk (<[i := x2]> (Store.products s)) (Store.bills s)
         (Store.customers s) (Store.ledger s) (Store.khata s))).
  { subst import. unfold finalizeImport. cbn [importLoop].
    unfold mbind, js_bind, bind. fold x1 x2.
    rewrite saveProduct_run, Hx1, Hbyid. rewrite saveProduct_run.
    cbn [Store.products Store.bills Store.customers Store.ledger Store.khata].
    rewrite Hbyid1, list_insert_insert_eq. reflexivity. }
  subst s'. unfold exec, result. rewrite Himport. cbn [fst snd Store.products].
  eexists _, x2. split; [reflexivity|].
  cbn [ImportStats.added ImportStats.totalStock].
  split; [done|]. split; [lia|]. split.
  { apply list_lookup_insert_eq. by eapply lookup_lt_Some. }
  split; [done|]. split; [done|].
  rewrite (totalStockOf_insert _ i existing x2 Hi). lia.
Qed.

End ImportProperties.

(** * The further properties at the data of the examples *)

(** X1 at a new stock of the rice: the soap is found as before. *)
Lemma saveProduct_upsert_witness :
  let s' := exec (saveProduct (Product.set_stock 30 Demo.rice)) Demo.shop in
  "p1" ≠ Product.id (Product.set_stock 30 Demo.rice)
  ∧ list_find (λ p, Product.id p = "p1") (Store.products s')
    = list_find (λ p, Product.id p = "p1") (Store.products Demo.shop).
Proof.
  intros s'.
  assert (Hother : "p1" ≠ Product.id (Product.set_stock 30 Demo.rice))
    by discriminate.
  split; [exact Hother|].
  exact (proj1 (proj2 (proj2 (saveProduct_upsert (Product.set_stock 30 Demo.rice)
                                Demo.shop))) "p1" Hother).
Defined.

(** X2 at an id the shop does not have. *)
Lemma deleteProduct_removes_witness :
  list_find (λ p, Product.id p = "p9") (Store.products Demo.shop) = None
  ∧ exec (deleteProduct "p9") Demo.shop = Demo.shop.
Proof.
  assert (Hnone : list_find (λ p, Product.id p = "p9") (Store.products Demo.shop)
                  = None) by reflexivity.
  split; [exact Hnone|].
  exact (proj1 (proj2 (proj2 (deleteProduct_removes "p9" Demo.shop))) Hnone).
Defined.

(** X3 at the store with one product and one customer. *)
Lemma reachable_ids_unique_witness :
  let s := step (step Store.empty (SaveProduct Demo.soap)) (SaveCustomer Demo.asha) in
  reachable s
  ∧ NoDup (Product.id <$> Store.products s)
  ∧ NoDup (Customer.id <$> Store.customers s).
Proof.
  intros s.
  assert (Hreach : reachable s) by (repeat constructor).
  split; [exact Hreach|].
  exact (reachable_ids_unique s Hreach).
Defined.

(** X4 at a credit sale and its cancellation: the soap is still a
    product. *)
Lemma records_kept_witness :
  let ops := [SaveBill "k1" Demo.creditBill (Some Demo.asha); CancelBill "b1"] in
  Forall (λ o, ∀ id, o ≠ DeleteProduct id) ops
  ∧ "p1" ∈ Product.id <$> Store.products Demo.shop
  ∧ "p1" ∈ Product.id <$> Store.products (run ops Demo.shop).
Proof.
  intros ops.
  assert (Hops : Forall (λ o, ∀ id, o ≠ DeleteProduct id) ops)
    by (repeat constructor; discriminate).
  assert (Hin : "p1" ∈ Product.id <$> Store.products Demo.shop)
    by apply list_elem_of_here.
  split; [exact Hops|]. split; [exact Hin|].
  exact (proj2 (records_kept Demo.shop ops) Hops "p1" Hin).
Defined.

(** X5 at the cash sale, which is cancelled and followed by a save of the
    rice. *)
Lemma bills_append_only_witness :
  let ops := [CancelBill "b2"; SaveProduct Demo.rice] in
  Store.bills Demo.busyShop !! 0%nat = Some Demo.bigBill
  ∧ ∃ b', Store.bills (run ops Demo.busyShop) !! 0%nat = Some b'
          ∧ (b' = Demo.bigBill ∨ b' = Bill.set_status Status.CANCELLED Demo.bigBill).
Proof.
  intros ops.
  assert (Hat : Store.bills Demo.busyShop !! 0%nat = Some Demo.bigBill)
    by reflexivity.
  split; [exact Hat|].
  destruct (bills_append_only Demo.busyShop ops 0 Demo.bigBill Hat)
    as (b' & Hb' & Hor & _).
  exists b'. split; [exact Hb'|exact Hor].
Defined.

(** X7 at Asha, who owes the 236 of a credit sale and pays them. *)
Lemma khata_entries_move_one_balance_witness :
  let s := exec (saveBill "k1" Demo.creditBill (Some Demo.asha)) Demo.shop in
  (236 == balanceFor "c1" (Store.khata s))%Q
  ∧ (balanceFor "c1"
       (Store.khata (exec (addKhataPayment "k2" "c1" 236 "2024-03-06") s)) == 0)%Q.
Proof.
  intros s.
  assert (Hdue : (236 == balanceFor "c1" (Store.khata s))%Q)
    by (vm_compute; reflexivity).
  split; [exact Hdue|].
  exact (proj1 (proj2 (proj2 (khata_entries_move_one_balance "k2" "c1" Demo.asha
                                236 "2024-03-06" "" s "c1"))) Hdue).
Defined.

(** X8 at the credit sale to Asha in the shop that has made a cash sale. *)
Lemma credit_sale_then_cancel_witness :
  let recorded := exec (saveBill "k1" Demo.creditBill (Some Demo.asha)) Demo.busyShop in
  Bill.paymentMode Demo.creditBill = PaymentMode.CREDIT
  ∧ Bill.status Demo.creditBill ≠ Status.CANCELLED
  ∧ Forall (λ b, Bill.id b ≠ "b1") (Store.bills Demo.busyShop)
  ∧ Forall (λ k, KhataEntry.billId k ≠ Some "b1") (Store.khata Demo.busyShop)
  ∧ Store.khata (exec (cancelBill "b1") recorded) = Store.khata Demo.busyShop.
Proof.
  intros recorded.
  assert (Hmode : Bill.paymentMode Demo.creditBill = PaymentMode.CREDIT)
    by reflexivity.
  assert (Hstatus : Bill.status Demo.creditBill ≠ Status.CANCELLED) by discriminate.
  assert (Hfresh : Forall (λ b, Bill.id b ≠ Bill.id Demo.creditBill)
                     (Store.bills Demo.busyShop))
    by (repeat constructor; discriminate).
  assert (Hkhata : Forall (λ k, KhataEntry.billId k ≠ Some (Bill.id Demo.creditBill))
                     (Store.khata Demo.busyShop))
    by constructor.
  split; [exact Hmode|]. split; [exact Hstatus|]. split; [exact Hfresh|].
  split; [exact Hkhata|].
  exact (proj1 (proj2 (credit_sale_then_cancel "k1" Demo.creditBill Demo.asha
                         Demo.busyShop Hmode Hstatus Hfresh Hkhata))).
Defined.

(** X9 at the credit sale of the fifth of March. *)
Lemma dailyStats_sale_and_cancel_witness :
  let recorded := exec (saveBill "k1" Demo.creditBill (Some Demo.asha)) Demo.busyShop in
  String.prefix "2024-03-05" (Bill.date Demo.creditBill) = true
  ∧ Bill.status Demo.creditBill ≠ Status.CANCELLED
  ∧ ∃ stats,
      result (calculateDailyStats "2024-03-05") Demo.busyShop = Returned stats
      ∧ result (calculateDailyStats "2024-03-05") recorded
        = Returned (dailyStatsStep stats Demo.creditBill).
Proof.
  intros recorded.
  assert (Hday : String.prefix "2024-03-05" (Bill.date Demo.creditBill) = true)
    by reflexivity.
  assert (Hstatus : Bill.status Demo.creditBill ≠ Status.CANCELLED) by discriminate.
  split; [exact Hday|]. split; [exact Hstatus|].
  destruct (proj1 (dailyStats_sale_and_cancel "2024-03-05" "k1" Demo.creditBill
                     (Some Demo.asha) Demo.busyShop) Hday Hstatus)
    as (stats & Hbefore & Hafter & _).
  exists stats. split; [exact Hbefore|exact Hafter].
Defined.

(** X10 at the shop that has made the cash sale of 826. *)
Lemma liveCash_of_today_witness :
  Forall (λ b, (0 <= Bill.grandTotal b)%Q
               ∧ (Bill.paymentMode b = PaymentMode.MIXED →
                  (0 <= orZero (default 0 (Bill.upiAmount b))
                   <= Bill.grandTotal b)%Q)) (Store.bills Demo.busyShop)
  ∧ ∃ live,
      calculateTodayLiveCash "2024-03-05" "2024-03-05" Demo.busyShop
      = (Returned live, Demo.busyShop)
      ∧ (0 <= LiveCash.cashSales live)%Q.
Proof.
  assert (Hbills : Forall (λ b, (0 <= Bill.grandTotal b)%Q
                            ∧ (Bill.paymentMode b = PaymentMode.MIXED →
                               (0 <= orZero (default 0 (Bill.upiAmount b))
                                <= Bill.grandTotal b)%Q))
                     (Store.bills Demo.busyShop)).
  { constructor; [|constructor].
    split; [vm_compute; discriminate|]. intros Hmixed. discriminate Hmixed. }
  split; [exact Hbills|].
  destruct (liveCash_of_today "2024-03-05" "2024-03-05" Demo.busyShop)
    as (stats & live & _ & Hlive & _ & Hpos & _).
  exists live. split; [exact Hlive|exact (Hpos Hbills)].
Defined.

(** X13 at a cart of two soaps, of which five more are asked for and five
    are on the shelf. *)
Lemma cart_quantities_and_stock_witness :
  let cart := [Demo.line Demo.soap 2 0] in
  Forall (λ item, (CartItem.qty item ≤ Product.stock (CartItem.product item))%Z) cart
  ∧ Forall (λ item, (CartItem.qty item ≤ Product.stock (CartItem.product item))%Z)
      (updateQty "p1" 5 cart).
Proof.
  intros cart.
  assert (Hcart : Forall (λ item, (CartItem.qty item
                                   ≤ Product.stock (CartItem.product item))%Z) cart).
  { constructor; [|constructor]. cbn. lia. }
  split; [exact Hcart|].
  exact (proj1 (proj2 (proj2 (proj2 (cart_quantities_and_stock "p1" 5 Demo.soap
                                        cart)))) Hcart).
Defined.

(** X14 at the credit sale of two soaps to Asha. *)
Lemma checkout_then_finalize_witness :
  let confirmed := snd (handleCheckout decimalParseFloat Demo.billing) in
  let bill :=
    billOf decimalParseFloat "b7" "2024-03-05T11:00:00.000Z" 1709636400000
      confirmed in
  let s' := exec (finalizeBill decimalParseFloat "b7" "2024-03-05T11:00:00.000Z"
                    1709636400000 "k7" confirmed) Demo.shop in
  fst (handleCheckout decimalParseFloat Demo.billing) = None
  ∧ Store.bills s' = Store.bills Demo.shop ++ [bill]
  ∧ Bill.grandTotal bill = Totals.grandTotal (calculateTotals (BillingPage.cart Demo.billing)).
Proof.
  intros confirmed bill s'.
  assert (Hok : fst (handleCheckout decimalParseFloat Demo.billing) = None)
    by reflexivity.
  split; [exact Hok|].
  destruct (checkout_then_finalize decimalParseFloat "b7" "2024-03-05T11:00:00.000Z"
              1709636400000 "k7" Demo.billing Demo.shop Hok)
    as (_ & _ & Hbills & _ & _ & Htotal & _).
  split; [exact Hbills|exact Htotal].
Defined.

(** X15 at the fifth of March, closed with 5000 counted and 2000
    deposited: the sixth opens with 3000. *)
Lemma close_then_next_day_opens_witness :
  let pg := Demo.page "2024-03-05" "5000" "2000" in
  let s' := exec (handleCloseDay isoGetTime decimalParseFloat wholeToString pg)
              Demo.ledgerShop in
  (bankDepositVal decimalParseFloat pg <= actualCashVal decimalParseFloat pg)%Q
  ∧ str_lt "2024-03-05" "2024-03-06"
  ∧ getLedgerEntry isoGetTime "2024-03-06" s'
    = (Returned (newLedgerEntry "2024-03-06"
                   (actualCashVal decimalParseFloat pg
                    - bankDepositVal decimalParseFloat pg)), s').
Proof.
  intros pg s'.
  assert (Hle : (bankDepositVal decimalParseFloat pg
                 <= actualCashVal decimalParseFloat pg)%Q)
    by (vm_compute; discriminate).
  assert (Hlater : str_lt (LedgerPage.selectedDate pg) "2024-03-06")
    by (vm_compute; reflexivity).
  split; [exact Hle|]. split; [exact Hlater|].
  refine (close_then_next_day_opens isoGetTime decimalParseFloat wholeToString
            pg Demo.ledgerShop "2024-03-06" _ _ Hle Hlater _ _ _ _).
  - eexists. reflexivity.
  - discriminate.
  - eexists. vm_compute. reflexivity.
  - repeat constructor; eexists; vm_compute; reflexivity.
  - repeat constructor; discriminate.
  - constructor; [|constructor; [|constructor; [|constructor]]].
    + intros _. right. exists 1709510400000%Z, 1709596800000%Z. vm_compute. done.
    + intros _. right. exists 1709251200000%Z, 1709596800000%Z. vm_compute. done.
    + intros Hlt. vm_compute in Hlt. discriminate Hlt.
Defined.

(** X16 at two closings of the fifth of March. *)
Lemma saveLedgerDay_overrides_witness :
  let e1 := Demo.day "2024-03-05" 3000 in
  let e2 := Demo.day "2024-03-05" 2500 in
  LedgerEntry.date e1 = LedgerEntry.date e2
  ∧ exec (saveLedgerDay e2) (exec (saveLedgerDay e1) Demo.ledgerShop)
    = exec (saveLedgerDay e2) Demo.ledgerShop.
Proof.
  intros e1 e2.
  assert (Hdate : LedgerEntry.date e1 = LedgerEntry.date e2) by reflexivity.
  split; [exact Hdate|].
  exact (saveLedgerDay_overrides e1 e2 Demo.ledgerShop Hdate).
Defined.

(** X17 at the fifth of March with one cash sale of 826 after a day that
    closed with 3000: 3800 are counted and 1000 go to the bank. *)
Lemma auto_close_stores_the_day_witness :
  let pg0 := Demo.blankPage "2024-03-05" in
  let base := newLedgerEntry "2024-03-05" 3000 in
  let stats := DailyStats.mk 826 0 0 in
  result (getLedgerEntry isoGetTime "2024-03-05") Demo.openShop = Returned base
  ∧ result (calculateDailyStats "2024-03-05") Demo.openShop = Returned stats
  ∧ (parseNum decimalParseFloat "1000" <= parseNum decimalParseFloat "3800")%Q
  ∧ ∃ pg1 row,
      result (fetchData isoGetTime wholeToString "2024-03-05" pg0) Demo.openShop
      = Returned pg1
      ∧ filter (λ l, LedgerEntry.date l = "2024-03-05")
          (Store.ledger
             (exec (handleCloseDay isoGetTime decimalParseFloat wholeToString
                      (handleInputChange F_bankDeposit "1000"
                         (handleInputChange F_actualCash "3800" pg1)))
                Demo.openShop))
        = [row]
      ∧ (LedgerEntry.grossSales row == 826)%Q
      ∧ (LedgerEntry.expectedCash row == 3826)%Q
      ∧ LedgerEntry.closingBalance row
        = (parseNum decimalParseFloat "3800" - parseNum decimalParseFloat "1000")%Q.
Proof.
  intros pg0 base stats.
  assert (Hbase : result (getLedgerEntry isoGetTime (LedgerPage.selectedDate pg0))
                    Demo.openShop = Returned base)
    by (vm_compute; reflexivity).
  assert (Hstats : result (calculateDailyStats (LedgerPage.selectedDate pg0))
                     Demo.openShop = Returned stats)
    by (vm_compute; reflexivity).
  assert (Hle : (parseNum decimalParseFloat "1000"
                 <= parseNum decimalParseFloat "3800")%Q)
    by (vm_compute; discriminate).
  split; [exact Hbase|]. split; [exact Hstats|]. split; [exact Hle|].
  destruct (auto_close_stores_the_day isoGetTime decimalParseFloat wholeToString
              pg0 Demo.openShop base stats "3800" "1000" Hbase)
    as (pg1 & Hfetch & _ & row & Hrow & _ & _ & _ & Hgross & _ & _ & _ & Hexpected
        & _ & _ & Hclosing & _).
  - reflexivity.
  - exact Hstats.
  - repeat (constructor; [vm_compute; reflexivity|]). constructor.
  - vm_compute. lia.
  - vm_compute. lia.
  - discriminate.
  - exact Hle.
  - exists pg1, row. split; [exact Hfetch|]. split; [exact Hrow|].
    split; [exact Hgross|]. split; [|exact Hclosing].
    rewrite Hexpected. vm_compute. reflexivity.
Defined.

(** X18 at the fifth of March: the gross sales typed in manual mode are
    replaced by the 826 of the day, the expenses typed stay. *)
Lemma back_to_auto_restores_computed_fields_witness :
  let pg := Demo.page "2024-03-05" "" "" in
  let edits := [(F_grossSales, "9999"); (F_expenses, "150")] in
  let stats := DailyStats.mk 826 0 0 in
  LedgerPage.todayLedger pg = Some (newLedgerEntry "2024-03-05" 1000)
  ∧ result (calculateDailyStats "2024-03-05") Demo.openShop = Returned stats
  ∧ ∃ pg',
      result (autoRefresh wholeToString
                (handleModeSwitch wholeToString true
                   (foldl (λ p e, handleInputChange (fst e) (snd e) p)
                      (handleModeSwitch wholeToString false pg) edits)))
        Demo.openShop
      = Returned pg'
      ∧ Inputs.grossSales (LedgerPage.inputs pg') = "826"
      ∧ Inputs.expenses (LedgerPage.inputs pg') = "150".
Proof.
  intros pg edits stats.
  assert (Htoday : LedgerPage.todayLedger pg
                   = Some (newLedgerEntry "2024-03-05" 1000)) by reflexivity.
  assert (Hstats : result (calculateDailyStats (LedgerPage.selectedDate pg))
                     Demo.openShop = Returned stats)
    by (vm_compute; reflexivity).
  split; [exact Htoday|]. split; [exact Hstats|].
  destruct (back_to_auto_restores_computed_fields wholeToString edits pg
              Demo.openShop (newLedgerEntry "2024-03-05" 1000) stats Htoday
              eq_refl Hstats)
    as (pg' & Hrun & _ & _ & Hgross & _ & _ & Hexpenses & _).
  exists pg'. split; [exact Hrun|]. split.
  - rewrite Hgross. vm_compute. reflexivity.
  - rewrite Hexpenses. vm_compute. reflexivity.
Defined.

(** X19 at the fifth of March, open, with 3000 to start and a cash sale
    of 826. *)
Lemma cash_page_shows_live_cash_witness :
  let base := newLedgerEntry "2024-03-05" 3000 in
  let live := LiveCash.mk 826 0 in
  result (getTodayLedger isoGetTime "2024-03-05") Demo.openShop = Returned base
  ∧ LedgerEntry.isClosed base = false
  ∧ result (calculateTodayLiveCash "2024-03-05" "2024-03-05") Demo.openShop
    = Returned live
  ∧ ∃ view e,
      cashFetchData isoGetTime codeUnitCompare "2024-03-05" "2024-03-05"
        "2024-03-05" "2024-03-05" Demo.openShop
      = (Returned view, Demo.openShop)
      ∧ CashView.data view = Some e
      ∧ (LedgerEntry.expectedCash e == 3826)%Q.
Proof.
  intros base live.
  assert (Hbase : result (getTodayLedger isoGetTime "2024-03-05") Demo.openShop
                  = Returned base) by (vm_compute; reflexivity).
  assert (Hopen : LedgerEntry.isClosed base = false) by reflexivity.
  assert (Hlive : result (calculateTodayLiveCash "2024-03-05" "2024-03-05")
                    Demo.openShop = Returned live) by (vm_compute; reflexivity).
  split; [exact Hbase|]. split; [exact Hopen|]. split; [exact Hlive|].
  destruct (cash_page_shows_live_cash isoGetTime codeUnitCompare "2024-03-05"
              "2024-03-05" "2024-03-05" "2024-03-05" Demo.openShop)
    as (view & Hrun & _ & _ & _ & Htoday).
  destruct (Htoday eq_refl) as (base' & Hbase' & _ & Hlivecash).
  assert (Hsame : base' = base) by congruence. subst base'.
  destruct (Hlivecash Hopen "2024-03-05" live Hlive)
    as (e & stats & Hdata & _ & _ & _ & _ & _ & _ & Hexpected).
  exists view, e. split; [exact Hrun|]. split; [exact Hdata|].
  rewrite Hexpected. vm_compute. reflexivity.
Defined.

(** X21 at a list with salt, which is new, and soap in capitals: the 25
    pieces of the shop become 39. *)
Lemma import_adds_the_listed_stock_witness :
  let previewData := [Demo.saltLine; Demo.soapLine] in
  let s' := exec (finalizeImport asciiToLowerCase Demo.freshId Demo.fallbackCode
                    (Store.products Demo.shop) previewData) Demo.shop in
  NoDup (Product.id <$> Store.products Demo.shop)
  ∧ NoDup ((λ item, asciiToLowerCase (ImportItem.name item)) <$> previewData)
  ∧ NoDup (Demo.freshId <$> previewData)
  ∧ Forall (λ item, Demo.freshId item ∉ Product.id <$> Store.products Demo.shop)
      previewData
  ∧ totalStockOf (Store.products s') = (25 + 14)%Z.
Proof.
  intros previewData s'.
  assert (Hids : NoDup (Product.id <$> Store.products Demo.shop))
    by (by apply (bool_decide_unpack _); vm_compute).
  assert (Hnames : NoDup ((λ item, asciiToLowerCase (ImportItem.name item))
                            <$> previewData))
    by (by apply (bool_decide_unpack _); vm_compute).
  assert (Hfresh : NoDup (Demo.freshId <$> previewData))
    by (by apply (bool_decide_unpack _); vm_compute).
  assert (Hnew : Forall (λ item, Demo.freshId item
                                 ∉ Product.id <$> Store.products Demo.shop)
                   previewData)
    by (by apply (bool_decide_unpack _); vm_compute).
  split; [exact Hids|]. split; [exact Hnames|]. split; [exact Hfresh|].
  split; [exact Hnew|].
  destruct (import_adds_the_listed_stock asciiToLowerCase Demo.freshId
              Demo.fallbackCode previewData Demo.shop Hids Hnames Hfresh Hnew)
    as (stats & _ & _ & Htotal & Hsum & _).
  subst s'. rewrite Hsum, Htotal. reflexivity.
Defined.

(** X22 at a list that names the soap twice, with 10 and with 3 pieces:
    the statistics say 13 and the shop has 3 more. *)
Lemma import_repeated_name_keeps_last_witness :
  let import :=
    finalizeImport asciiToLowerCase Demo.freshId Demo.fallbackCode
      (Store.products Demo.shop) [Demo.soapLine; Demo.soapAgain] in
  NoDup (Product.id <$> Store.products Demo.shop)
  ∧ list_find (λ p, asciiToLowerCase (Product.name p)
                    = asciiToLowerCase (ImportItem.name Demo.soapLine))
      (Store.products Demo.shop) = Some (0%nat, Demo.soap)
  ∧ asciiToLowerCase (ImportItem.name Demo.soapAgain)
    = asciiToLowerCase (ImportItem.name Demo.soapLine)
  ∧ ∃ stats,
      result import Demo.shop
      = Returned (stats, Store.products (exec import Demo.shop))
      ∧ ImportStats.totalStock stats = 13%Z
      ∧ totalStockOf (Store.products (exec import Demo.shop))
        = (totalStockOf (Store.products Demo.shop) + 3)%Z.
Proof.
  intros import.
  assert (Hids : NoDup (Product.id <$> Store.products Demo.shop))
    by (by apply (bool_decide_unpack _); vm_compute).
  assert (Hfind : list_find (λ p, asciiToLowerCase (Product.name p)
                                  = asciiToLowerCase (ImportItem.name Demo.soapLine))
                    (Store.products Demo.shop) = Some (0%nat, Demo.soap))
    by (vm_compute; reflexivity).
  assert (Hname : asciiToLowerCase (ImportItem.name Demo.soapAgain)
                  = asciiToLowerCase (ImportItem.name Demo.soapLine))
    by (vm_compute; reflexivity).
  split; [exact Hids|]. split; [exact Hfind|]. split; [exact Hname|].
  destruct (import_repeated_name_keeps_last asciiToLowerCase Demo.freshId
              Demo.fallbackCode Demo.soapLine Demo.soapAgain Demo.shop 0 Demo.soap
              Hids Hfind Hname)
    as (stats & p & Hrun & _ & Htotal & _ & _ & _ & Hsum).
  exists stats. split; [exact Hrun|]. split; [exact Htotal|exact Hsum].
Defined.
